(** * PubMed brick, v2 stages: record extraction and partitioned output

    A shallow embedding of the processing scripts of the repository,

    - [stages_v2/reprocess_parquet.py]  (module [Reprocess]): reads the
      v1 table of (PMID, JSON) cells, decodes each JSON blob and extracts
      the searchable columns;
    - [stages_v2/download_and_process_baseline.py] (module [Baseline]):
      walks the [PubmedArticle] elements of a baseline XML file and
      extracts the same columns;
    - [stages/process.py] (module [V1]): the loop that writes the
      (PMID, JSON) cells the first script reads;

    together with the part of the Python runtime they rely on (module
    [Py]: dynamic values, truthiness, [str], [int], [str.isdigit],
    [str.join], [str.strip], [json.dumps]), of [xml.etree.ElementTree]
    (module [ET]) and the row, schema, buckets and partition writer both
    scripts share (module [Columns]).  The statements about the scripts
    follow the definitions.

    Conventions of the model.
    - A Python [str] is a Rocq [string]; a character is read as the code
      point of its byte, so the model covers text of code points 0..255.
    - A raised exception is the [Raise] outcome of the [result] monad.
    - [json.loads] is library code: the extractor is stated over an
      arbitrary decoder [json_loads : string -> option value], [None]
      standing for [json.JSONDecodeError].
    - Python floats are kept abstract behind the class [PyFloat].
    - The interpreter's limit on the number of digits [int] converts is not
      modelled: integers are unbounded, as the language defines them.
    - The tasks of a run write files under names of their own; the model
      runs them one after the other over the shared output tree. *)

From Stdlib Require Import ZArith Ascii String DecimalString DecimalPos
  DecimalZ Lia.
From stdpp Require Import base strings list gmap.

Set Warnings "-register-all".

Open Scope string_scope.
Open Scope list_scope.
Open Scope Z_scope.

(** ** The Python runtime *)

Module Py.

Inductive exn :=
  | JSONDecodeError | AttributeError | TypeError | ValueError
  | OverflowError | ArrowInvalid | ArrowTypeError.

Inductive result (A : Type) :=
  | Ok (a : A)
  | Raise (e : exn).
Arguments Ok {A} a.
Arguments Raise {A} e.

#[global] Instance result_ret : MRet result := λ A a, Ok a.
#[global] Instance result_bind : MBind result :=
  λ A B f m, match m with Ok a => f a | Raise e => Raise e end.
#[global] Instance result_fmap : FMap result :=
  λ A B f m, match m with Ok a => Ok (f a) | Raise e => Raise e end.

(** [for x in xs: ...] with a body that may raise. *)
Section MapM.
Context {A B : Type} (f : A → result B).

Fixpoint mapM (xs : list A) : result (list B) :=
  match xs with
  | [] => Ok []
  | x :: xs' => y ← f x; ys ← mapM xs'; Ok (y :: ys)
  end.

End MapM.

(** *** Characters and the string predicates *)

Definition ord (c : ascii) : N := N_of_ascii c.

(** The decimal digits, ['0'..'9']: what [int] and the regular expression
    [\d] accept below code point 256. *)
Definition is_decimal (c : ascii) : bool :=
  ((48 <=? ord c) && (ord c <=? 57))%N.

Definition decimal_value (c : ascii) : Z := Z.of_N (ord c) - 48.

(** [str.isdigit] per character: the decimal digits and the superscript
    digits U+00B2, U+00B3, U+00B9, which [int] does not accept. *)
Definition char_isdigit (c : ascii) : bool :=
  is_decimal c || (ord c =? 178)%N || (ord c =? 179)%N || (ord c =? 185)%N.

(** The whitespace [int] skips around a literal: tab to carriage return
    and the space, and of the code points above 127 the two that are
    spaces, U+0085 and U+00A0.  The separators U+001C..U+001F are no
    whitespace to [int]. *)
Definition char_isspace (c : ascii) : bool :=
  (((9 <=? ord c) && (ord c <=? 13)) || (ord c =? 32)
   || (ord c =? 133) || (ord c =? 160))%N.

Definition chars (s : string) : list ascii := list_ascii_of_string s.
Definition text (l : list ascii) : string := string_of_list_ascii l.

(** [s.isdigit()] *)
Definition isdigit (s : string) : bool :=
  match chars s with
  | [] => false
  | l => forallb char_isdigit l
  end.

(** The strings of decimal digits only (at least one). *)
Definition all_decimal (s : string) : bool :=
  match chars s with
  | [] => false
  | l => forallb is_decimal l
  end.

Fixpoint lstrip (p : ascii → bool) (l : list ascii) : list ascii :=
  match l with
  | c :: l' => if p c then lstrip p l' else l
  | [] => []
  end.

Definition strip_chars (p : ascii → bool) (l : list ascii) : list ascii :=
  rev (lstrip p (rev (lstrip p l))).

(** [s.strip(', ')] *)
Definition strip_comma_space (s : string) : string :=
  text (strip_chars (λ c, (ord c =? 44)%N || (ord c =? 32)%N) (chars s)).

(** [s[:n]] *)
Definition prefix (n : nat) (s : string) : string := text (take n (chars s)).

(** [sep.join(parts)] for parts already known to be strings. *)
Definition join (sep : string) (parts : list string) : string :=
  String.concat sep parts.

(** *** [int(s)] for a string: surrounding whitespace, an optional sign,
    decimal digits with single underscores between them. *)

Fixpoint digits_value (acc : Z) (l : list ascii) : option Z :=
  match l with
  | [] => Some acc
  | c :: l' =>
      if is_decimal c then digits_value (acc * 10 + decimal_value c) l'
      else if (ord c =? 95)%N then
        match l' with
        | d :: l'' =>
            if is_decimal d then digits_value (acc * 10 + decimal_value d) l''
            else None
        | [] => None
        end
      else None
  end.

Definition int_literal (l : list ascii) : option Z :=
  match l with
  | c :: l' => if is_decimal c then digits_value (decimal_value c) l' else None
  | [] => None
  end.

Definition int_of_str (s : string) : result Z :=
  let l := strip_chars char_isspace (chars s) in
  let parsed :=
    match l with
    | c :: l' =>
        if (ord c =? 45)%N then Z.opp <$> int_literal l'
        else if (ord c =? 43)%N then int_literal l'
        else int_literal l
    | [] => None
    end in
  match parsed with
  | Some n => Ok n
  | None => Raise ValueError
  end.

(** [str(n)] for an integer. *)
Definition str_of_int (n : Z) : string := NilZero.string_of_int (Z.to_int n).

(** *** Floats

    The scripts never compute with floats; a decoded document may still
    hold one.  What the code can observe of a float is its truth value,
    [int(f)], [str(f)] and its JSON text; [str(f)] always shows a point,
    an exponent, [inf] or [nan], so it never passes [isdigit]. *)

Class PyFloat := {
  pyfloat : Type;
  float_bool : pyfloat → bool;
  float_int : pyfloat → result Z;
  float_str : pyfloat → string;
  float_dumps : pyfloat → string;
  float_str_isdigit : ∀ f, isdigit (float_str f) = false
}.

(** Documents without floats: what [xmltodict] followed by [json.dumps]
    (stages/process.py) produces, every leaf being a string or null. *)
Definition NoFloat : PyFloat := {|
  pyfloat := Empty_set;
  float_bool := λ f, match f with end;
  float_int := λ f, match f with end;
  float_str := λ f, match f with end;
  float_dumps := λ f, match f with end;
  float_str_isdigit := λ f, match f with end
|}.

(** *** Dynamic values: what [json.loads] returns *)

Section Values.
Context `{F : PyFloat}.

Inductive value :=
  | VNone
  | VBool (b : bool)
  | VInt (n : Z)
  | VFloat (f : pyfloat)
  | VStr (s : string)
  | VList (l : list value)
  | VDict (d : list (string * value)).

(** A [dict] keeps its items in insertion order. *)
Definition dict := list (string * value).

(** [bool(v)] *)
Definition truthy (v : value) : bool :=
  match v with
  | VNone => false
  | VBool b => b
  | VInt n => negb (n =? 0)
  | VFloat f => float_bool f
  | VStr s => negb (String.eqb s "")
  | VList l => match l with [] => false | _ => true end
  | VDict d => match d with [] => false | _ => true end
  end.

(** [v != {}] *)
Definition ne_empty_dict (v : value) : bool :=
  match v with
  | VDict [] => false
  | _ => true
  end.

Fixpoint lookup_key (d : dict) (key : string) : option value :=
  match d with
  | [] => None
  | (k, v) :: d' => if String.eqb k key then Some v else lookup_key d' key
  end.

(** [d.get(key, default)] *)
Definition dict_get (d : dict) (key : string) (default : value) : value :=
  match lookup_key d key with
  | Some v => v
  | None => default
  end.

(** [obj.get(key, default)] on an arbitrary object: only a [dict] has the
    method. *)
Definition get (obj : value) (key : string) (default : value) : result value :=
  match obj with
  | VDict d => Ok (dict_get d key default)
  | _ => Raise AttributeError
  end.

(** [a or b] *)
Definition or_else (a b : value) : value := if truthy a then a else b.

(** *** [repr] and [str] *)

Definition hex_digit (n : N) : ascii :=
  ascii_of_N (if (n <? 10)%N then 48 + n else 87 + n).

(** Characters [repr] prints as they are: the printable ones. *)
Definition printable (c : ascii) : bool :=
  (((32 <=? ord c) && (ord c <=? 126))
   || ((161 <=? ord c) && negb (ord c =? 173)))%N.

Definition repr_char (quote : ascii) (c : ascii) : list ascii :=
  if (ord c =? 92)%N then ["\"; "\"]%char
  else if Ascii.eqb c quote then ["\"%char; c]
  else if (ord c =? 9)%N then ["\"; "t"]%char
  else if (ord c =? 10)%N then ["\"; "n"]%char
  else if (ord c =? 13)%N then ["\"; "r"]%char
  else if printable c then [c]
  else ["\"%char; "x"%char; hex_digit (ord c / 16); hex_digit (ord c mod 16)].

(** [repr(s)] for a string: single quotes, unless the text has a single
    quote and no double quote. *)
Definition repr_str (s : string) : string :=
  let l := chars s in
  let has q := existsb (Ascii.eqb q) l in
  let quote := if has "'"%char && negb (has "034"%char) then "034"%char else "'"%char in
  text (quote :: flat_map (repr_char quote) l ++ [quote]).

Fixpoint repr (v : value) : string :=
  match v with
  | VNone => "None"
  | VBool true => "True"
  | VBool false => "False"
  | VInt n => str_of_int n
  | VFloat f => float_str f
  | VStr s => repr_str s
  | VList l => "[" +:+ join ", " (map repr l) +:+ "]"
  | VDict d =>
      "{" +:+ join ", " (map (λ kv, repr_str kv.1 +:+ ": " +:+ repr kv.2) d) +:+ "}"
  end.

(** [str(v)], also what an f-string field [{v}] renders. *)
Definition str (v : value) : string :=
  match v with
  | VStr s => s
  | _ => repr v
  end.

(** *** [json.dumps(v)], default separators, [ensure_ascii] on *)

Definition dumps_char (c : ascii) : list ascii :=
  if (ord c =? 34)%N then ["\"; "034"]%char
  else if (ord c =? 92)%N then ["\"; "\"]%char
  else if (ord c =? 10)%N then ["\"; "n"]%char
  else if (ord c =? 13)%N then ["\"; "r"]%char
  else if (ord c =? 9)%N then ["\"; "t"]%char
  else if (ord c =? 8)%N then ["\"; "b"]%char
  else if (ord c =? 12)%N then ["\"; "f"]%char
  else if ((32 <=? ord c) && (ord c <=? 126))%N then [c]
  else ["\"%char; "u"%char; "0"%char; "0"%char;
        hex_digit (ord c / 16); hex_digit (ord c mod 16)].

Definition dumps_str (s : string) : string :=
  text ("034"%char :: flat_map dumps_char (chars s) ++ ["034"%char]).

Fixpoint json_dumps (v : value) : string :=
  match v with
  | VNone => "null"
  | VBool true => "true"
  | VBool false => "false"
  | VInt n => str_of_int n
  | VFloat f => float_dumps f
  | VStr s => dumps_str s
  | VList l => "[" +:+ join ", " (map json_dumps l) +:+ "]"
  | VDict d =>
      "{" +:+ join ", " (map (λ kv, dumps_str kv.1 +:+ ": " +:+ json_dumps kv.2) d)
          +:+ "}"
  end.

(** [int(v)] *)
Definition int (v : value) : result Z :=
  match v with
  | VBool b => Ok (if b then 1 else 0)
  | VInt n => Ok n
  | VFloat f => float_int f
  | VStr s => int_of_str s
  | VNone | VList _ | VDict _ => Raise TypeError
  end.

(** [sep.join(parts)]: every part has to be a [str]. *)
Definition join_values (sep : string) (parts : list value) : result string :=
  strs ← mapM (λ p, match p with VStr s => Ok s | _ => Raise TypeError end) parts;
  Ok (join sep strs).

(** [len(v)] *)
Definition len (v : value) : result nat :=
  match v with
  | VStr s => Ok (length (chars s))
  | VList l => Ok (length l)
  | VDict d => Ok (length d)
  | _ => Raise TypeError
  end.

(** [v[:n]]; a [dict] cannot be sliced. *)
Definition slice_to (n : nat) (v : value) : result value :=
  match v with
  | VStr s => Ok (VStr (prefix n s))
  | VList l => Ok (VList (take n l))
  | _ => Raise TypeError
  end.

(** [v.isdigit()]: a method of [str] only. *)
Definition call_isdigit (v : value) : result bool :=
  match v with
  | VStr s => Ok (isdigit s)
  | _ => Raise AttributeError
  end.

End Values.

End Py.

(** ** The flat row and the column schema

    Both scripts declare the same [SCHEMA] and build the same row
    dictionary.  A column whose Python value is a [str] on every path is a
    [string] here; [Title], [DOI] and [Journal] can carry whatever the
    decoded document holds under the key [#text]. *)

Module Columns.
Import Py.

Section Row.
Context `{F : PyFloat}.

Record Row := {
  PMID : Z;
  Title : value;
  Abstract : string;
  DOI : value;
  Year : option Z;
  Authors : string;
  Journal : value;
  MeSH_Terms : string;
  Keywords : string;
  Pub_Types : string;
  Date_Created : string;
  Date_Revised : string;
  JSON : string
}.

Definition fits_int64 (n : Z) : bool := (- 2 ^ 63 <=? n) && (n <? 2 ^ 63).
Definition fits_int32 (n : Z) : bool := (- 2 ^ 31 <=? n) && (n <? 2 ^ 31).

(** A [pa.string()] column takes a [str] or a null. *)
Definition fits_string (v : value) : bool :=
  match v with
  | VStr _ | VNone => true
  | _ => false
  end.

(** [pa.table(arrays, schema=SCHEMA)] converts every cell to the type of its
    column and raises on a cell that does not fit. *)
Definition SCHEMA (r : Row) : bool :=
  fits_int64 (PMID r)
  && fits_string (Title r)
  && fits_string (DOI r)
  && match Year r with Some y => fits_int32 y | None => true end
  && fits_string (Journal r).

(** The exception [pa.table] raises for rows it does not take.  The
    columns are converted in the order of the schema, each over all its
    rows.  An integer column raises [OverflowError] for a Python int beyond
    64 bits, and [ArrowInvalid] for one within them that the column has no
    room for; a string column raises [ArrowTypeError] for a cell that is
    neither a [str] nor a null. *)
Definition table_error (records : list Row) : exn :=
  if negb (forallb (λ r, fits_int64 (PMID r)) records) then OverflowError
  else if negb (forallb (λ r, fits_string (Title r)) records)
  then ArrowTypeError
  else if negb (forallb (λ r, fits_string (DOI r)) records)
  then ArrowTypeError
  else
    match omap (λ r, match Year r with
                     | Some y => if fits_int32 y then None else Some y
                     | None => None
                     end) records with
    | y :: _ => if fits_int64 y then ArrowInvalid else OverflowError
    | [] => ArrowTypeError
    end.

(** [record['Year'] or 0] *)
Definition year_or_0 (record : Row) : Z :=
  match Year record with
  | Some y => if y =? 0 then 0 else y
  | None => 0
  end.

(** [records_by_year]: a dict from year to the list of its rows, in the
    order the years were first seen. *)
Definition buckets := list (Z * list Row).

Fixpoint lookup_year {V} (year : Z) (d : list (Z * V)) : option V :=
  match d with
  | [] => None
  | (y, v) :: d' => if y =? year then Some v else lookup_year year d'
  end.

(** [if year not in records_by_year: records_by_year[year] = []]
    [records_by_year[year].append(record)] *)
Fixpoint bucket_append (year : Z) (record : Row) (d : buckets) : buckets :=
  match d with
  | [] => [(year, [record])]
  | (y, rs) :: d' =>
      if y =? year then (y, rs ++ [record]) :: d'
      else (y, rs) :: bucket_append year record d'
  end.

Definition route (record : Row) (records_by_year : buckets) : buckets :=
  bucket_append (year_or_0 record) record records_by_year.

(** The output tree: the partition file at [year=<year>/<out_name>] and
    the rows it holds. *)
Local Abbreviation tree := (gmap (Z * string) (list Row)).

(** [d[key] = v] on an insertion-ordered dict. *)
Fixpoint dict_set {V} (key : Z) (v : V) (d : list (Z * V)) : list (Z * V) :=
  match d with
  | [] => [(key, v)]
  | (k, w) :: d' =>
      if k =? key then (k, v) :: d' else (k, w) :: dict_set key v d'
  end.

(** The loop "Write partitioned output": one file per bucket, written in
    the order of the buckets; [pq.write_table] replaces a file that is
    there.  The loop returns the tree as it leaves it and either the
    [stats['years']] dict or the exception of the table that did not
    build. *)
Fixpoint write_partitions (out_name : string) (records_by_year : buckets)
    (fs : tree) (years : list (Z * nat))
    : tree * result (list (Z * nat)) :=
  match records_by_year with
  | [] => (fs, Ok years)
  | (year, records) :: rest =>
      if forallb SCHEMA records then
        write_partitions out_name rest
          (<[(year, out_name) := records]> fs)
          (dict_set year (length records) years)
      else (fs, Raise (table_error records))
  end.

(** [year_totals[year] = year_totals.get(year, 0) + count] over the items of
    one task's [stats['years']]. *)
Definition add_years (years : list (Z * nat)) (year_totals : gmap Z nat)
    : gmap Z nat :=
  foldl (λ totals '(year, count),
           <[year := (default 0%nat (totals !! year) + count)%nat]> totals)
        year_totals years.

End Row.

Abbreviation tree := (gmap (Z * string) (list Row)).

End Columns.

(** ** stages_v2/reprocess_parquet.py *)

Module Reprocess.
Import Py Columns.

Section Script.
Context `{F : PyFloat}.

(** [json.loads]: the decoded document, or [None] for
    [json.JSONDecodeError]. *)
Variable json_loads : string → option value.

(** The walk of [safe_get] over its keys: [None] is the early
    [return default]. *)
Fixpoint safe_get_walk (d : value) (keys : list string) : option value :=
  match keys with
  | [] => Some d
  | key :: keys' =>
      match d with
      | VDict items => safe_get_walk (dict_get items key (VDict [])) keys'
      | _ => None
      end
  end.

(** [safe_get(d, *keys)], with the default [''] of its signature. *)
Definition safe_get (d : value) (keys : list string) : value :=
  match safe_get_walk d keys with
  | Some d' => if truthy d' && ne_empty_dict d' then d' else VStr ""
  | None => VStr ""
  end.

Fixpoint extract_text (obj : value) : result value :=
  match obj with
  | VNone => Ok (VStr "")
  | VStr _ => Ok obj
  | VDict d => Ok (dict_get d "#text" (VStr (str obj)))
  | VList l =>
      parts ← mapM extract_text l;
      s ← join_values " " parts;
      Ok (VStr s)
  | _ => Ok (VStr (str obj))
  end.

(** *** The blocks of [extract_fields], in the order of the source *)

(** # PMID *)
Definition pmid_val (medline : value) (pmid : string) : value :=
  or_else (safe_get medline ["PMID"; "#text"]) (VStr pmid).

Definition get_pmid_int (medline : value) (pmid : string) : result Z :=
  let v := pmid_val medline pmid in
  if isdigit (str v) then int v else Ok 0.

(** # Title *)
Definition get_title (article : value) : result value :=
  t ← get article "ArticleTitle" (VStr "");
  extract_text t.

(** # Abstract - handle structured abstracts *)
Definition abstract_item (item : value) : value :=
  match item with
  | VDict d =>
      let label := dict_get d "@Label" (VStr "") in
      let text := dict_get d "#text" (VStr (str item)) in
      if truthy label then VStr (str label +:+ ": " +:+ str text) else text
  | _ => VStr (str item)
  end.

Definition abstract_parts (article : value) : list value :=
  let abstract_data := safe_get article ["Abstract"; "AbstractText"] in
  if truthy abstract_data then
    match abstract_data with
    | VList l => map abstract_item l
    | VDict d => [dict_get d "#text" (VStr (str abstract_data))]
    | _ => [VStr (str abstract_data)]
    end
  else [].

Definition get_abstract (article : value) : result string :=
  join_values " " (abstract_parts article).

(** # DOI *)
Definition is_doi (aid : dict) : bool :=
  match lookup_key aid "@IdType" with
  | Some (VStr t) => String.eqb t "doi"
  | _ => false
  end.

Fixpoint first_doi (article_ids : list value) : value :=
  match article_ids with
  | [] => VStr ""
  | aid :: rest =>
      match aid with
      | VDict d => if is_doi d then dict_get d "#text" (VStr "") else first_doi rest
      | _ => first_doi rest
      end
  end.

Definition get_doi (pubmed_data : value) : value :=
  let article_ids := safe_get pubmed_data ["ArticleIdList"; "ArticleId"] in
  if truthy article_ids then
    match article_ids with
    | VList l => first_doi l
    | VDict d => if is_doi d then dict_get d "#text" (VStr "") else VStr ""
    | _ => VStr ""
    end
  else VStr "".

(** # Year *)
Definition pub_date_of (article : value) : value :=
  safe_get article ["Journal"; "JournalIssue"; "PubDate"].

Definition year_explicit (pub_date : value) : result (option Z) :=
  match pub_date with
  | VDict d =>
      let year_str := dict_get d "Year" (VStr "") in
      if truthy year_str && isdigit (str year_str)
      then Some <$> int year_str
      else Ok None
  | _ => Ok None
  end.

(** [not year] *)
Definition not_year (year : option Z) : bool :=
  match year with
  | None => true
  | Some y => y =? 0
  end.

(** # Fallback to MedlineDate *)
Definition year_fallback (pub_date : value) (year : option Z)
    : result (option Z) :=
  match pub_date with
  | VDict d =>
      if not_year year then
        let medline_date := dict_get d "MedlineDate" (VStr "") in
        if truthy medline_date then
          n ← len medline_date;
          if (4 <=? n)%nat then
            year_str ← slice_to 4 medline_date;
            all_digits ← call_isdigit year_str;
            if (all_digits : bool) then Some <$> int year_str else Ok year
          else Ok year
        else Ok year
      else Ok year
  | _ => Ok year
  end.

Definition get_year (article : value) : result (option Z) :=
  let pub_date := pub_date_of article in
  year ← year_explicit pub_date;
  year_fallback pub_date year.

(** # Authors *)
Definition author_name (author : dict) : list string :=
  let last := dict_get author "LastName" (VStr "") in
  let first := dict_get author "ForeName" (VStr "") in
  if truthy last
  then [strip_comma_space (str last +:+ ", " +:+ str first)]
  else [].

Definition get_authors (article : value) : string :=
  let author_list := safe_get article ["AuthorList"; "Author"] in
  join "; "
    (if truthy author_list then
       match author_list with
       | VList l =>
           flat_map (λ author,
             match author with VDict d => author_name d | _ => [] end) l
       | VDict d => author_name d
       | _ => []
       end
     else []).

(** # Journal *)
Definition get_journal (article : value) : result value :=
  extract_text (safe_get article ["Journal"; "Title"]).

(** # MeSH Terms *)
Definition mesh_terms (medline : value) : list value :=
  let mesh_list := safe_get medline ["MeshHeadingList"; "MeshHeading"] in
  if truthy mesh_list then
    match mesh_list with
    | VList l =>
        flat_map (λ mesh,
          match mesh with
          | VDict m =>
              match dict_get m "DescriptorName" (VDict []) with
              | VDict desc => [dict_get desc "#text" (VStr "")]
              | VStr s => [VStr s]
              | _ => []
              end
          | _ => []
          end) l
    | VDict m =>
        match dict_get m "DescriptorName" (VDict []) with
        | VDict desc => [dict_get desc "#text" (VStr "")]
        | _ => []
        end
    | _ => []
    end
  else [].

(** # Keywords *)
Definition keywords (medline : value) : list value :=
  let kw_list := safe_get medline ["KeywordList"; "Keyword"] in
  if truthy kw_list then
    match kw_list with
    | VList l =>
        flat_map (λ kw,
          match kw with
          | VDict d => [dict_get d "#text" (VStr "")]
          | VStr s => [VStr s]
          | _ => []
          end) l
    | VDict d => [dict_get d "#text" (VStr "")]
    | VStr s => [VStr s]
    | _ => []
    end
  else [].

(** # Publication Types *)
Definition pub_types (article : value) : list value :=
  let pt_list := safe_get article ["PublicationTypeList"; "PublicationType"] in
  if truthy pt_list then
    match pt_list with
    | VList l =>
        flat_map (λ pt,
          match pt with
          | VDict d => [dict_get d "#text" (VStr "")]
          | VStr s => [VStr s]
          | _ => []
          end) l
    | VDict d => [dict_get d "#text" (VStr "")]
    | _ => []
    end
  else [].

(** # Dates: [DateCreated] and [DateRevised] share the block. *)
Definition get_date (medline : value) (key : string) : result string :=
  dc ← get medline key (VDict []);
  match dc with
  | VDict d =>
      if truthy (dict_get d "Year" VNone) then
        Ok (str (dict_get d "Year" (VStr "")) +:+ "-"
            +:+ str (dict_get d "Month" (VStr "01")) +:+ "-"
            +:+ str (dict_get d "Day" (VStr "01")))
      else Ok ""
  | _ => Ok ""
  end.

(** The row of the [except json.JSONDecodeError] branch. *)
Definition degraded (pmid_int : Z) (json_str : string) : Row := {|
  PMID := pmid_int;
  Title := VStr "";
  Abstract := "";
  DOI := VStr "";
  Year := None;
  Authors := "";
  Journal := VStr "";
  MeSH_Terms := "";
  Keywords := "";
  Pub_Types := "";
  Date_Created := "";
  Date_Revised := "";
  JSON := json_str
|}.

Definition extract_fields (pmid json_str : string) : result Row :=
  match json_loads json_str with
  | None =>
      pmid_int ← (if isdigit pmid then int_of_str pmid else Ok 0);
      Ok (degraded pmid_int json_str)
  | Some data =>
      medline ← get data "MedlineCitation" (VDict []);
      article ← get medline "Article" (VDict []);
      pubmed_data ← get data "PubmedData" (VDict []);
      pmid_int ← get_pmid_int medline pmid;
      title ← get_title article;
      abstract ← get_abstract article;
      let doi := get_doi pubmed_data in
      year ← get_year article;
      let authors_str := get_authors article in
      journal ← get_journal article;
      mesh_str ← join_values "; " (mesh_terms medline);
      keywords_str ← join_values "; " (keywords medline);
      pub_types_str ← join_values "; " (pub_types article);
      date_created ← get_date medline "DateCreated";
      date_revised ← get_date medline "DateRevised";
      Ok {|
        PMID := pmid_int;
        Title := title;
        Abstract := abstract;
        DOI := doi;
        Year := year;
        Authors := authors_str;
        Journal := journal;
        MeSH_Terms := mesh_str;
        Keywords := keywords_str;
        Pub_Types := pub_types_str;
        Date_Created := date_created;
        Date_Revised := date_revised;
        JSON := json_str
      |}
  end.

(** *** [process_parquet_file] *)

(** The input table: its [PMID] and [JSON] columns, cell by cell, both
    of string type as the v1 stage wrote them ([str(pmid)] is the cell). *)
Definition table := list (string * string).

(** # Extract fields for each record *)
Fixpoint extract_all (rows : table) (records_by_year : buckets)
    : result buckets :=
  match rows with
  | [] => Ok records_by_year
  | (pmid, json_str) :: rows' =>
      record ← extract_fields pmid json_str;
      extract_all rows' (route record records_by_year)
  end.

Record stats := {
  input_file : string;
  records : nat;
  years : list (Z * nat)
}.

(** [stem] is [input_path.stem]. *)
Definition process_parquet_file (stem : string) (rows : table) (fs : tree)
    : tree * result stats :=
  match extract_all rows [] with
  | Raise e => (fs, Raise e)
  | Ok records_by_year =>
      let (fs', written) :=
        write_partitions (stem +:+ ".parquet") records_by_year fs [] in
      (fs', ys ← written;
            Ok {| input_file := stem; records := length rows; years := ys |})
  end.

(** *** [main]: the loop over the completed futures and the totals it
    keeps.  A task that raised is reported and adds nothing. *)
Record totals := {
  total_records : nat;
  year_totals : gmap Z nat
}.

Definition collect (acc : totals) (outcome : result stats) : totals :=
  match outcome with
  | Ok st => {|
      total_records := (total_records acc + records st)%nat;
      year_totals := add_years (years st) (year_totals acc) |}
  | Raise _ => acc
  end.

(** One task per input file, each writing to the shared output tree; the
    tasks write under file names of their own, and the outcomes are
    collected in the order the tasks complete, here the order of the list. *)
Fixpoint run_tasks (files : list (string * table)) (fs : tree)
    : tree * list (result stats) :=
  match files with
  | [] => (fs, [])
  | (stem, rows) :: files' =>
      let (fs1, outcome) := process_parquet_file stem rows fs in
      let (fs2, outcomes) := run_tasks files' fs1 in
      (fs2, outcome :: outcomes)
  end.

Definition main (files : list (string * table)) (fs : tree) : tree * totals :=
  let (fs', outcomes) := run_tasks files fs in
  (fs', foldl collect {| total_records := 0; year_totals := ∅ |} outcomes).

End Script.
End Reprocess.

(** ** xml.etree.ElementTree: elements and the path queries the script uses *)

Module ET.
Import Py.

Inductive Element :=
  | Elem (tag : string) (attrib : list (string * string))
         (text : option string) (children : list Element)
         (tail : option string).

Definition tag (e : Element) : string :=
  match e with Elem t _ _ _ _ => t end.
Definition attrib (e : Element) : list (string * string) :=
  match e with Elem _ a _ _ _ => a end.
Definition text (e : Element) : option string :=
  match e with Elem _ _ x _ _ => x end.
Definition children (e : Element) : list Element :=
  match e with Elem _ _ _ c _ => c end.
Definition tail (e : Element) : option string :=
  match e with Elem _ _ _ _ x => x end.

Definition has_tag (name : string) (e : Element) : bool :=
  String.eqb (tag e) name.

(** [e.findall(name)]: the children with that tag, in document order. *)
Definition findall (e : Element) (name : string) : list Element :=
  List.filter (has_tag name) (children e).

(** [e.find(name)] *)
Definition find (e : Element) (name : string) : option Element :=
  head (findall e name).

(** [e.findtext(name)]: [None] without such a child, [''] for a child
    without text. *)
Definition findtext (e : Element) (name : string) : option string :=
  match find e name with
  | Some c => Some (default "" (text c))
  | None => None
  end.

(** [e.get(key, '')] on the attributes. *)
Fixpoint attr (a : list (string * string)) (key : string) : string :=
  match a with
  | [] => ""
  | (k, v) :: a' => if String.eqb k key then v else attr a' key
  end.

(** [e.get(key)], [None] when the attribute is missing. *)
Fixpoint attr_opt (a : list (string * string)) (key : string) : option string :=
  match a with
  | [] => None
  | (k, v) :: a' => if String.eqb k key then Some v else attr_opt a' key
  end.

(** The descendants of [e] in document order, [e] itself left out: what
    a path starting with [.//] ranges over. *)
Fixpoint descendants (e : Element) : list Element :=
  match e with
  | Elem _ _ _ cs _ => flat_map (λ c, c :: descendants c) cs
  end.

(** [e.findall('.//name')] *)
Definition findall_desc (e : Element) (name : string) : list Element :=
  List.filter (has_tag name) (descendants e).

(** [e.find('.//name')] *)
Definition find_desc (e : Element) (name : string) : option Element :=
  head (findall_desc e name).

(** [e.findall('.//outer/inner')] *)
Definition findall_desc_child (e : Element) (outer inner : string)
    : list Element :=
  flat_map (λ o, findall o inner) (findall_desc e outer).

(** The pieces [e.itertext()] yields: the element's text, then for every
    child its own pieces and its tail; empty pieces are skipped. *)
Definition piece (t : option string) : list string :=
  match t with
  | Some s => if String.eqb s "" then [] else [s]
  | None => []
  end.

Fixpoint itertext (e : Element) : list string :=
  match e with
  | Elem _ _ t cs _ =>
      piece t ++ flat_map (λ c, itertext c ++ piece (tail c)) cs
  end.

(** [''.join(e.itertext())] *)
Definition all_text (e : Element) : string := join "" (itertext e).

(** [e.text or ''] *)
Definition text_or_empty (e : Element) : string := default "" (text e).

End ET.

(** ** stages_v2/download_and_process_baseline.py *)

Module Baseline.
Import Py Columns ET.

(** [re.match(r'(\d{4})', s)]: the group, when [s] starts with four
    decimal digits. *)
Definition match_4_digits (s : string) : option string :=
  let p := take 4 (chars s) in
  if (length p =? 4)%nat && forallb is_decimal p then Some (Py.text p) else None.

(** [x or default] for the result of [findtext]. *)
Definition text_or (x : option string) (default : string) : string :=
  match x with
  | Some s => if String.eqb s "" then default else s
  | None => default
  end.

(** [e.text], when it is there and not empty. *)
Definition nonempty_text (e : Element) : option string :=
  match text e with
  | Some s => if String.eqb s "" then None else Some s
  | None => None
  end.

Section Script.
Context `{F : PyFloat}.

(** *** The blocks of [extract_article_fields] *)

(** # PMID *)
Definition get_pmid (medline : Element) : result Z :=
  match find medline "PMID" with
  | Some pmid_elem =>
      match nonempty_text pmid_elem with
      | Some t => int_of_str t
      | None => Ok 0
      end
  | None => Ok 0
  end.

(** # Title *)
Definition get_title (article : option Element) : string :=
  match article ≫= (λ a, find a "ArticleTitle") with
  | Some title_elem => all_text title_elem
  | None => ""
  end.

(** # Abstract - handle structured abstracts *)
Definition abstract_part (text_elem : Element) : string :=
  let label := attr (attrib text_elem) "Label" in
  let content := all_text text_elem in
  if String.eqb label "" then content else label +:+ ": " +:+ content.

Definition get_abstract (article : option Element) : string :=
  join " "
    match article ≫= (λ a, find a "Abstract") with
    | Some abstract_elem => map abstract_part (findall abstract_elem "AbstractText")
    | None => []
    end.

(** # DOI *)
Definition is_doi (aid : Element) : bool :=
  match attr_opt (attrib aid) "IdType" with
  | Some t => String.eqb t "doi"
  | None => false
  end.

Fixpoint first_doi (aids : list Element) : string :=
  match aids with
  | [] => ""
  | aid :: rest => if is_doi aid then text_or_empty aid else first_doi rest
  end.

Definition get_doi (pubmed_data : option Element) : string :=
  match pubmed_data with
  | Some pd => first_doi (findall_desc pd "ArticleId")
  | None => ""
  end.

(** # Year *)
Definition year_explicit (pub_date : Element) : option Z :=
  match find pub_date "Year" ≫= nonempty_text with
  | Some t =>
      match int_of_str t with
      | Ok n => Some n
      | Raise _ => None
      end
  | None => None
  end.

(** # Fallback to MedlineDate *)
Definition year_fallback (pub_date : Element) : result (option Z) :=
  match find pub_date "MedlineDate" ≫= nonempty_text with
  | Some t =>
      match match_4_digits t with
      | Some group1 => Some <$> int_of_str group1
      | None => Ok None
      end
  | None => Ok None
  end.

Definition get_year (article : option Element) : result (option Z) :=
  match article ≫= (λ a, find_desc a "PubDate") with
  | Some pub_date =>
      match year_explicit pub_date with
      | Some y => Ok (Some y)
      | None => year_fallback pub_date
      end
  | None => Ok None
  end.

(** # Authors *)
Definition author_name (author : Element) : list string :=
  let last := text_or (findtext author "LastName") "" in
  let first := text_or (findtext author "ForeName") "" in
  if String.eqb last "" then []
  else [strip_comma_space (last +:+ ", " +:+ first)].

Definition get_authors (article : option Element) : string :=
  join "; "
    match article with
    | Some a => flat_map author_name (findall_desc a "Author")
    | None => []
    end.

(** # Journal *)
Definition get_journal (article : option Element) : string :=
  match article ≫= (λ a, head (findall_desc_child a "Journal" "Title")) with
  | Some journal_elem => text_or_empty journal_elem
  | None => ""
  end.

(** The texts of the elements that have one. *)
Definition texts (es : list Element) : list string :=
  omap nonempty_text es.

(** # Dates *)
Definition get_date (medline : Element) (name : string) : string :=
  match find medline name with
  | Some dc =>
      let y := text_or (findtext dc "Year") "" in
      let m := text_or (findtext dc "Month") "01" in
      let d := text_or (findtext dc "Day") "01" in
      if String.eqb y "" then "" else y +:+ "-" +:+ m +:+ "-" +:+ d
  | None => ""
  end.

(** The [Year] entry of the dict given to [json.dumps]. *)
Definition value_of_year (year : option Z) : value :=
  match year with
  | Some y => VInt y
  | None => VNone
  end.

(** The body of the [try] block: [Ok None] is the [return None] for a
    record without [MedlineCitation]. *)
Definition extract_article_body (article_elem : Element) : result (option Row) :=
  match find article_elem "MedlineCitation" with
  | None => Ok None
  | Some medline =>
      let pubmed_data := find article_elem "PubmedData" in
      let article := find medline "Article" in
      pmid ← get_pmid medline;
      let title := get_title article in
      let abstract := get_abstract article in
      let doi := get_doi pubmed_data in
      year ← get_year article;
      let authors_str := get_authors article in
      let journal := get_journal article in
      let mesh_str :=
        join "; " (texts (findall_desc_child medline "MeshHeading" "DescriptorName")) in
      let keywords_str := join "; " (texts (findall_desc medline "Keyword")) in
      let pub_types_str :=
        join "; "
          match article with
          | Some a => texts (findall_desc a "PublicationType")
          | None => []
          end in
      let date_created := get_date medline "DateCreated" in
      let date_revised := get_date medline "DateRevised" in
      let json_str :=
        json_dumps (VDict
          [("PMID", VInt pmid); ("Title", VStr title);
           ("Abstract", VStr abstract); ("DOI", VStr doi);
           ("Year", value_of_year year); ("Authors", VStr authors_str);
           ("Journal", VStr journal); ("MeSH_Terms", VStr mesh_str);
           ("Keywords", VStr keywords_str); ("Pub_Types", VStr pub_types_str)]) in
      Ok (Some {|
        PMID := pmid;
        Title := VStr title;
        Abstract := abstract;
        DOI := VStr doi;
        Year := year;
        Authors := authors_str;
        Journal := VStr journal;
        MeSH_Terms := mesh_str;
        Keywords := keywords_str;
        Pub_Types := pub_types_str;
        Date_Created := date_created;
        Date_Revised := date_revised;
        JSON := json_str
      |})
  end.

(** [except Exception: ... return None] *)
Definition extract_article_fields (article_elem : Element) : option Row :=
  match extract_article_body article_elem with
  | Ok record => record
  | Raise _ => None
  end.

(** *** [process_xml_file] *)

(** What [ET.iterparse] over the decompressed file delivers: the elements
    of its [end] events, each as it stands when its event arrives, and the
    error that stops the stream, if the file is damaged. *)
Record xml_stream := {
  events : list Element;
  broken : option string
}.

Inductive stats :=
  | Stats (file : string) (records : nat) (years : list (Z * nat))
  | Error (error : string) (file : string).

Definition records_of (st : stats) : nat :=
  match st with
  | Stats _ n _ => n
  | Error _ _ => 0%nat
  end.

Definition years_of (st : stats) : list (Z * nat) :=
  match st with
  | Stats _ _ ys => ys
  | Error _ _ => []
  end.

(** The loop over the events: the buckets and [total_records]. *)
Fixpoint scan (elems : list Element) (records_by_year : buckets)
    (total_records : nat) : buckets * nat :=
  match elems with
  | [] => (records_by_year, total_records)
  | elem :: rest =>
      if String.eqb (tag elem) "PubmedArticle" then
        match extract_article_fields elem with
        | Some record =>
            scan rest (route record records_by_year) (S total_records)
        | None => scan rest records_by_year total_records
        end
      else scan rest records_by_year total_records
  end.

(** [name] is [xml_gz_path.stem.replace('.xml', '')]. *)
Definition process_xml_file (name : string) (input : xml_stream) (fs : tree)
    : tree * result stats :=
  match broken input with
  | Some e => (fs, Ok (Error e name))
  | None =>
      let (records_by_year, total_records) := scan (events input) [] 0%nat in
      let (fs', written) :=
        write_partitions (name +:+ ".parquet") records_by_year fs [] in
      (fs', ys ← written; Ok (Stats name total_records ys))
  end.

(** *** [main]: the totals over the completed tasks; a task that returned
    an error record or raised adds nothing. *)
Record totals := {
  total_records : nat;
  year_totals : gmap Z nat
}.

Definition collect (acc : totals) (outcome : result stats) : totals :=
  match outcome with
  | Ok (Stats _ n ys) => {|
      total_records := (total_records acc + n)%nat;
      year_totals := add_years ys (year_totals acc) |}
  | Ok (Error _ _) => acc
  | Raise _ => acc
  end.

Fixpoint run_tasks (files : list (string * xml_stream)) (fs : tree)
    : tree * list (result stats) :=
  match files with
  | [] => (fs, [])
  | (name, input) :: files' =>
      let (fs1, outcome) := process_xml_file name input fs in
      let (fs2, outcomes) := run_tasks files' fs1 in
      (fs2, outcome :: outcomes)
  end.

Definition main (files : list (string * xml_stream)) (fs : tree) : tree * totals :=
  let (fs', outcomes) := run_tasks files fs in
  (fs', foldl collect {| total_records := 0; year_totals := ∅ |} outcomes).

End Script.
End Baseline.

(** ** stages/process.py: the stage that writes the tables the blob path
    reads *)

Module V1.
Import Py.

Section Script.
Context `{F : PyFloat}.

(** [for article in articles]: a list gives its items, a dict its keys, a
    string its characters; nothing else can be iterated. *)
Definition iterate (articles : value) : result (list value) :=
  match articles with
  | VList l => Ok l
  | VDict d => Ok (map (λ kv, VStr kv.1) d)
  | VStr s => Ok (map (λ c, VStr (String c "")) (chars s))
  | _ => Raise TypeError
  end.

(** The body of the loop of [unzip_and_process]: the [PMID] and [JSON]
    cells of one article. *)
Definition article_row (article : value) : result (value * string) :=
  medline ← get article "MedlineCitation" (VDict []);
  pmid_obj ← get medline "PMID" (VDict []);
  pmid ← get pmid_obj "#text" (VStr "");
  Ok (pmid, json_dumps article).

(** [unzip_and_process], from the parsed [PubmedArticle] entry on. *)
Definition unzip_and_process (articles : value)
    : result (list (value * string)) :=
  items ← iterate articles;
  mapM article_row items.

End Script.
End V1.

(** ** The metadata file of the baseline run *)

Module Metadata.
Import Py.

(** [{str(k): v for k, v in year_totals.items()}] *)
Definition year_distribution (year_totals : gmap Z nat) : gmap string nat :=
  list_to_map ((λ kv, (str_of_int kv.1, kv.2)) <$> map_to_list year_totals).

End Metadata.

(** ** Notions the statements use *)

Module Notions.
Import Py Columns ET.

(** The integer a text of decimal digits denotes. *)
Definition decimal_of (s : string) : Z :=
  foldl (λ acc c, acc * 10 + decimal_value c) 0 (chars s).

(** The record's list of tagged identifiers as the blob path reads it: a
    list as it stands, a single object as a list of one. *)
Definition id_list `{F : PyFloat} (article_ids : value) : list value :=
  match article_ids with
  | VList l => l
  | VDict d => [VDict d]
  | _ => []
  end.

(** An identifier object whose type tag is exactly [doi]. *)
Definition tagged_doi `{F : PyFloat} (aid : value) : Prop :=
  ∃ d, aid = VDict d ∧ lookup_key d "@IdType" = Some (VStr "doi").

Section ColumnDefs.
Context `{F : PyFloat}.

(** A row sits in the bucket of a year. *)
Definition in_bucket (record : Row) (year : Z) (d : buckets) : Prop :=
  ∃ rs, lookup_year year d = Some rs ∧ record ∈ rs.

(** The number of rows over all buckets. *)
Definition rows_total (d : buckets) : nat :=
  sum_list (map (λ b, length b.2) d).

(** The sum of the counts of a [years] dict. *)
Definition count_sum (ys : list (Z * nat)) : nat := sum_list (map snd ys).

(** The sum of the counts of [year_totals]. *)
Definition totals_sum (m : gmap Z nat) : nat :=
  map_fold (λ _ count acc, (count + acc)%nat) 0%nat m.

(** The buckets the writer gets through: those before the first one that
    holds a row the schema rejects. *)
Fixpoint accepted (d : buckets) : buckets :=
  match d with
  | [] => []
  | (y, rs) :: d' => if forallb SCHEMA rs then (y, rs) :: accepted d' else []
  end.

Definition all_accepted (d : buckets) : bool :=
  forallb (λ b, forallb SCHEMA b.2) d.

(** The exception of the first bucket the writer does not get through. *)
Fixpoint refusal (d : buckets) : exn :=
  match d with
  | [] => table_error []
  | (y, rs) :: d' => if forallb SCHEMA rs then refusal d' else table_error rs
  end.

(** Writing the files of a list of buckets, one after the other. *)
Definition put_all (out_name : string) (d : buckets)
    (fs : tree) : tree :=
  foldl (λ fs b, <[(b.1, out_name) := b.2]> fs) fs d.

(** The rows the last write to a year leaves in its file. *)
Fixpoint last_write (year : Z) (d : buckets) : option (list Row) :=
  match d with
  | [] => None
  | (y, rs) :: d' =>
      match last_write year d' with
      | Some rs' => Some rs'
      | None => if y =? year then Some rs else None
      end
  end.

End ColumnDefs.

Section TaskNotions.
Context `{F : PyFloat}.

(** What the loop of [main] has added up after any number of outcomes. *)
Definition reported (outcomes : list (result Reprocess.stats)) : nat :=
  sum_list (map (λ o, match o with Ok st => Reprocess.records st | Raise _ => 0%nat end)
                outcomes).

Definition is_article (e : Element) : bool :=
  String.eqb (tag e) "PubmedArticle".

(** The rows the loop gets from a stream of elements. *)
Definition extracted (elems : list Element) : list Row :=
  omap Baseline.extract_article_fields (List.filter is_article elems).

Definition reported_xml (outcomes : list (result Baseline.stats)) : nat :=
  sum_list (map (λ o, match o with Ok st => Baseline.records_of st | Raise _ => 0%nat end)
                outcomes).

End TaskNotions.
End Notions.

(** ** Further notions: what a task is expected to write *)

Module Grouping.
Import Py Columns ET Notions.

Section Rows.
Context `{F : PyFloat}.

(** The rows of a list that go to the partition of a year, in the order of
    the list. *)
Definition rows_of_year (year : Z) (rs : list Row) : list Row :=
  List.filter (λ r, year_or_0 r =? year) rs.

(** Routing a list of rows one after the other. *)
Definition route_all (rs : list Row) (d : buckets) : buckets :=
  foldl (λ d r, route r d) d rs.

(** The rows [extract_fields] gives for the cells of a table, or the first
    exception it raises. *)
Definition decoded_rows (json_loads : string → option value)
    (rows : Reprocess.table) : result (list Row) :=
  mapM (λ row, Reprocess.extract_fields json_loads row.1 row.2) rows.

(** The counts one year gets in a [years] dict. *)
Definition hits (year : Z) (ys : list (Z * nat)) : list nat :=
  map snd (List.filter (λ p, p.1 =? year) ys).

(** A row the schema accepts on the XML path: the integer columns are in
    range. *)
Definition in_range (r : Row) : bool :=
  fits_int64 (PMID r)
  && match Year r with Some y => fits_int32 y | None => true end.

(** A row whose year the [Year] column has room for. *)
Definition year_in_range (r : Row) : bool :=
  match Year r with Some y => fits_int32 y | None => true end.

(** A row whose three columns that may hold any value hold strings or
    nulls. *)
Definition strings_fit (r : Row) : bool :=
  fits_string (Title r) && fits_string (DOI r) && fits_string (Journal r).

(** A row both integers of which are within 64 bits. *)
Definition within_64_bits (r : Row) : bool :=
  fits_int64 (PMID r)
  && match Year r with Some y => fits_int64 y | None => true end.

End Rows.
End Grouping.

Module Scheduling.
Import Py Columns ET Notions.

Section Tasks.
Context `{F : PyFloat}.

(** The buckets a task of the blob path gets written before it returns
    or raises. *)
Definition written (json_loads : string → option value)
    (rows : Reprocess.table) : buckets :=
  match Reprocess.extract_all json_loads rows [] with
  | Ok d => accepted d
  | Raise _ => []
  end.

(** The same for a task of the XML path. *)
Definition written_xml (input : Baseline.xml_stream) : buckets :=
  match Baseline.broken input with
  | Some _ => []
  | None => accepted (Baseline.scan (Baseline.events input) [] 0%nat).1
  end.

End Tasks.
End Scheduling.

(** Names as the authors column renders them. *)

Module Names.
Import Py.

(** The characters [strip(', ')] removes. *)
Definition comma_or_space (c : ascii) : bool :=
  ((ord c =? 44) || (ord c =? 32))%N.

(** A non-empty text that neither starts nor ends with a comma or a
    space. *)
Definition trimmed (s : string) : bool :=
  match chars s, rev (chars s) with
  | c :: _, c' :: _ => negb (comma_or_space c) && negb (comma_or_space c')
  | _, _ => false
  end.

End Names.

(** ** Sample records *)

Module Samples.
Import Py Columns ET.

#[local] Existing Instance NoFloat.

(** A decoder that knows the serialisations of the given documents and
    rejects every other text: [json.loads(json.dumps(v))] gives [v] back
    for a document of strings, lists, dicts and nulls. *)
Definition decoder_of (docs : list value) (s : string) : option value :=
  List.find (λ v, String.eqb (json_dumps v) s) docs.

Definition pub_date_doc (fields : list (string * value)) : value :=
  VDict [("Article", VDict [("Journal",
    VDict [("JournalIssue", VDict [("PubDate", VDict fields)])])])].

(** An explicit year of 0 next to a free-text date. *)
Definition doc_year_zero : value :=
  VDict [("MedlineCitation",
    pub_date_doc [("Year", VStr "0"); ("MedlineDate", VStr "1998 Jan-Feb")])].

(** No [Year], only the free-text date. *)
Definition doc_medline_date : value :=
  VDict [("MedlineCitation",
    pub_date_doc [("MedlineDate", VStr "1998 Jan-Feb")])].

(** A record that carries no PMID of its own. *)
Definition doc_no_pmid : value :=
  VDict [("MedlineCitation", VDict [("Article", VDict [("ArticleTitle", VStr "T")])])].

(** A record with its PMID, a year and three tagged identifiers, the
    tag of the first differing from [doi] in case only. *)
Definition doc_full : value :=
  VDict [
    ("MedlineCitation", VDict [
      ("PMID", VDict [("@Version", VStr "1"); ("#text", VStr "25383517")]);
      ("Article", VDict [
        ("Journal", VDict [("JournalIssue",
           VDict [("PubDate", VDict [("Year", VStr "2015")])])]);
        ("ArticleTitle", VStr "A CRISPR method")])]);
    ("PubmedData", VDict [("ArticleIdList", VDict [("ArticleId", VList [
      VDict [("@IdType", VStr "DOI"); ("#text", VStr "10.1/upper")];
      VDict [("@IdType", VStr "doi"); ("#text", VStr "10.1/first")];
      VDict [("@IdType", VStr "doi"); ("#text", VStr "10.1/second")]])])])].

(** Valid JSON that is not an object. *)
Definition doc_array : value := VList [].

(** A record whose PMID text is not a number. *)
Definition doc_pmid_abc : value :=
  VDict [("MedlineCitation",
    VDict [("PMID", VDict [("@Version", VStr "1"); ("#text", VStr "abc")])])].

(** A record with its PMID and nothing else. *)
Definition doc_no_article : value :=
  VDict [("MedlineCitation",
    VDict [("PMID", VDict [("@Version", VStr "1"); ("#text", VStr "9")])])].

(** A record whose own identifier list has no DOI and that cites a paper
    with one. *)
Definition doc_cited_doi : value :=
  VDict [
    ("MedlineCitation",
     VDict [("PMID", VDict [("@Version", VStr "1"); ("#text", VStr "7")])]);
    ("PubmedData", VDict [
      ("ArticleIdList", VDict [("ArticleId",
         VDict [("@IdType", VStr "pubmed"); ("#text", VStr "7")])]);
      ("ReferenceList", VDict [("Reference", VDict [
         ("Citation", VStr "Nature. 2012;482:331");
         ("ArticleIdList", VDict [("ArticleId",
            VDict [("@IdType", VStr "doi"); ("#text", VStr "10.9/cited")])])])])])].

Definition sample_loads : string → option value :=
  decoder_of [doc_year_zero; doc_medline_date; doc_no_pmid; doc_full; doc_array].

Definition blob (v : value) : string := json_dumps v.

(** A text [json.loads] rejects. *)
Definition not_json : string := "<PubmedArticle/>".

Definition leaf (name s : string) : Element := Elem name [] (Some s) [] None.
Definition node (name : string) (cs : list Element) : Element :=
  Elem name [] None cs None.
Definition article_id (idtype s : string) : Element :=
  Elem "ArticleId" [("IdType", idtype)] (Some s) [] None.

Definition citation (pmid : string) (more : list Element) : Element :=
  node "PubmedArticle" [node "MedlineCitation" (leaf "PMID" pmid :: more)].

(** Two records that differ in their creation date only. *)
Definition art_created_2014 : Element :=
  citation "1" [node "DateCreated" [leaf "Year" "2014"]].
Definition art_created_2015 : Element :=
  citation "1" [node "DateCreated" [leaf "Year" "2015"]].

(** A record without [MedlineCitation]. *)
Definition art_no_citation : Element :=
  node "PubmedArticle" [node "PubmedData" []].

Definition art_pmid_abc : Element := citation "abc" [].
Definition art_pmid_negative : Element := citation "-5" [].

Definition art_pub_date (fields : list Element) : Element :=
  citation "7" [node "Article" [node "Journal" [node "JournalIssue"
    [node "PubDate" fields]]]].

Definition art_year_zero : Element :=
  art_pub_date [leaf "Year" "0"; leaf "MedlineDate" "1998 Jan-Feb"].
Definition art_medline_date : Element :=
  art_pub_date [leaf "MedlineDate" "1998 Jan-Feb"].

Definition art_full : Element :=
  node "PubmedArticle" [
    node "MedlineCitation" [
      leaf "PMID" "25383517";
      node "Article" [
        node "Journal" [node "JournalIssue" [node "PubDate" [leaf "Year" "2015"]]];
        leaf "ArticleTitle" "A CRISPR method"]];
    node "PubmedData" [node "ArticleIdList" [
      article_id "DOI" "10.1/upper";
      article_id "doi" "10.1/first";
      article_id "doi" "10.1/second"]]].

(** The XML of [doc_cited_doi]. *)
Definition art_cited_doi : Element :=
  node "PubmedArticle" [
    node "MedlineCitation" [leaf "PMID" "7"];
    node "PubmedData" [
      node "ArticleIdList" [article_id "pubmed" "7"];
      node "ReferenceList" [node "Reference" [
        leaf "Citation" "Nature. 2012;482:331";
        node "ArticleIdList" [article_id "doi" "10.9/cited"]]]]].

(** A record whose year is beyond the 32 bits of its column. *)
Definition art_year_too_large : Element :=
  art_pub_date [leaf "Year" "99999999999"].

Definition sample_table : list (string * string) :=
  [("25383517", blob doc_full); ("8", not_json); ("9", blob doc_medline_date)].

Definition sample_stream : Baseline.xml_stream :=
  {| Baseline.events :=
       [art_full; art_no_citation; art_medline_date; node "DeleteCitation" []];
     Baseline.broken := None |}.

End Samples.

(** * Proofs *)

Import Py Columns ET Notions Samples.

(** Inversion of a successful [x ← m; k x]. *)
Ltac bind_inv H :=
  repeat match type of H with
  | mbind _ ?m = Ok _ =>
      let E := fresh "E" in
      destruct m eqn:E; simpl in H; [|discriminate H]
  | (match ?m with Ok _ => _ | Raise _ => _ end) = Ok _ =>
      let E := fresh "E" in
      destruct m eqn:E; simpl in H; [|discriminate H]
  end.

(** ** Facts about the runtime *)

Section PyFacts.

Lemma is_decimal_isdigit c : is_decimal c = true → char_isdigit c = true.
Proof. unfold char_isdigit. intros ->. reflexivity. Qed.

Lemma decimal_value_range c : is_decimal c = true → 0 ≤ decimal_value c ≤ 9.
Proof.
  unfold is_decimal, decimal_value. intros H.
  apply andb_true_iff in H as [H1 H2].
  apply N.leb_le in H1, H2. lia.
Qed.

Lemma isdigit_not_space c : char_isdigit c = true → char_isspace c = false.
Proof.
  unfold char_isdigit, char_isspace, is_decimal. intros H.
  repeat (apply orb_true_iff in H as [H|H]);
    [apply andb_true_iff in H as [H1 H2]; apply N.leb_le in H1, H2
    | apply N.eqb_eq in H ..];
  repeat match goal with
  | |- context [(?a <=? ?b)%N] => destruct (N.leb_spec a b); try lia
  | |- context [(?a =? ?b)%N] => destruct (N.eqb_spec a b); try lia
  end; reflexivity.
Qed.

Lemma isdigit_not_sign c :
  char_isdigit c = true → (ord c =? 45)%N = false ∧ (ord c =? 43)%N = false.
Proof.
  unfold char_isdigit, is_decimal. intros H.
  repeat (apply orb_true_iff in H as [H|H]);
    [apply andb_true_iff in H as [H1 H2]; apply N.leb_le in H1, H2
    | apply N.eqb_eq in H ..];
  split; apply N.eqb_neq; lia.
Qed.

Lemma lstrip_suffix p l : ∃ pre, l = pre ++ lstrip p l.
Proof.
  induction l as [|c l [pre IH]]; simpl.
  - by exists [].
  - destruct (p c).
    + exists (c :: pre). simpl. by f_equal.
    + by exists [].
Qed.

Lemma lstrip_id p l :
  match l with c :: _ => p c = false | [] => True end → lstrip p l = l.
Proof. destruct l as [|c l]; simpl; [done|]. by intros ->. Qed.

Lemma forallb_lstrip (q p : ascii → bool) l :
  forallb q l = true → forallb q (lstrip p l) = true.
Proof.
  destruct (lstrip_suffix p l) as [pre E]. rewrite E at 1.
  rewrite forallb_app. intros H. by apply andb_true_iff in H as [_ H].
Qed.

Lemma forallb_rev {A} (q : A → bool) l : forallb q (rev l) = forallb q l.
Proof.
  induction l as [|x l IH]; simpl; [done|].
  rewrite forallb_app, IH. simpl. rewrite andb_true_r. apply andb_comm.
Qed.

Lemma forallb_strip (q p : ascii → bool) l :
  forallb q l = true → forallb q (strip_chars p l) = true.
Proof.
  intros H. unfold strip_chars. rewrite forallb_rev.
  apply forallb_lstrip. rewrite forallb_rev. by apply forallb_lstrip.
Qed.

(** Nothing is stripped from a text none of whose characters is in the
    set. *)
Lemma strip_chars_id p l :
  forallb (λ c, negb (p c)) l = true → strip_chars p l = l.
Proof.
  intros H. unfold strip_chars.
  rewrite (lstrip_id p l).
  - rewrite lstrip_id; [apply rev_involutive|].
    assert (Hr : forallb (λ c, negb (p c)) (rev l) = true) by by rewrite forallb_rev.
    destruct (rev l) as [|c r]; [done|]. simpl in Hr.
    apply andb_true_iff in Hr as [Hr _]. by apply negb_true_iff.
  - destruct l as [|c l]; [done|]. simpl in H.
    apply andb_true_iff in H as [H _]. by apply negb_true_iff.
Qed.

End PyFacts.

Section IntFacts.

Lemma digits_value_nonneg l : ∀ acc n,
  0 ≤ acc → digits_value acc l = Some n → 0 ≤ n.
Proof.
  induction l as [l IH] using (induction_ltof1 _ (@length ascii)).
  unfold ltof in IH. intros acc n Hacc.
  destruct l as [|c l]; simpl; [intros [= <-]; done|].
  destruct (is_decimal c) eqn:Hc.
  - apply IH; [simpl; lia|]. pose proof (decimal_value_range c Hc). lia.
  - destruct (ord c =? 95)%N; [|done].
    destruct l as [|d l]; [done|].
    destruct (is_decimal d) eqn:Hd; [|done].
    apply IH; [simpl; lia|]. pose proof (decimal_value_range d Hd). lia.
Qed.

Lemma int_literal_nonneg l n : int_literal l = Some n → 0 ≤ n.
Proof.
  destruct l as [|c l]; simpl; [done|].
  destruct (is_decimal c) eqn:Hc; [|done].
  apply digits_value_nonneg. by apply decimal_value_range.
Qed.

Lemma digits_value_decimal l : ∀ acc,
  forallb is_decimal l = true →
  digits_value acc l = Some (foldl (λ a c, a * 10 + decimal_value c) acc l).
Proof.
  induction l as [|c l IH]; intros acc H; simpl in *; [done|].
  apply andb_true_iff in H as [-> H]. by apply IH.
Qed.

(** [int] never returns a negative number for a text that passes
    [isdigit]. *)
Lemma int_of_isdigit_nonneg s n :
  isdigit s = true → int_of_str s = Ok n → 0 ≤ n.
Proof.
  unfold isdigit, int_of_str. intros Hd.
  assert (Hall : forallb char_isdigit (chars s) = true)
    by (destruct (chars s); [done | exact Hd]).
  pose proof (forallb_strip char_isdigit char_isspace _ Hall) as Hs.
  destruct (strip_chars char_isspace (chars s)) as [|c l] eqn:E; [done|].
  simpl in Hs. apply andb_true_iff in Hs as [Hc _].
  destruct (isdigit_not_sign c Hc) as [-> ->].
  destruct (int_literal (c :: l)) as [m|] eqn:Hl; [|done].
  intros [= <-]. by eapply int_literal_nonneg.
Qed.

Lemma all_decimal_isdigit s : all_decimal s = true → isdigit s = true.
Proof.
  unfold all_decimal, isdigit. destruct (chars s) as [|c l]; [done|].
  intros H. apply forallb_forall. intros x Hx.
  apply is_decimal_isdigit. revert x Hx. by apply forallb_forall.
Qed.

(** On a text of decimal digits, [int] is the usual positional value. *)
Lemma int_of_decimal s :
  all_decimal s = true → int_of_str s = Ok (decimal_of s).
Proof.
  unfold all_decimal, int_of_str, decimal_of. intros H.
  assert (Hall : forallb is_decimal (chars s) = true)
    by (destruct (chars s); [done | exact H]).
  rewrite strip_chars_id.
  2:{ apply forallb_forall. intros c Hc. apply negb_true_iff.
      apply isdigit_not_space, is_decimal_isdigit.
      revert c Hc. by apply forallb_forall. }
  destruct (chars s) as [|c l]; [done|].
  simpl in Hall. apply andb_true_iff in Hall as [Hc Hl].
  destruct (isdigit_not_sign c (is_decimal_isdigit c Hc)) as [-> ->].
  simpl. rewrite Hc, (digits_value_decimal l _ Hl). simpl.
  by rewrite Z.add_0_l.
Qed.

Lemma decimal_of_nonneg s : all_decimal s = true → 0 ≤ decimal_of s.
Proof.
  intros H. eapply int_of_isdigit_nonneg.
  - by apply all_decimal_isdigit.
  - by apply int_of_decimal.
Qed.

Lemma chars_text l : chars (Py.text l) = l.
Proof. apply list_ascii_of_string_of_list_ascii. Qed.

Lemma uint_digits d :
  forallb is_decimal (chars (NilEmpty.string_of_uint d)) = true.
Proof. induction d; simpl; try done; exact IHd. Qed.

Lemma isdigit_str_of_int n : isdigit (str_of_int n) = (0 <=? n).
Proof.
  unfold str_of_int, isdigit.
  destruct n as [|p|p]; simpl; [done| |done].
  unfold NilZero.string_of_uint.
  pose proof (uint_digits (Pos.to_uint p)) as H.
  pose proof (DecimalPos.Unsigned.to_uint_nonnil p) as Hnil.
  destruct (Pos.to_uint p) as [|d|d|d|d|d|d|d|d|d|d] eqn:E; try done;
    simpl in *; apply forallb_forall; intros x Hx;
    apply is_decimal_isdigit; revert x Hx; by apply forallb_forall.
Qed.

End IntFacts.

Section ValueFacts.
Context `{F : PyFloat}.

Lemma isdigit_head c s : isdigit (String c s) = true → char_isdigit c = true.
Proof.
  unfold isdigit. simpl. intros H. by apply andb_true_iff in H as [H _].
Qed.

(** Only a string of digits and a non-negative integer print as digits. *)
Lemma isdigit_str_cases (v : value) :
  isdigit (str v) = true →
  (∃ s, v = VStr s ∧ isdigit s = true) ∨ (∃ n, v = VInt n ∧ 0 ≤ n).
Proof.
  destruct v as [|[|]|n|f|s|l|d]; simpl; intros H.
  - discriminate.
  - discriminate.
  - discriminate.
  - right. exists n. split; [done|].
    rewrite isdigit_str_of_int in H. by apply Z.leb_le.
  - by rewrite float_str_isdigit in H.
  - left. by exists s.
  - by apply isdigit_head in H.
  - by apply isdigit_head in H.
Qed.

(** [int(v) if str(v).isdigit() else 0] is never negative. *)
Lemma int_guarded_nonneg (v : value) n :
  isdigit (str v) = true → int v = Ok n → 0 ≤ n.
Proof.
  intros H. destruct (isdigit_str_cases v H) as [(s & -> & Hs)|(m & -> & Hm)];
    simpl.
  - by apply int_of_isdigit_nonneg.
  - by intros [= <-].
Qed.

End ValueFacts.

Section ReprocessFacts.
Context `{F : PyFloat} (json_loads : string → option value).
Import Reprocess.

(** What a row of the normal branch is made of. *)
Lemma extract_fields_decoded pmid json_str data r :
  json_loads json_str = Some data →
  extract_fields json_loads pmid json_str = Ok r →
  ∃ medline article pubmed_data,
    get data "MedlineCitation" (VDict []) = Ok medline
    ∧ get medline "Article" (VDict []) = Ok article
    ∧ get data "PubmedData" (VDict []) = Ok pubmed_data
    ∧ get_pmid_int medline pmid = Ok (PMID r)
    ∧ DOI r = get_doi pubmed_data
    ∧ get_year article = Ok (Year r)
    ∧ JSON r = json_str.
Proof.
  unfold extract_fields. intros ->. intros H. bind_inv H.
  injection H as <-. simpl. eauto 10.
Qed.

(** The row of the [except] branch. *)
Lemma extract_fields_undecoded pmid json_str r :
  json_loads json_str = None →
  extract_fields json_loads pmid json_str = Ok r →
  ∃ n, (if isdigit pmid then int_of_str pmid else Ok 0) = Ok n
       ∧ r = degraded n json_str.
Proof.
  unfold extract_fields. intros ->. intros H. bind_inv H.
  injection H as <-. eauto.
Qed.

Lemma extract_fields_JSON pmid json_str r :
  extract_fields json_loads pmid json_str = Ok r → JSON r = json_str.
Proof.
  intros H. destruct (json_loads json_str) as [data|] eqn:E.
  - by destruct (extract_fields_decoded _ _ _ _ E H) as (?&?&?&?&?&?&?&?&?&?).
  - by destruct (extract_fields_undecoded _ _ _ E H) as (n & _ & ->).
Qed.

Lemma extract_fields_nonneg pmid json_str r :
  extract_fields json_loads pmid json_str = Ok r → 0 ≤ PMID r.
Proof.
  intros H. destruct (json_loads json_str) as [data|] eqn:E.
  - destruct (extract_fields_decoded _ _ _ _ E H)
      as (medline & ? & ? & _ & _ & _ & Hp & _).
    unfold get_pmid_int in Hp.
    destruct (isdigit (str (pmid_val medline pmid))) eqn:Hd.
    + by eapply int_guarded_nonneg.
    + by injection Hp as <-.
  - destruct (extract_fields_undecoded _ _ _ E H) as (n & Hn & ->). simpl.
    destruct (isdigit pmid) eqn:Hd.
    + by eapply int_of_isdigit_nonneg.
    + by injection Hn as <-.
Qed.

End ReprocessFacts.

(** ** The router, the writer and the totals *)

Section ColumnFacts.
Context `{F : PyFloat}.

Lemma year_or_0_default (record : Row) : year_or_0 record = default 0 (Year record).
Proof.
  unfold year_or_0. destruct (Year record) as [y|]; simpl; [|done].
  by destruct (Z.eqb_spec y 0).
Qed.

Lemma lookup_bucket_append_eq year record (d : buckets) :
  lookup_year year (bucket_append year record d)
  = Some (default [] (lookup_year year d) ++ [record]).
Proof.
  induction d as [|[y rs] d IH]; simpl.
  - by rewrite Z.eqb_refl.
  - destruct (Z.eqb_spec y year) as [->|Hne]; simpl.
    + by rewrite Z.eqb_refl.
    + by destruct (Z.eqb_spec y year).
Qed.

Lemma lookup_bucket_append_ne year k record (d : buckets) :
  k ≠ year →
  lookup_year k (bucket_append year record d) = lookup_year k d.
Proof.
  intros Hk. induction d as [|[y rs] d IH]; simpl.
  - by destruct (Z.eqb_spec year k) as [->|].
  - destruct (Z.eqb_spec y year) as [->|Hne]; simpl.
    + by destruct (Z.eqb_spec year k) as [->|].
    + by rewrite IH.
Qed.

Lemma rows_total_bucket_append year record (d : buckets) :
  rows_total (bucket_append year record d) = S (rows_total d).
Proof.
  unfold rows_total. induction d as [|[y rs] d IH]; simpl; [done|].
  destruct (Z.eqb_spec y year) as [->|Hne]; simpl.
  - rewrite length_app. simpl. lia.
  - rewrite IH. lia.
Qed.

Lemma keys_bucket_append year record (d : buckets) :
  (bucket_append year record d).*1
  = if decide (year ∈ d.*1) then d.*1 else d.*1 ++ [year].
Proof.
  induction d as [|[y rs] d IH].
  - destruct (decide (year ∈ ([] : buckets).*1)) as [H|H]; [|done].
    by apply elem_of_nil in H.
  - cbn [bucket_append]. destruct (Z.eqb_spec y year) as [->|Hne].
    + destruct (decide (year ∈ ((year, rs) :: d).*1)) as [H|H]; [done|].
      exfalso. apply H. apply elem_of_cons. by left.
    + rewrite fmap_cons, IH. cbn [fst].
      destruct (decide (year ∈ d.*1)) as [Hin|Hin];
        destruct (decide (year ∈ ((y, rs) :: d).*1)) as [H|H]; try done.
      * exfalso. apply H. apply elem_of_cons. by right.
      * exfalso. apply elem_of_cons in H as [H|H]; [|done]. by apply Hne.
Qed.

Lemma NoDup_bucket_append year record (d : buckets) :
  NoDup d.*1 → NoDup (bucket_append year record d).*1.
Proof.
  intros Hd. rewrite keys_bucket_append.
  destruct (decide (year ∈ d.*1)); [done|].
  apply NoDup_app. split_and!; [done| |apply NoDup_singleton].
  intros x Hx ->%list_elem_of_singleton. done.
Qed.

Lemma in_bucket_append_new record (d : buckets) :
  in_bucket record (year_or_0 record) (route record d).
Proof.
  unfold in_bucket, route. rewrite lookup_bucket_append_eq.
  eexists. split; [done|]. apply elem_of_app. right. apply list_elem_of_singleton.
  done.
Qed.

Lemma in_bucket_append_old r y record (d : buckets) :
  in_bucket r y d → in_bucket r y (route record d).
Proof.
  unfold in_bucket, route. intros (rs & Hrs & Hin).
  destruct (decide (y = year_or_0 record)) as [->|Hne].
  - rewrite lookup_bucket_append_eq, Hrs. simpl.
    eexists. split; [done|]. apply elem_of_app. by left.
  - rewrite lookup_bucket_append_ne by done. eauto.
Qed.

(** *** The writer *)

Lemma write_partitions_store out (d : buckets) : ∀ fs ys,
  (write_partitions out d fs ys).1 = put_all out (accepted d) fs.
Proof.
  induction d as [|[y rs] d IH]; intros fs ys; simpl; [done|].
  destruct (forallb SCHEMA rs); simpl; [|done]. apply IH.
Qed.

Lemma write_partitions_result out (d : buckets) : ∀ fs ys,
  (write_partitions out d fs ys).2
  = if all_accepted d
    then Ok (foldl (λ ys b, dict_set b.1 (length b.2) ys) ys d)
    else Raise (refusal d).
Proof.
  induction d as [|[y rs] d IH]; intros fs ys; simpl; [done|].
  destruct (forallb SCHEMA rs); simpl; [|done]. apply IH.
Qed.

Lemma accepted_all (d : buckets) : all_accepted d = true → accepted d = d.
Proof.
  induction d as [|[y rs] d IH]; simpl; [done|].
  intros [-> H]%andb_true_iff. simpl. by rewrite IH.
Qed.

Lemma dict_set_fresh {V} key (v : V) (d : list (Z * V)) :
  key ∉ d.*1 → dict_set key v d = d ++ [(key, v)].
Proof.
  induction d as [|[k w] d IH]; simpl; [done|].
  intros Hk. rewrite not_elem_of_cons in Hk. destruct Hk as [Hne Hk].
  destruct (Z.eqb_spec k key); [done|]. by rewrite IH.
Qed.

Lemma years_of_buckets (d : buckets) : ∀ ys : list (Z * nat),
  NoDup (ys.*1 ++ d.*1) →
  foldl (λ ys b, dict_set b.1 (length b.2) ys) ys d
  = ys ++ map (λ b, (b.1, length b.2)) d.
Proof.
  induction d as [|[y rs] d IH]; intros ys Hnd; simpl.
  - by rewrite app_nil_r.
  - simpl in Hnd. apply NoDup_app in Hnd as (Hys & Hdisj & Hd).
    apply NoDup_cons in Hd as [Hy Hd].
    rewrite dict_set_fresh.
    2:{ intros Hin. apply (Hdisj _ Hin). apply elem_of_cons. by left. }
    rewrite IH.
    + by rewrite <- app_assoc.
    + rewrite fmap_app. simpl. rewrite <- app_assoc. simpl.
      apply NoDup_app. split_and!; [done| |by apply NoDup_cons].
      intros x Hx. by apply Hdisj.
Qed.

Lemma count_sum_buckets (d : buckets) :
  count_sum (map (λ b, (b.1, length b.2)) d) = rows_total d.
Proof.
  unfold count_sum, rows_total. induction d as [|[y rs] d IH]; simpl; [done|].
  by rewrite IH.
Qed.

Lemma lookup_put_all out (d : buckets) : ∀ (fs : tree) year name,
  put_all out d fs !! (year, name)
  = if decide (name = out)
    then match last_write year d with
         | Some rs => Some rs
         | None => fs !! (year, name)
         end
    else fs !! (year, name).
Proof.
  unfold put_all.
  induction d as [|[y rs] d IH]; intros fs year name; simpl.
  - by destruct (decide (name = out)).
  - rewrite IH. cbn [fst snd]. destruct (decide (name = out)) as [->|Hne].
    + destruct (last_write year d); [done|].
      destruct (Z.eqb_spec y year) as [->|Hy].
      * by rewrite lookup_insert_eq.
      * rewrite lookup_insert_ne; [done|]. congruence.
    + rewrite lookup_insert_ne; [done|]. congruence.
Qed.

(** Writing the same buckets a second time changes nothing. *)
Lemma put_all_idempotent (out : string) (d : buckets) (fs : tree) :
  put_all out d (put_all out d fs) = put_all out d fs.
Proof.
  apply map_eq. intros [year name]. rewrite !lookup_put_all.
  destruct (decide (name = out)); [|done].
  by destruct (last_write year d).
Qed.

Lemma last_write_NoDup year rs (d : buckets) :
  NoDup d.*1 → (year, rs) ∈ d → last_write year d = Some rs.
Proof.
  induction d as [|[y rs'] d IH]; simpl; [by intros _ ?%elem_of_nil|].
  intros [Hy Hd]%NoDup_cons [Heq|Hin]%elem_of_cons.
  - injection Heq as <- <-.
    destruct (last_write year d) as [rs'|] eqn:E.
    + exfalso. apply Hy. clear -E.
      induction d as [|[y r] d IH]; simpl in *; [done|].
      destruct (last_write year d); [apply elem_of_cons; right; by apply IH|].
      destruct (Z.eqb_spec y year) as [->|]; [|done]. apply elem_of_cons. by left.
    + by rewrite Z.eqb_refl.
  - by rewrite IH.
Qed.

Lemma lookup_year_elem {V} year (v : V) (d : list (Z * V)) :
  lookup_year year d = Some v → (year, v) ∈ d.
Proof.
  induction d as [|[y w] d IH]; simpl; [done|].
  destruct (Z.eqb_spec y year) as [->|].
  - intros [= ->]. apply elem_of_cons. by left.
  - intros H. apply elem_of_cons. right. by apply IH.
Qed.

Lemma lookup_year_map {V W} (g : V → W) year (d : list (Z * V)) :
  lookup_year year (map (λ b, (b.1, g b.2)) d) = g <$> lookup_year year d.
Proof.
  induction d as [|[y w] d IH]; simpl; [done|].
  by destruct (Z.eqb_spec y year).
Qed.

(** *** The totals of [main] *)

Lemma totals_sum_add year count (m : gmap Z nat) :
  totals_sum (<[year := (default 0%nat (m !! year) + count)%nat]> m)
  = (totals_sum m + count)%nat.
Proof.
  unfold totals_sum.
  assert (Hcomm : ∀ (j1 j2 : Z) (z1 z2 y : nat),
    (z1 + (z2 + y) = z2 + (z1 + y))%nat) by (intros; lia).
  destruct (m !! year) as [c|] eqn:E; simpl.
  - rewrite <- (insert_delete_eq m).
    rewrite map_fold_insert_L; [|intros; apply Hcomm; done|apply lookup_delete_eq].
    rewrite (map_fold_delete_L _ _ year c m); [lia|intros; apply Hcomm; done|done].
  - rewrite map_fold_insert_L; [lia|intros; apply Hcomm; done|done].
Qed.

Lemma totals_sum_add_years (ys : list (Z * nat)) : ∀ m : gmap Z nat,
  totals_sum (add_years ys m) = (totals_sum m + count_sum ys)%nat.
Proof.
  unfold add_years, count_sum.
  induction ys as [|[y c] ys IH]; intros m; simpl; [lia|].
  rewrite IH, totals_sum_add. lia.
Qed.

End ColumnFacts.

Section ReprocessTask.
Context `{F : PyFloat} (json_loads : string → option value).
Import Reprocess.

Lemma extract_all_spec (rows : table) : ∀ d d' : buckets,
  extract_all json_loads rows d = Ok d' →
  NoDup d.*1 →
  NoDup d'.*1
  ∧ rows_total d' = (rows_total d + length rows)%nat
  ∧ (∀ r y, in_bucket r y d → in_bucket r y d')
  ∧ (∀ pmid json_str, (pmid, json_str) ∈ rows →
       ∃ r, extract_fields json_loads pmid json_str = Ok r
            ∧ in_bucket r (year_or_0 r) d').
Proof.
  induction rows as [|[pmid json_str] rows IH]; intros d d' H Hnd; simpl in H.
  - injection H as <-. split_and!; [done|simpl; lia|done|].
    by intros ?? ?%elem_of_nil.
  - bind_inv H.
    destruct (IH _ _ H (NoDup_bucket_append _ _ _ Hnd))
      as (Hnd' & Htot & Hold & Hnew).
    split_and!; [done| | |].
    + rewrite Htot. unfold route. rewrite rows_total_bucket_append. simpl. lia.
    + intros r y Hr. by apply Hold, in_bucket_append_old.
    + intros p j [Heq|Hin]%elem_of_cons.
      * injection Heq as -> ->. exists a. split; [done|].
        apply Hold, in_bucket_append_new.
      * by apply Hnew.
Qed.

(** The task in one equation: the buckets depend on the input alone, the
    files written on the buckets, and the output tree changes only there. *)
Lemma process_parquet_file_eq (stem : string) (rows : table) (fs : tree) :
  process_parquet_file json_loads stem rows fs
  = match extract_all json_loads rows [] with
    | Raise e => (fs, Raise e)
    | Ok d =>
        (put_all (stem +:+ ".parquet") (accepted d) fs,
         if all_accepted d
         then Ok {| input_file := stem; records := length rows;
                    years := map (λ b, (b.1, length b.2)) d |}
         else Raise (refusal d))
    end.
Proof.
  unfold process_parquet_file.
  destruct (extract_all json_loads rows []) as [d|e] eqn:E; [|done].
  destruct (extract_all_spec _ _ _ E) as (Hnd & _); [apply NoDup_nil_2|].
  pose proof (write_partitions_store (stem +:+ ".parquet") d fs []) as Hs.
  pose proof (write_partitions_result (stem +:+ ".parquet") d fs []) as Hr.
  destruct (write_partitions _ d fs []) as [fs' written]. simpl in Hs, Hr.
  subst fs' written. f_equal.
  destruct (all_accepted d); [|done]. simpl.
  by rewrite (years_of_buckets d []).
Qed.

Lemma process_parquet_file_ok (stem : string) (rows : table) (fs fs' : tree) st :
  process_parquet_file json_loads stem rows fs = (fs', Ok st) →
  ∃ d, extract_all json_loads rows [] = Ok d
       ∧ NoDup d.*1
       ∧ rows_total d = length rows
       ∧ fs' = put_all (stem +:+ ".parquet") d fs
       ∧ st = {| input_file := stem; records := length rows;
                 years := map (λ b, (b.1, length b.2)) d |}.
Proof.
  rewrite process_parquet_file_eq.
  destruct (extract_all json_loads rows []) as [d|e] eqn:E; [|done].
  destruct (all_accepted d) eqn:Ha; [|done].
  intros [= <- <-]. exists d.
  destruct (extract_all_spec _ _ _ E) as (Hnd & Htot & _); [apply NoDup_nil_2|].
  rewrite accepted_all by done. done.
Qed.

Lemma process_parquet_file_counts (stem : string) (rows : table) (fs fs' : tree) st :
  process_parquet_file json_loads stem rows fs = (fs', Ok st) →
  count_sum (years st) = records st ∧ records st = length rows.
Proof.
  intros (d & _ & _ & Htot & _ & ->)%process_parquet_file_ok. simpl.
  by rewrite count_sum_buckets.
Qed.

Lemma collect_totals (outcomes : list (result stats)) : ∀ acc,
  Forall (λ o, ∀ st, o = Ok st → count_sum (years st) = records st) outcomes →
  total_records (foldl collect acc outcomes)
  = (total_records acc + reported outcomes)%nat
  ∧ totals_sum (year_totals (foldl collect acc outcomes))
    = (totals_sum (year_totals acc) + reported outcomes)%nat.
Proof.
  unfold reported.
  induction outcomes as [|o outcomes IH]; intros acc Hall; simpl.
  - lia.
  - apply Forall_cons in Hall as [Ho Hall].
    destruct (IH (collect acc o) Hall) as [-> ->].
    destruct o as [st|e]; simpl; [|lia].
    rewrite totals_sum_add_years, (Ho st eq_refl). lia.
Qed.

Lemma run_tasks_counts (files : list (string * table)) : ∀ fs : tree,
  Forall (λ o, ∀ st, o = Ok st → count_sum (years st) = records st)
         (run_tasks json_loads files fs).2.
Proof.
  induction files as [|[stem rows] files IH]; intros fs; simpl; [done|].
  destruct (process_parquet_file json_loads stem rows fs) as [fs1 o] eqn:E.
  specialize (IH fs1).
  destruct (run_tasks json_loads files fs1) as [fs2 os]. simpl in *.
  apply Forall_cons. split; [|done].
  intros st ->. by destruct (process_parquet_file_counts _ _ _ _ _ E).
Qed.

End ReprocessTask.

Section BaselineFacts.
Context `{F : PyFloat}.
Import Baseline.

Lemma match_4_digits_decimal s g :
  match_4_digits s = Some g → all_decimal g = true.
Proof.
  unfold match_4_digits, all_decimal.
  destruct (take 4 (chars s)) as [|c p] eqn:E; [done|].
  destruct (_ && _) eqn:H; [|done]. intros [= <-].
  apply andb_true_iff in H as [_ H].
  change (String c (Py.text p)) with (Py.text (c :: p)). by rewrite chars_text.
Qed.

(** The fallback never raises: [int] is given four decimal digits. *)
Lemma year_fallback_total pub_date : ∃ y, year_fallback pub_date = Ok y.
Proof.
  unfold year_fallback.
  destruct (find pub_date "MedlineDate" ≫= nonempty_text) as [t|]; [|eauto].
  destruct (match_4_digits t) as [g|] eqn:E; [|eauto].
  rewrite (int_of_decimal g) by by eapply match_4_digits_decimal. simpl. eauto.
Qed.

Lemma get_year_total article : ∃ y, get_year article = Ok y.
Proof.
  unfold get_year.
  destruct (article ≫= _) as [pub_date|]; [|eauto].
  destruct (year_explicit pub_date); [eauto|]. apply year_fallback_total.
Qed.

(** What a row of the XML path is made of. *)
Lemma extract_article_fields_some e r :
  extract_article_fields e = Some r →
  ∃ medline,
    find e "MedlineCitation" = Some medline
    ∧ get_pmid medline = Ok (PMID r)
    ∧ get_year (find medline "Article") = Ok (Year r)
    ∧ DOI r = VStr (get_doi (find e "PubmedData"))
    ∧ JSON r = json_dumps (VDict
        [("PMID", VInt (PMID r)); ("Title", Title r);
         ("Abstract", VStr (Abstract r)); ("DOI", DOI r);
         ("Year", value_of_year (Year r)); ("Authors", VStr (Authors r));
         ("Journal", Journal r); ("MeSH_Terms", VStr (MeSH_Terms r));
         ("Keywords", VStr (Keywords r)); ("Pub_Types", VStr (Pub_Types r))]).
Proof.
  unfold extract_article_fields, extract_article_body.
  destruct (find e "MedlineCitation") as [medline|]; [|done].
  destruct (get_pmid medline) as [pmid|] eqn:Ep; simpl; [|done].
  destruct (get_year (find medline "Article")) as [year|] eqn:Ey; simpl; [|done].
  intros [= <-]. exists medline. simpl. done.
Qed.

(** No row comes back exactly for a record without [MedlineCitation] and
    for one whose PMID text [int] rejects. *)
Lemma extract_article_fields_none e :
  extract_article_fields e = None
  ↔ find e "MedlineCitation" = None
    ∨ ∃ medline err, find e "MedlineCitation" = Some medline
                     ∧ get_pmid medline = Raise err.
Proof.
  unfold extract_article_fields, extract_article_body.
  destruct (find e "MedlineCitation") as [medline|]; [|naive_solver].
  destruct (get_pmid medline) as [pmid|err] eqn:Ep; simpl.
  - destruct (get_year_total (find medline "Article")) as [y ->]. simpl.
    split; [done|]. intros [|(m & err & [= <-] & H)]; [done|congruence].
  - split; [|done]. intros _. right. eauto.
Qed.

Lemma extracted_cons e (elems : list Element) :
  extracted (e :: elems)
  = if String.eqb (tag e) "PubmedArticle" then
      match extract_article_fields e with
      | Some record => record :: extracted elems
      | None => extracted elems
      end
    else extracted elems.
Proof.
  unfold extracted. simpl. unfold is_article at 1.
  destruct (String.eqb (tag e) "PubmedArticle"); [|done].
  simpl. by destruct (extract_article_fields e).
Qed.

Lemma scan_spec (elems : list Element) : ∀ (d : buckets) n d' n',
  scan elems d n = (d', n') →
  NoDup d.*1 →
  NoDup d'.*1
  ∧ n' = (n + length (extracted elems))%nat
  ∧ rows_total d' = (rows_total d + length (extracted elems))%nat
  ∧ (∀ r y, in_bucket r y d → in_bucket r y d')
  ∧ (∀ r, r ∈ extracted elems → in_bucket r (year_or_0 r) d').
Proof.
  induction elems as [|e elems IH]; intros d n d' n' H Hnd.
  - injection H as <- <-. split_and!; [done|simpl; lia|simpl; lia|done|].
    by intros ? ?%elem_of_nil.
  - rewrite extracted_cons. cbn [scan] in H.
    destruct (String.eqb (tag e) "PubmedArticle"); [|by apply IH].
    destruct (extract_article_fields e) as [record|]; [|by apply IH].
    destruct (IH _ _ _ _ H (NoDup_bucket_append _ _ _ Hnd))
      as (Hnd' & Hn & Htot & Hold & Hnew).
    split_and!; [done| | | |].
    + simpl. lia.
    + rewrite Htot. unfold route. rewrite rows_total_bucket_append. simpl. lia.
    + intros r y Hr. by apply Hold, in_bucket_append_old.
    + intros r [->|Hin]%elem_of_cons; [|by apply Hnew].
      apply Hold, in_bucket_append_new.
Qed.

Lemma process_xml_file_eq (name : string) (input : xml_stream)
    (fs : tree) :
  process_xml_file name input fs
  = match broken input with
    | Some e => (fs, Ok (Error e name))
    | None =>
        let d := (scan (events input) [] 0%nat).1 in
        (put_all (name +:+ ".parquet") (accepted d) fs,
         if all_accepted d
         then Ok (Stats name (length (extracted (events input)))
                        (map (λ b, (b.1, length b.2)) d))
         else Raise (refusal d))
    end.
Proof.
  unfold process_xml_file. destruct (broken input); [done|].
  destruct (scan (events input) [] 0%nat) as [d n] eqn:E.
  destruct (scan_spec _ _ _ _ _ E) as (Hnd & -> & _); [apply NoDup_nil_2|].
  pose proof (write_partitions_store (name +:+ ".parquet") d fs []) as Hs.
  pose proof (write_partitions_result (name +:+ ".parquet") d fs []) as Hr.
  destruct (write_partitions _ d fs []) as [fs' written]. simpl in Hs, Hr.
  subst fs' written. simpl. f_equal.
  destruct (all_accepted d); [|done]. simpl.
  by rewrite (years_of_buckets d []).
Qed.

Lemma process_xml_file_counts (name : string) (input : xml_stream)
    (fs fs' : tree) st :
  process_xml_file name input fs = (fs', Ok st) →
  count_sum (years_of st) = records_of st
  ∧ (broken input = None →
     records_of st = length (extracted (events input))).
Proof.
  rewrite process_xml_file_eq. destruct (broken input) as [e|].
  - intros [= <- <-]. simpl. done.
  - destruct (scan (events input) [] 0%nat) as [d n] eqn:E. simpl.
    destruct (all_accepted d); [|done]. intros [= <- <-]. simpl.
    destruct (scan_spec _ _ _ _ _ E) as (_ & _ & Htot & _); [apply NoDup_nil_2|].
    rewrite count_sum_buckets, Htot. done.
Qed.

Lemma collect_totals_xml (outcomes : list (result stats)) : ∀ acc,
  Forall (λ o, ∀ st, o = Ok st → count_sum (years_of st) = records_of st)
         outcomes →
  total_records (foldl collect acc outcomes)
  = (total_records acc + reported_xml outcomes)%nat
  ∧ totals_sum (year_totals (foldl collect acc outcomes))
    = (totals_sum (year_totals acc) + reported_xml outcomes)%nat.
Proof.
  unfold reported_xml.
  induction outcomes as [|o outcomes IH]; intros acc Hall; simpl.
  - lia.
  - apply Forall_cons in Hall as [Ho Hall].
    destruct (IH (collect acc o) Hall) as [-> ->].
    destruct o as [[file n ys|err file]|e]; simpl; [|lia|lia].
    rewrite totals_sum_add_years. specialize (Ho _ eq_refl). simpl in Ho. lia.
Qed.

Lemma run_tasks_counts_xml (files : list (string * xml_stream)) :
  ∀ fs : tree,
  Forall (λ o, ∀ st, o = Ok st → count_sum (years_of st) = records_of st)
         (run_tasks files fs).2.
Proof.
  induction files as [|[name input] files IH]; intros fs; simpl; [done|].
  destruct (process_xml_file name input fs) as [fs1 o] eqn:E.
  specialize (IH fs1).
  destruct (run_tasks files fs1) as [fs2 os]. simpl in *.
  apply Forall_cons. split; [|done].
  intros st ->. by destruct (process_xml_file_counts _ _ _ _ _ E).
Qed.

End BaselineFacts.

(** ** The claims about the extractors *)

(** C1, as amended.  The blob path stores the blob it was given, in the
    normal and in the degraded branch alike; the XML path stores
    [json.dumps] of ten of the columns it has just extracted, not the
    record it read. *)
Theorem C1_blob_column `{F : PyFloat} (json_loads : string → option value)
    (pmid json_str : string) (r1 : Row) (e : Element) (r2 : Row) :
  Reprocess.extract_fields json_loads pmid json_str = Ok r1 →
  Baseline.extract_article_fields e = Some r2 →
  JSON r1 = json_str
  ∧ JSON r2 = json_dumps (VDict
      [("PMID", VInt (PMID r2)); ("Title", Title r2);
       ("Abstract", VStr (Abstract r2)); ("DOI", DOI r2);
       ("Year", Baseline.value_of_year (Year r2));
       ("Authors", VStr (Authors r2)); ("Journal", Journal r2);
       ("MeSH_Terms", VStr (MeSH_Terms r2));
       ("Keywords", VStr (Keywords r2)); ("Pub_Types", VStr (Pub_Types r2))]).
Proof.
  intros H1 H2. split.
  - by eapply extract_fields_JSON.
  - by destruct (extract_article_fields_some e r2 H2) as (? & _ & _ & _ & _ & ?).
Qed.

(** C1, the amended statement at a blob no decoder accepts and at a full
    XML record. *)
Lemma C1_blob_column_witness :
  ∃ r1 r2 : @Row NoFloat,
    Reprocess.extract_fields sample_loads "8" not_json = Ok r1
    ∧ Baseline.extract_article_fields art_full = Some r2
    ∧ JSON r1 = not_json
    ∧ JSON r2 = json_dumps (VDict
        [("PMID", VInt (PMID r2)); ("Title", Title r2);
         ("Abstract", VStr (Abstract r2)); ("DOI", DOI r2);
         ("Year", Baseline.value_of_year (Year r2));
         ("Authors", VStr (Authors r2)); ("Journal", Journal r2);
         ("MeSH_Terms", VStr (MeSH_Terms r2));
         ("Keywords", VStr (Keywords r2)); ("Pub_Types", VStr (Pub_Types r2))]).
Proof.
  eexists _, _. split; [reflexivity|]. split; [reflexivity|].
  apply (C1_blob_column (F:=NoFloat) sample_loads "8" not_json _ art_full _);
    reflexivity.
Defined.

(** C1, counterexample.  Two records of the XML path that differ (their
    creation dates do, and so do the [Date_Created] columns extracted from
    them) get the same [JSON] column: the column is not the record. *)
Lemma C1_xml_blob_not_the_record :
  ∃ r1 r2 : @Row NoFloat,
    Baseline.extract_article_fields art_created_2014 = Some r1
    ∧ Baseline.extract_article_fields art_created_2015 = Some r2
    ∧ Date_Created r1 = "2014-01-01"
    ∧ Date_Created r2 = "2015-01-01"
    ∧ JSON r1 = JSON r2.
Proof.
  eexists _, _. split; [reflexivity|]. split; [reflexivity|].
  split; [reflexivity|]. split; reflexivity.
Qed.

(** C2, as amended.  When the blob does not decode, [extract_fields]
    returns the degraded row: the PMID of the enclosing cell (0 when the
    cell does not pass [isdigit], its decimal value when it is a decimal
    literal), empty columns, no year, the blob as it came.  The XML
    extractor never raises; it returns no row exactly when the record has no
    [MedlineCitation] or its extraction raised, and the loop of
    [process_xml_file] then passes the record by. *)
Theorem C2_degraded_row `{F : PyFloat} (json_loads : string → option value)
    (pmid json_str : string) (e : Element) :
  json_loads json_str = None →
  (isdigit pmid = false →
     Reprocess.extract_fields json_loads pmid json_str
     = Ok (Reprocess.degraded 0 json_str))
  ∧ (all_decimal pmid = true →
     Reprocess.extract_fields json_loads pmid json_str
     = Ok (Reprocess.degraded (decimal_of pmid) json_str))
  ∧ (Baseline.extract_article_fields e = None
     ↔ find e "MedlineCitation" = None
       ∨ ∃ medline err, find e "MedlineCitation" = Some medline
                        ∧ Baseline.get_pmid medline = Raise err)
  ∧ (Baseline.extract_article_fields e = None →
     ∀ d n, Baseline.scan [e] d n = (d, n)).
Proof.
  intros Hnone. split_and!.
  - intros Hd. unfold Reprocess.extract_fields. by rewrite Hnone, Hd.
  - intros Hd. unfold Reprocess.extract_fields.
    rewrite Hnone, (all_decimal_isdigit _ Hd), (int_of_decimal _ Hd). done.
  - apply extract_article_fields_none.
  - intros He d n. simpl. rewrite He. by destruct (String.eqb _ _).
Qed.

(** C2, the amended statement at an undecodable blob with PMID cell 8. *)
Lemma C2_degraded_row_witness :
  Reprocess.extract_fields (F:=NoFloat) sample_loads "8" not_json
  = Ok (Reprocess.degraded 8 not_json).
Proof.
  apply (C2_degraded_row (F:=NoFloat) sample_loads "8" not_json art_no_citation);
    reflexivity.
Defined.

(** C2, counterexample.  A record without [MedlineCitation] gets no row
    and is not counted; on the blob path a blob that decodes to something
    other than an object makes the extractor raise. *)
Lemma C2_record_dropped :
  Baseline.extract_article_fields (F:=NoFloat) art_no_citation = None
  ∧ (Baseline.process_xml_file (F:=NoFloat) "pubmed25n0001"
       {| Baseline.events := [art_no_citation]; Baseline.broken := None |} ∅).2
    = Ok (Baseline.Stats "pubmed25n0001" 0 [])
  ∧ Reprocess.extract_fields (F:=NoFloat) sample_loads "1" (blob doc_array)
    = Raise AttributeError.
Proof. split; [reflexivity|]. split; reflexivity. Qed.

Section ExtractorClaims.
Context `{F : PyFloat} (json_loads : string → option value).

Lemma first_doi_found pre d post :
  Forall (λ v, ¬ tagged_doi v) pre →
  lookup_key d "@IdType" = Some (VStr "doi") →
  Reprocess.first_doi (pre ++ VDict d :: post) = dict_get d "#text" (VStr "").
Proof.
  intros Hpre Hd. induction Hpre as [|v pre Hv _ IH]; simpl.
  - unfold Reprocess.is_doi. by rewrite Hd.
  - destruct v as [| | | | |l|d']; try exact IH.
    unfold Reprocess.is_doi.
    destruct (lookup_key d' "@IdType") as [[| | | |t| |]|] eqn:E; try exact IH.
    destruct (String.eqb_spec t "doi") as [->|]; [|exact IH].
    exfalso. apply Hv. by exists d'.
Qed.

Lemma first_doi_absent l :
  Forall (λ v, ¬ tagged_doi v) l → Reprocess.first_doi l = VStr "".
Proof.
  intros Hl. rewrite <- (app_nil_r l).
  induction Hl as [|v pre Hv _ IH]; simpl; [done|].
  destruct v as [| | | | |l'|d']; try exact IH.
  unfold Reprocess.is_doi.
  destruct (lookup_key d' "@IdType") as [[| | | |t| |]|] eqn:E; try exact IH.
  destruct (String.eqb_spec t "doi") as [->|]; [|exact IH].
  exfalso. apply Hv. by exists d'.
Qed.

Lemma get_doi_first pubmed_data :
  Reprocess.get_doi pubmed_data
  = Reprocess.first_doi
      (id_list (Reprocess.safe_get pubmed_data ["ArticleIdList"; "ArticleId"])).
Proof.
  unfold Reprocess.get_doi.
  destruct (Reprocess.safe_get pubmed_data _) as [|[|]|n|f|s|[|v l]|[|kv d]];
    simpl; try done;
    repeat match goal with
    | |- context [if ?b then _ else _] => destruct b
    end; done.
Qed.

Lemma xml_first_doi_found pre aid post :
  Forall (λ a, attr_opt (attrib a) "IdType" ≠ Some "doi") pre →
  attr_opt (attrib aid) "IdType" = Some "doi" →
  Baseline.first_doi (pre ++ aid :: post) = default "" (text aid).
Proof.
  intros Hpre Hd. induction Hpre as [|a pre Ha _ IH]; simpl.
  - unfold Baseline.is_doi. by rewrite Hd.
  - unfold Baseline.is_doi at 1.
    destruct (attr_opt (attrib a) "IdType") as [t|] eqn:E; [|exact IH].
    destruct (String.eqb_spec t "doi") as [->|]; [done|exact IH].
Qed.

Lemma xml_first_doi_absent aids :
  Forall (λ a, attr_opt (attrib a) "IdType" ≠ Some "doi") aids →
  Baseline.first_doi aids = "".
Proof.
  intros Hl. induction Hl as [|a pre Ha _ IH]; simpl; [done|].
  unfold Baseline.is_doi at 1.
  destruct (attr_opt (attrib a) "IdType") as [t|] eqn:E; [|exact IH].
  destruct (String.eqb_spec t "doi") as [->|]; [done|exact IH].
Qed.

End ExtractorClaims.

(** C3, at the failing input.  A record whose PMID text is not a number.
    The XML path converts the text with [int] unguarded: the [ValueError]
    is caught by the [except] around the extraction and the record gets no
    row at all, where the claim wants a row with identifier 0.  The blob
    path, which guards the same conversion with [isdigit], gives the
    record the identifier 0. *)
Theorem C3_non_numeric_identifier_dropped :
  int_of_str "abc" = Raise ValueError
  ∧ Baseline.extract_article_fields (F:=NoFloat) art_pmid_abc = None
  ∧ PMID <$> Reprocess.extract_fields (F:=NoFloat) (decoder_of [doc_pmid_abc])
               "abc" (blob doc_pmid_abc)
    = Ok 0.
Proof. split_and!; reflexivity. Qed.

(** C4, at the failing input.  With the explicit year 0 the blob path goes
    on to the free-text date and reports 1998 ([not year] also holds of the
    integer 0); the XML path keeps the year 0 of the same record. *)
Theorem C4_year_zero_falls_back :
  Year <$> Reprocess.extract_fields (F:=NoFloat) sample_loads "1" (blob doc_year_zero)
  = Ok (Some 1998)
  ∧ Year <$> Baseline.extract_article_fields (F:=NoFloat) art_year_zero
    = Some (Some 0).
Proof. split; reflexivity. Qed.

(** C5, at the failing input.  A record whose own identifier list has no
    DOI and that cites a paper with one.  The XML path searches every
    [ArticleId] below [PubmedData], the identifier lists of the cited
    references included, and reports the DOI of the cited paper as the
    record's; the blob path reads the record's own list and leaves the
    DOI empty. *)
Theorem C5_cited_doi_taken :
  DOI <$> Baseline.extract_article_fields (F:=NoFloat) art_cited_doi
  = Some (VStr "10.9/cited")
  ∧ DOI <$> Reprocess.extract_fields (F:=NoFloat) (decoder_of [doc_cited_doi])
              "7" (blob doc_cited_doi)
    = Ok (VStr "").
Proof. split; reflexivity. Qed.

(** ** The claims about the router, the counts and the output tree *)

(** C6.  The router appends a row to the bucket of its year, the bucket of
    0 when the year is null, and leaves every other bucket as it was; in
    both scripts every row the extractor returned is in the bucket of its
    key when the loop ends, and the buckets hold as many rows as were
    returned. *)
Theorem C6_route_one_bucket `{F : PyFloat} (json_loads : string → option value)
    (record : Row) (d : buckets)
    (rows : Reprocess.table) (d1 : buckets)
    (elems : list Element) (d2 : buckets) (n : nat) :
  Reprocess.extract_all json_loads rows [] = Ok d1 →
  Baseline.scan elems [] 0%nat = (d2, n) →
  let key (r : Row) := default 0 (Year r) in
  lookup_year (key record) (route record d)
  = Some (default [] (lookup_year (key record) d) ++ [record])
  ∧ (∀ k, k ≠ key record → lookup_year k (route record d) = lookup_year k d)
  ∧ rows_total (route record d) = S (rows_total d)
  ∧ (∀ pmid json_str, (pmid, json_str) ∈ rows →
       ∃ r, Reprocess.extract_fields json_loads pmid json_str = Ok r
            ∧ in_bucket r (key r) d1)
  ∧ rows_total d1 = length rows
  ∧ (∀ r, r ∈ extracted elems → in_bucket r (key r) d2)
  ∧ rows_total d2 = length (extracted elems).
Proof.
  intros H1 H2 key. unfold key, route.
  destruct (extract_all_spec json_loads rows [] d1 H1)
    as (_ & Htot1 & _ & Hin1); [apply NoDup_nil_2|].
  destruct (scan_spec elems [] 0%nat d2 n H2)
    as (_ & _ & Htot2 & _ & Hin2); [apply NoDup_nil_2|].
  rewrite <- !year_or_0_default. split_and!.
  - apply lookup_bucket_append_eq.
  - intros k Hk. by apply lookup_bucket_append_ne.
  - apply rows_total_bucket_append.
  - intros pmid json_str Hin. destruct (Hin1 _ _ Hin) as (r & Hr & Hb).
    exists r. by rewrite <- year_or_0_default.
  - exact Htot1.
  - intros r Hr. rewrite <- year_or_0_default. by apply Hin2.
  - exact Htot2.
Qed.

(** C6 at a row without a year and no bucket yet. *)
Lemma C6_route_one_bucket_witness :
  lookup_year 0 (route (Reprocess.degraded (F:=NoFloat) 8 not_json) [])
  = Some [Reprocess.degraded 8 not_json].
Proof.
  pose proof (C6_route_one_bucket (F:=NoFloat) sample_loads
    (Reprocess.degraded 8 not_json) [] sample_table _
    (Baseline.events sample_stream) _ _ eq_refl eq_refl) as (H & _).
  exact H.
Defined.

(** C7.  For a task that returned its statistics the per-year counts add
    up to the record count it reports, which is the number of rows of the
    input table (blob path) or of rows the extractor returned (XML path);
    the totals [main] keeps add up in the same way: the per-year totals sum
    to the total record count, which is the sum of the counts the tasks
    reported. *)
Theorem C7_counts_agree `{F : PyFloat} (json_loads : string → option value)
    (stem : string) (rows : Reprocess.table)
    (fs fs1 : tree) (st1 : Reprocess.stats)
    (name : string) (input : Baseline.xml_stream)
    (fs2 : tree) (st2 : Baseline.stats)
    (files : list (string * Reprocess.table))
    (xml_files : list (string * Baseline.xml_stream)) :
  Reprocess.process_parquet_file json_loads stem rows fs = (fs1, Ok st1) →
  Baseline.process_xml_file name input fs = (fs2, Ok st2) →
  (count_sum (Reprocess.years st1) = Reprocess.records st1
   ∧ Reprocess.records st1 = length rows)
  ∧ (count_sum (Baseline.years_of st2) = Baseline.records_of st2
     ∧ (Baseline.broken input = None →
        Baseline.records_of st2 = length (extracted (Baseline.events input))))
  ∧ (let t := (Reprocess.main json_loads files fs).2 in
     totals_sum (Reprocess.year_totals t) = Reprocess.total_records t
     ∧ Reprocess.total_records t
       = reported (Reprocess.run_tasks json_loads files fs).2)
  ∧ (let t := (Baseline.main xml_files fs).2 in
     totals_sum (Baseline.year_totals t) = Baseline.total_records t
     ∧ Baseline.total_records t
       = reported_xml (Baseline.run_tasks xml_files fs).2).
Proof.
  intros H1 H2. split_and!.
  - by eapply process_parquet_file_counts.
  - by eapply process_parquet_file_counts.
  - by eapply process_xml_file_counts.
  - by eapply process_xml_file_counts.
  - unfold Reprocess.main.
    pose proof (run_tasks_counts json_loads files fs) as Hall.
    destruct (Reprocess.run_tasks json_loads files fs) as [fs' outcomes].
    simpl in *.
    destruct (collect_totals outcomes
      {| Reprocess.total_records := 0; Reprocess.year_totals := ∅ |} Hall)
      as [-> ->].
    simpl. unfold totals_sum. rewrite map_fold_empty. done.
  - unfold Baseline.main.
    pose proof (run_tasks_counts_xml xml_files fs) as Hall.
    destruct (Baseline.run_tasks xml_files fs) as [fs' outcomes].
    simpl in *.
    destruct (collect_totals_xml outcomes
      {| Baseline.total_records := 0; Baseline.year_totals := ∅ |} Hall)
      as [-> ->].
    simpl. unfold totals_sum. rewrite map_fold_empty. done.
Qed.

(** C7 at the sample table and the sample stream. *)
Lemma C7_counts_agree_witness :
  ∃ (st1 : Reprocess.stats) (st2 : Baseline.stats),
    (Reprocess.process_parquet_file (F:=NoFloat) sample_loads "pubmed25n0001"
       sample_table ∅).2 = Ok st1
    ∧ (Baseline.process_xml_file (F:=NoFloat) "pubmed25n0002" sample_stream ∅).2
      = Ok st2
    ∧ count_sum (Reprocess.years st1) = 3%nat
    ∧ count_sum (Baseline.years_of st2) = 2%nat.
Proof.
  eexists _, _. split; [reflexivity|]. split; [reflexivity|].
  pose proof (C7_counts_agree (F:=NoFloat) sample_loads "pubmed25n0001"
    sample_table ∅ _ _ "pubmed25n0002" sample_stream _ _ [] []
    (surjective_pairing _) (surjective_pairing _)) as ([H1 _] & [H2 _] & _).
  split; [exact H1 | exact H2].
Defined.

(** C8.  Processing the same file a second time over the output tree the
    first run left returns the same outcome and leaves the tree as it was.
    The outcome does not depend on what the tree holds, and a partition
    file is either left alone or replaced as a whole by rows that depend on
    the input file only. *)
Theorem C8_reprocess_idempotent `{F : PyFloat}
    (json_loads : string → option value)
    (stem : string) (rows : Reprocess.table)
    (name : string) (input : Baseline.xml_stream)
    (fs other : tree) :
  (let run := Reprocess.process_parquet_file json_loads stem rows in
   run (run fs).1 = run fs
   ∧ (run other).2 = (run fs).2
   ∧ ∀ year file,
       (run fs).1 !! (year, file) = (run other).1 !! (year, file)
       ∨ ((run fs).1 !! (year, file) = fs !! (year, file)
          ∧ (run other).1 !! (year, file) = other !! (year, file)))
  ∧ (let run := Baseline.process_xml_file name input in
     run (run fs).1 = run fs
     ∧ (run other).2 = (run fs).2
     ∧ ∀ year file,
         (run fs).1 !! (year, file) = (run other).1 !! (year, file)
         ∨ ((run fs).1 !! (year, file) = fs !! (year, file)
            ∧ (run other).1 !! (year, file) = other !! (year, file))).
Proof.
  split; simpl.
  - rewrite !process_parquet_file_eq.
    destruct (Reprocess.extract_all json_loads rows []) as [d|err]; simpl.
    + split_and!; [by rewrite put_all_idempotent|done|].
      intros year file. rewrite !lookup_put_all.
      destruct (decide (file = stem +:+ ".parquet")); [|by right].
      destruct (last_write year (accepted d)); [by left|by right].
    + split_and!; [done..|]. intros year file. by right.
  - rewrite !process_xml_file_eq.
    destruct (Baseline.broken input); simpl.
    + split_and!; [done..|]. intros year file. by right.
    + split_and!; [by rewrite put_all_idempotent|done|].
      intros year file. rewrite !lookup_put_all.
      destruct (decide (file = name +:+ ".parquet")); [|by right].
      destruct (last_write year (accepted _)); [by left|by right].
Qed.

(** C9, at the failing input.  The XML path hands the PMID text to [int]
    as it is, sign included: the text [-5] gives the identifier -5. *)
Theorem C9_negative_identifier :
  PMID <$> Baseline.extract_article_fields (F:=NoFloat) art_pmid_negative
  = Some (-5).
Proof. reflexivity. Qed.

(** C10, as amended.  In a task that returned its statistics, an input
    row whose blob does not decode has become the degraded row, with a
    null year; the router puts that row in the bucket of 0 whatever the
    buckets hold, the row is in the partition file of year 0 the task
    wrote, the count recorded for year 0 is the number of rows of that
    file, and the record count is the number of rows of the table. *)
Theorem C10_undecodable_in_partition_0 `{F : PyFloat}
    (json_loads : string → option value)
    (stem : string) (rows : Reprocess.table)
    (fs fs' : tree) (st : Reprocess.stats)
    (pmid json_str : string) :
  Reprocess.process_parquet_file json_loads stem rows fs = (fs', Ok st) →
  (pmid, json_str) ∈ rows →
  json_loads json_str = None →
  ∃ (n : Z) (part : list Row),
    Reprocess.extract_fields json_loads pmid json_str
    = Ok (Reprocess.degraded n json_str)
    ∧ Year (Reprocess.degraded n json_str) = None
    ∧ (∀ d, lookup_year 0 (route (Reprocess.degraded n json_str) d)
            = Some (default [] (lookup_year 0 d)
                    ++ [Reprocess.degraded n json_str]))
    ∧ fs' !! (0, stem +:+ ".parquet") = Some part
    ∧ Reprocess.degraded n json_str ∈ part
    ∧ lookup_year 0 (Reprocess.years st) = Some (length part)
    ∧ Reprocess.records st = length rows.
Proof.
  intros (d & Hd & Hnd & _ & -> & ->)%process_parquet_file_ok Hin Hnone.
  destruct (extract_all_spec json_loads rows [] d Hd) as (_ & _ & _ & Hrow);
    [apply NoDup_nil_2|].
  destruct (Hrow _ _ Hin) as (r & Hr & part & Hpart & Hmem).
  destruct (extract_fields_undecoded _ _ _ _ Hnone Hr) as (n & _ & ->).
  change (year_or_0 (Reprocess.degraded n json_str)) with 0 in Hpart.
  exists n, part. split_and!; try done.
  - intros d0. apply (lookup_bucket_append_eq 0).
  - rewrite lookup_put_all, decide_True by done.
    by rewrite (last_write_NoDup 0 part d Hnd (lookup_year_elem _ _ _ Hpart)).
  - simpl. by rewrite (lookup_year_map (@length Row)), Hpart.
Qed.

(** C10 at the second row of the sample table. *)
Lemma C10_undecodable_in_partition_0_witness :
  ∃ part : list (@Row NoFloat),
    (Reprocess.process_parquet_file sample_loads "pubmed25n0001"
       sample_table ∅).1 !! (0, "pubmed25n0001.parquet") = Some part
    ∧ Reprocess.degraded 8 not_json ∈ part.
Proof.
  assert (Hin : ("8", not_json) ∈ sample_table).
  { apply elem_of_cons. right. apply elem_of_cons. by left. }
  destruct (C10_undecodable_in_partition_0 (F:=NoFloat) sample_loads
    "pubmed25n0001" sample_table ∅ _ _ "8" not_json
    (surjective_pairing _) Hin eq_refl)
    as (n & part & Hrow & _ & _ & Hfs & Hmem & _).
  injection Hrow as <-. exists part. split; [exact Hfs | exact Hmem].
Defined.

(** C10, counterexample.  An undecodable row is lost when its task
    raises: here with a second cell whose blob is valid JSON but no
    object, and with a PMID cell beyond 64 bits; neither task has written
    anything. *)
Lemma C10_undecodable_row_lost :
  sample_loads not_json = None
  ∧ Reprocess.process_parquet_file (F:=NoFloat) sample_loads "pubmed25n0006"
      [("8", not_json); ("1", blob doc_array)] ∅
    = (∅, Raise AttributeError)
  ∧ Reprocess.process_parquet_file (F:=NoFloat) sample_loads "pubmed25n0007"
      [("99999999999999999999", not_json)] ∅
    = (∅, Raise OverflowError).
Proof. split_and!; reflexivity. Qed.

(** ** Further properties of the two scripts *)

(** On the blob path the identifier of a row is never negative: the
    conversion is guarded by [isdigit] in both branches. *)
Theorem blob_identifier_nonneg `{F : PyFloat}
    (json_loads : string → option value) (pmid json_str : string) (r : Row) :
  Reprocess.extract_fields json_loads pmid json_str = Ok r → 0 ≤ PMID r.
Proof. apply extract_fields_nonneg. Qed.

Lemma blob_identifier_nonneg_witness :
  ∃ r : @Row NoFloat,
    Reprocess.extract_fields sample_loads "-5" not_json = Ok r ∧ 0 ≤ PMID r.
Proof.
  eexists. split; [reflexivity|].
  apply (blob_identifier_nonneg (F:=NoFloat) sample_loads "-5" not_json).
  reflexivity.
Defined.

(** Year resolution on the XML path: a decimal year text is the year; with
    no year text, or one [int] rejects, the first four characters of the
    free-text date are the year when they are decimal digits; otherwise the
    year is null. *)
Theorem xml_year_resolution `{F : PyFloat}
    (e citation article pub_date : Element) (r : Row) :
  Baseline.extract_article_fields e = Some r →
  find e "MedlineCitation" = Some citation →
  find citation "Article" = Some article →
  find_desc article "PubDate" = Some pub_date →
  let year_text := find pub_date "Year" ≫= Baseline.nonempty_text in
  let date_text := find pub_date "MedlineDate" ≫= Baseline.nonempty_text in
  let unresolved :=
    year_text = None ∨ ∃ t err, year_text = Some t ∧ int_of_str t = Raise err in
  (∀ t, year_text = Some t → all_decimal t = true →
     Year r = Some (decimal_of t))
  ∧ (unresolved → ∀ t, date_text = Some t →
       length (take 4 (chars t)) = 4%nat →
       forallb is_decimal (take 4 (chars t)) = true →
       Year r = Some (decimal_of (prefix 4 t)))
  ∧ (unresolved → ∀ t, date_text = Some t →
       (length (take 4 (chars t)) =? 4)%nat
       && forallb is_decimal (take 4 (chars t)) = false →
       Year r = None)
  ∧ (unresolved → date_text = None → Year r = None).
Proof.
  intros Hr Hcit Hart Hpd year_text date_text unresolved.
  destruct (extract_article_fields_some e r Hr) as (c & Hc & _ & Hy & _).
  rewrite Hcit in Hc. injection Hc as <-.
  unfold Baseline.get_year in Hy. rewrite Hart in Hy. simpl in Hy.
  rewrite Hpd in Hy.
  unfold Baseline.year_explicit, Baseline.year_fallback in Hy.
  fold year_text date_text in Hy.
  assert (Hun : unresolved →
    match date_text with
    | Some t =>
        match Baseline.match_4_digits t with
        | Some group1 => Some <$> int_of_str group1
        | None => Ok None
        end
    | None => Ok None
    end = Ok (Year r)).
  { intros [Hn|(t & err & Ht & Herr)].
    - by rewrite Hn in Hy.
    - by rewrite Ht, Herr in Hy. }
  split_and!.
  - intros t Ht Hd. rewrite Ht, (int_of_decimal _ Hd) in Hy. by injection Hy.
  - intros Hu t Ht Hlen Hdec. specialize (Hun Hu). rewrite Ht in Hun.
    unfold Baseline.match_4_digits in Hun. rewrite Hlen, Hdec in Hun.
    simpl in Hun. rewrite (int_of_decimal (Py.text (take 4 (chars t)))) in Hun.
    + by injection Hun.
    + unfold all_decimal. rewrite chars_text.
      destruct (take 4 (chars t)); [done|exact Hdec].
  - intros Hu t Ht Hno. specialize (Hun Hu). rewrite Ht in Hun.
    unfold Baseline.match_4_digits in Hun. rewrite Hno in Hun. by injection Hun.
  - intros Hu Hn. specialize (Hun Hu). rewrite Hn in Hun. by injection Hun.
Qed.

Lemma xml_year_resolution_witness :
  ∃ r : @Row NoFloat,
    Baseline.extract_article_fields art_medline_date = Some r
    ∧ Year r = Some 1998.
Proof.
  eexists. split; [reflexivity|].
  pose proof (xml_year_resolution (F:=NoFloat) art_medline_date _ _ _ _
    eq_refl eq_refl eq_refl eq_refl) as (_ & H & _).
  exact (H (or_introl eq_refl) "1998 Jan-Feb" eq_refl eq_refl eq_refl).
Defined.

(** Year resolution on the blob path, for a publication date that is an
    object: a decimal year text other than zero is the year; with no
    [Year] entry the first four characters of a [MedlineDate] string are the
    year when they are decimal digits; with neither entry the year is
    null. *)
Theorem blob_year_resolution `{F : PyFloat}
    (json_loads : string → option value) (pmid json_str : string)
    (data medline article : value) (fields : dict) (r : Row) :
  json_loads json_str = Some data →
  get data "MedlineCitation" (VDict []) = Ok medline →
  get medline "Article" (VDict []) = Ok article →
  Reprocess.safe_get article ["Journal"; "JournalIssue"; "PubDate"]
  = VDict fields →
  Reprocess.extract_fields json_loads pmid json_str = Ok r →
  (∀ t, lookup_key fields "Year" = Some (VStr t) → all_decimal t = true →
     decimal_of t ≠ 0 → Year r = Some (decimal_of t))
  ∧ (lookup_key fields "Year" = None →
     ∀ t, lookup_key fields "MedlineDate" = Some (VStr t) →
       length (take 4 (chars t)) = 4%nat →
       forallb is_decimal (take 4 (chars t)) = true →
       Year r = Some (decimal_of (prefix 4 t)))
  ∧ (lookup_key fields "Year" = None →
     lookup_key fields "MedlineDate" = None → Year r = None).
Proof.
  intros Hloads Hmed Hart Hpd Hr.
  destruct (extract_fields_decoded _ _ _ _ _ Hloads Hr)
    as (m & a & _ & Hm & Ha & _ & _ & _ & Hy & _).
  rewrite Hmed in Hm. injection Hm as <-.
  rewrite Hart in Ha. injection Ha as <-.
  unfold Reprocess.get_year, Reprocess.pub_date_of in Hy. rewrite Hpd in Hy.
  unfold Reprocess.year_explicit, Reprocess.year_fallback, dict_get in Hy.
  split_and!.
  - intros t Ht Hd Hnz. rewrite Ht in Hy. simpl in Hy.
    assert (Hne : negb (String.eqb t "") = true).
    { destruct t; [done|reflexivity]. }
    rewrite Hne, (all_decimal_isdigit _ Hd), (int_of_decimal _ Hd) in Hy.
    simpl in Hy. destruct (Z.eqb_spec (decimal_of t) 0); [done|].
    by injection Hy.
  - intros Hno t Ht Hlen Hdec. rewrite Hno, Ht in Hy. simpl in Hy.
    assert (Hne : negb (String.eqb t "") = true).
    { destruct t; [done|reflexivity]. }
    rewrite Hne in Hy. simpl in Hy.
    change (match length (chars t) with
            | S (S (S (S _))) => true
            | _ => false
            end) with (4 <=? length (chars t))%nat in Hy.
    assert (Hge : (4 <=? length (chars t))%nat = true).
    { apply Nat.leb_le. rewrite length_take in Hlen. lia. }
    rewrite Hge in Hy.
    assert (Hall : all_decimal (prefix 4 t) = true).
    { unfold all_decimal, prefix. rewrite chars_text.
      destruct (take 4 (chars t)); [done|exact Hdec]. }
    rewrite (all_decimal_isdigit _ Hall), (int_of_decimal _ Hall) in Hy.
    by injection Hy.
  - intros Hno Hnd. rewrite Hno, Hnd in Hy. simpl in Hy. by injection Hy.
Qed.

Lemma blob_year_resolution_witness :
  ∃ r : @Row NoFloat,
    Reprocess.extract_fields sample_loads "9" (blob doc_medline_date) = Ok r
    ∧ Year r = Some 1998.
Proof.
  eexists. split; [reflexivity|].
  pose proof (blob_year_resolution (F:=NoFloat) sample_loads "9"
    (blob doc_medline_date) doc_medline_date _ _
    [("MedlineDate", VStr "1998 Jan-Feb")] _
    eq_refl eq_refl eq_refl eq_refl eq_refl) as (_ & H & _).
  exact (H eq_refl "1998 Jan-Feb" eq_refl eq_refl eq_refl).
Defined.

(** The identifier of a row that was returned.  On the blob path it is
    read from the record's [PMID]/[#text] when that is there and not empty,
    and from the enclosing PMID cell otherwise; a decimal literal gives its
    integer, a text that does not pass [isdigit] gives 0.  On the XML path
    a [PMID] element that is missing or has no text gives 0 and a decimal
    literal gives its integer. *)
Theorem identifier_resolution `{F : PyFloat}
    (json_loads : string → option value)
    (pmid json_str : string) (data medline : value) (r1 : Row)
    (e citation : Element) (r2 : Row) :
  json_loads json_str = Some data →
  get data "MedlineCitation" (VDict []) = Ok medline →
  Reprocess.extract_fields json_loads pmid json_str = Ok r1 →
  find e "MedlineCitation" = Some citation →
  Baseline.extract_article_fields e = Some r2 →
  let source :=
    or_else (Reprocess.safe_get medline ["PMID"; "#text"]) (VStr pmid) in
  let pmid_text := find citation "PMID" ≫= Baseline.nonempty_text in
  (∀ t, source = VStr t → all_decimal t = true → PMID r1 = decimal_of t)
  ∧ (isdigit (str source) = false → PMID r1 = 0)
  ∧ (∀ t, pmid_text = Some t → all_decimal t = true → PMID r2 = decimal_of t)
  ∧ (pmid_text = None → PMID r2 = 0).
Proof.
  intros Hloads Hmed H1 Hcit H2 source pmid_text.
  destruct (extract_fields_decoded _ _ _ _ _ Hloads H1)
    as (medline' & _ & _ & Hmed' & _ & _ & Hp & _).
  rewrite Hmed in Hmed'. injection Hmed' as <-.
  unfold Reprocess.get_pmid_int, Reprocess.pmid_val in Hp. fold source in Hp.
  destruct (extract_article_fields_some e r2 H2) as (c & Hc & Hp2 & _).
  rewrite Hcit in Hc. injection Hc as <-.
  assert (Hx : Baseline.get_pmid citation
               = match pmid_text with Some t => int_of_str t | None => Ok 0 end).
  { unfold Baseline.get_pmid, pmid_text.
    by destruct (find citation "PMID"). }
  rewrite Hx in Hp2. split_and!.
  - intros t Ht Hd. rewrite Ht in Hp. simpl in Hp.
    rewrite (all_decimal_isdigit _ Hd), (int_of_decimal _ Hd) in Hp.
    by injection Hp.
  - intros Hd. rewrite Hd in Hp. by injection Hp.
  - intros t Ht Hd. rewrite Ht, (int_of_decimal _ Hd) in Hp2. by injection Hp2.
  - intros Ht. rewrite Ht in Hp2. by injection Hp2.
Qed.

(** At the record with PMID 25383517. *)
Lemma identifier_resolution_witness :
  ∃ r1 r2 : @Row NoFloat,
    Reprocess.extract_fields sample_loads "9" (blob doc_full) = Ok r1
    ∧ Baseline.extract_article_fields art_full = Some r2
    ∧ PMID r1 = 25383517 ∧ PMID r2 = 25383517.
Proof.
  eexists _, _. split; [reflexivity|]. split; [reflexivity|].
  pose proof (identifier_resolution (F:=NoFloat) sample_loads "9"
    (blob doc_full) doc_full _ _ art_full _ _ eq_refl eq_refl eq_refl eq_refl eq_refl)
    as (Hblob & _ & Hxml & _).
  split.
  - exact (Hblob "25383517" eq_refl eq_refl).
  - exact (Hxml "25383517" eq_refl eq_refl).
Defined.

(** The DOI column is the text of the first tagged identifier whose type
    tag is exactly [doi], and is empty when no identifier carries that
    tag.  The identifiers are those of the record's own [ArticleIdList] on
    the blob path, and every [ArticleId] below [PubmedData], in document
    order, on the XML path. *)
Theorem first_doi_per_path `{F : PyFloat}
    (json_loads : string → option value)
    (pmid json_str : string) (data pubmed_data : value) (r1 : Row)
    (e : Element) (r2 : Row) :
  json_loads json_str = Some data →
  get data "PubmedData" (VDict []) = Ok pubmed_data →
  Reprocess.extract_fields json_loads pmid json_str = Ok r1 →
  Baseline.extract_article_fields e = Some r2 →
  let ids :=
    id_list (Reprocess.safe_get pubmed_data ["ArticleIdList"; "ArticleId"]) in
  let aids :=
    match find e "PubmedData" with
    | Some pd => findall_desc pd "ArticleId"
    | None => []
    end in
  (∀ pre d post,
     ids = pre ++ VDict d :: post →
     Forall (λ v, ¬ tagged_doi v) pre →
     lookup_key d "@IdType" = Some (VStr "doi") →
     DOI r1 = dict_get d "#text" (VStr ""))
  ∧ (Forall (λ v, ¬ tagged_doi v) ids → DOI r1 = VStr "")
  ∧ (∀ pre aid post,
     aids = pre ++ aid :: post →
     Forall (λ a, attr_opt (attrib a) "IdType" ≠ Some "doi") pre →
     attr_opt (attrib aid) "IdType" = Some "doi" →
     DOI r2 = VStr (default "" (text aid)))
  ∧ (Forall (λ a, attr_opt (attrib a) "IdType" ≠ Some "doi") aids →
     DOI r2 = VStr "").
Proof.
  intros Hloads Hpd H1 H2 ids aids.
  destruct (extract_fields_decoded _ _ _ _ _ Hloads H1)
    as (_ & _ & pd' & _ & _ & Hpd' & _ & Hdoi & _).
  rewrite Hpd in Hpd'. injection Hpd' as <-.
  rewrite get_doi_first in Hdoi. fold ids in Hdoi.
  destruct (extract_article_fields_some e r2 H2) as (_ & _ & _ & _ & Hdoi2 & _).
  assert (Hx : Baseline.get_doi (find e "PubmedData") = Baseline.first_doi aids).
  { unfold Baseline.get_doi, aids. by destruct (find e "PubmedData"). }
  rewrite Hx in Hdoi2. split_and!.
  - intros pre d post -> Hpre Hd. rewrite Hdoi. by apply first_doi_found.
  - intros Hall. rewrite Hdoi. by apply first_doi_absent.
  - intros pre aid post -> Hpre Hd. rewrite Hdoi2. f_equal.
    by apply xml_first_doi_found.
  - intros Hall. rewrite Hdoi2. f_equal. by apply xml_first_doi_absent.
Qed.

(** At a record whose identifiers are tagged [DOI], [doi], [doi]. *)
Lemma first_doi_per_path_witness :
  ∃ r1 r2 : @Row NoFloat,
    Reprocess.extract_fields sample_loads "9" (blob doc_full) = Ok r1
    ∧ Baseline.extract_article_fields art_full = Some r2
    ∧ DOI r1 = VStr "10.1/first" ∧ DOI r2 = VStr "10.1/first".
Proof.
  eexists _, _. split; [reflexivity|]. split; [reflexivity|].
  pose proof (first_doi_per_path (F:=NoFloat) sample_loads "9"
    (blob doc_full) doc_full _ _ art_full _ eq_refl eq_refl eq_refl eq_refl)
    as (Hblob & _ & Hxml & _).
  split.
  - apply (Hblob [VDict [("@IdType", VStr "DOI"); ("#text", VStr "10.1/upper")]]
             [("@IdType", VStr "doi"); ("#text", VStr "10.1/first")]
             [VDict [("@IdType", VStr "doi"); ("#text", VStr "10.1/second")]]);
      [reflexivity| |reflexivity].
    apply Forall_cons. split; [|apply Forall_nil_2].
    intros (d & [= <-] & Hd). discriminate Hd.
  - apply (Hxml [article_id "DOI" "10.1/upper"] (article_id "doi" "10.1/first")
             [article_id "doi" "10.1/second"]); [reflexivity| |reflexivity].
    apply Forall_cons. split; [|apply Forall_nil_2]. discriminate.
Defined.

(** A task touches the partition files that carry its own file name and
    no other file of the output tree. *)
Theorem task_writes_own_files `{F : PyFloat}
    (json_loads : string → option value)
    (stem : string) (rows : Reprocess.table)
    (name : string) (input : Baseline.xml_stream)
    (fs : tree) (year : Z) (file : string) :
  (file ≠ stem +:+ ".parquet" →
   (Reprocess.process_parquet_file json_loads stem rows fs).1 !! (year, file)
   = fs !! (year, file))
  ∧ (file ≠ name +:+ ".parquet" →
     (Baseline.process_xml_file name input fs).1 !! (year, file)
     = fs !! (year, file)).
Proof.
  split; intros Hne.
  - rewrite process_parquet_file_eq.
    destruct (Reprocess.extract_all json_loads rows []); [|done].
    simpl. by rewrite lookup_put_all, decide_False.
  - rewrite process_xml_file_eq. destruct (Baseline.broken input); [done|].
    simpl. by rewrite lookup_put_all, decide_False.
Qed.

(** A file whose stream breaks gives an error record that names the
    file; nothing is written for it and [main] adds nothing for it, while
    the other tasks are counted as usual. *)
Theorem broken_file_isolated `{F : PyFloat}
    (name err : string) (elems : list Element)
    (fs : tree)
    (acc : Baseline.totals) :
  Baseline.process_xml_file name
    {| Baseline.events := elems; Baseline.broken := Some err |} fs
  = (fs, Ok (Baseline.Error err name))
  ∧ Baseline.collect acc (Ok (Baseline.Error err name)) = acc.
Proof. done. Qed.

(** A table none of whose blobs decodes, with PMID cells that are decimal
    literals within the 64-bit range, is processed to the end: every row
    becomes a degraded row, the rows are written, in the order of the
    table, to the partition file of year 0, and the statistics count them
    there. *)
Theorem undecodable_table_processed `{F : PyFloat}
    (json_loads : string → option value)
    (stem : string) (rows : Reprocess.table)
    (fs : tree) :
  rows ≠ [] →
  Forall (λ row, json_loads row.2 = None ∧ all_decimal row.1 = true
                 ∧ decimal_of row.1 < 2 ^ 63) rows →
  let part := map (λ row, Reprocess.degraded (decimal_of row.1) row.2) rows in
  Reprocess.process_parquet_file json_loads stem rows fs
  = (<[(0, stem +:+ ".parquet") := part]> fs,
     Ok {| Reprocess.input_file := stem;
           Reprocess.records := length rows;
           Reprocess.years := [(0, length rows)] |}).
Proof.
  intros Hne Hall part.
  assert (Hext : ∀ (rs : Reprocess.table) (done_rows : list Row),
    Forall (λ row, json_loads row.2 = None ∧ all_decimal row.1 = true
                   ∧ decimal_of row.1 < 2 ^ 63) rs →
    done_rows ≠ [] →
    Reprocess.extract_all json_loads rs [(0, done_rows)]
    = Ok [(0, done_rows
              ++ map (λ row, Reprocess.degraded (decimal_of row.1) row.2) rs)]).
  { induction rs as [|[p j] rs IH]; intros done_rows Hrs Hd; simpl.
    - by rewrite app_nil_r.
    - apply Forall_cons in Hrs as [(Hj & Hp & _) Hrs]. simpl in Hj, Hp.
      unfold Reprocess.extract_fields.
      rewrite Hj, (all_decimal_isdigit _ Hp), (int_of_decimal _ Hp).
      change (Reprocess.extract_all json_loads rs
                [(0, done_rows ++ [Reprocess.degraded (decimal_of p) j])]
              = Ok [(0, done_rows ++ Reprocess.degraded (decimal_of p) j
                          :: map (λ row, Reprocess.degraded (decimal_of row.1) row.2) rs)]).
      rewrite IH; [|done|by destruct done_rows].
      by rewrite <- app_assoc. }
  assert (Hfirst : Reprocess.extract_all json_loads rows [] = Ok [(0, part)]).
  { destruct rows as [|[p j] rs]; [done|]. simpl.
    apply Forall_cons in Hall as [(Hj & Hp & _) Hrs]. simpl in Hj, Hp.
    unfold Reprocess.extract_fields.
    rewrite Hj, (all_decimal_isdigit _ Hp), (int_of_decimal _ Hp).
    change (Reprocess.extract_all json_loads rs
              [(0, [Reprocess.degraded (decimal_of p) j])] = Ok [(0, part)]).
    by rewrite Hext. }
  assert (Hfit : forallb SCHEMA part = true).
  { apply forallb_forall. intros r [row [<- Hin]]%in_map_iff.
    rewrite List.Forall_forall in Hall.
    destruct (Hall row Hin) as (_ & Hp & Hlt).
    pose proof (decimal_of_nonneg _ Hp).
    unfold SCHEMA, fits_int64. simpl.
    rewrite !andb_true_r. apply andb_true_iff.
    split; [apply Z.leb_le; lia|by apply Z.ltb_lt]. }
  rewrite process_parquet_file_eq, Hfirst. simpl. rewrite Hfit. simpl.
  unfold part. by rewrite length_map.
Qed.

Lemma undecodable_table_processed_witness :
  (Reprocess.process_parquet_file (F:=NoFloat) sample_loads "pubmed25n0003"
     [("8", not_json); ("9", "{")] ∅).2
  = Ok {| Reprocess.input_file := "pubmed25n0003";
          Reprocess.records := 2;
          Reprocess.years := [(0, 2%nat)] |}.
Proof.
  rewrite (undecodable_table_processed (F:=NoFloat) sample_loads "pubmed25n0003"
             [("8", not_json); ("9", "{")] ∅).
  - reflexivity.
  - discriminate.
  - repeat (apply Forall_cons; split; [split_and!; (reflexivity || by vm_compute)|]).
    apply Forall_nil_2.
Defined.

(** The scenarios of the specification, on both paths: the record with
    identifier 25383517, and the record dated by its free-text date. *)
Theorem spec_scenarios :
  (λ r : @Row NoFloat, (PMID r, Title r, Year r, DOI r))
    <$> Reprocess.extract_fields sample_loads "25383517" (blob doc_full)
  = Ok (25383517, VStr "A CRISPR method", Some 2015, VStr "10.1/first")
  ∧ (λ r : @Row NoFloat, (PMID r, Title r, Year r, DOI r))
      <$> Baseline.extract_article_fields art_full
    = Some (25383517, VStr "A CRISPR method", Some 2015, VStr "10.1/first")
  ∧ Year <$> Reprocess.extract_fields (F:=NoFloat) sample_loads "9"
               (blob doc_medline_date) = Ok (Some 1998)
  ∧ Year <$> Baseline.extract_article_fields (F:=NoFloat) art_medline_date
    = Some (Some 1998).
Proof. split_and!; reflexivity. Qed.

(** * Further properties of the two paths *)

Import Grouping Scheduling Names.

(** ** Routing as grouping *)

Section GroupingFacts.
Context `{F : PyFloat}.

Lemma last_write_lookup year (d : buckets) :
  NoDup d.*1 → last_write year d = lookup_year year d.
Proof.
  induction d as [|[y rs] d IH]; simpl; [done|].
  intros [Hy Hd]%NoDup_cons. rewrite (IH Hd).
  destruct (Z.eqb_spec y year) as [->|Hne]; [|by destruct (lookup_year year d)].
  destruct (lookup_year year d) as [rs'|] eqn:E; [|done].
  exfalso. apply Hy. apply list_elem_of_fmap. exists (year, rs').
  split; [done|]. by apply lookup_year_elem.
Qed.

Lemma lookup_route_all (rs : list Row) : ∀ (d : buckets) year,
  lookup_year year (route_all rs d)
  = match lookup_year year d with
    | Some old => Some (old ++ rows_of_year year rs)
    | None =>
        match rows_of_year year rs with
        | [] => None
        | new => Some new
        end
    end.
Proof.
  unfold route_all, rows_of_year.
  induction rs as [|r rs IH]; intros d year; simpl.
  - destruct (lookup_year year d); [by rewrite app_nil_r|done].
  - rewrite IH. unfold route.
    destruct (Z.eqb_spec (year_or_0 r) year) as [<-|Hne].
    + rewrite lookup_bucket_append_eq.
      destruct (lookup_year (year_or_0 r) d); simpl; [|done].
      by rewrite <- app_assoc.
    + by rewrite lookup_bucket_append_ne.
Qed.

Lemma NoDup_route_all (rs : list Row) : ∀ d : buckets,
  NoDup d.*1 → NoDup (route_all rs d).*1.
Proof.
  unfold route_all. induction rs as [|r rs IH]; intros d Hd; simpl; [done|].
  apply IH. by apply NoDup_bucket_append.
Qed.

Lemma extract_all_route (json_loads : string → option value)
    (rows : Reprocess.table) : ∀ d : buckets,
  Reprocess.extract_all json_loads rows d
  = (recs ← decoded_rows json_loads rows; Ok (route_all recs d)).
Proof.
  unfold decoded_rows.
  induction rows as [|[pmid json_str] rows IH]; intros d; simpl; [done|].
  destruct (Reprocess.extract_fields json_loads pmid json_str) as [r|e];
    simpl; [|done].
  rewrite IH. by destruct (mapM _ rows).
Qed.

Lemma scan_route (elems : list Element) : ∀ (d : buckets) n,
  Baseline.scan elems d n
  = (route_all (extracted elems) d, (n + length (extracted elems))%nat).
Proof.
  induction elems as [|e elems IH]; intros d n.
  - simpl. f_equal. lia.
  - rewrite extracted_cons. cbn [Baseline.scan].
    destruct (String.eqb (tag e) "PubmedArticle"); [|apply IH].
    destruct (Baseline.extract_article_fields e) as [r|]; [|apply IH].
    rewrite IH. simpl. f_equal. lia.
Qed.

(** Every bucket holds at least one row. *)
Lemma route_all_nonempty (rs : list Row) (year : Z) :
  lookup_year year (route_all rs []) ≠ Some [].
Proof.
  rewrite lookup_route_all. simpl.
  by destruct (rows_of_year year rs).
Qed.

End GroupingFacts.

Section TaskContents.
Context `{F : PyFloat}.

Lemma lookup_years_of_buckets year (d : buckets) :
  lookup_year year (map (λ b, (b.1, length b.2)) d)
  = length <$> lookup_year year d.
Proof. apply (lookup_year_map (@length Row)). Qed.

(** What the files and the statistics of a task are, given its buckets. *)
Lemma task_contents (out : string) (recs : list Row) (fs : tree) (year : Z) :
  let d := route_all recs [] in
  (rows_of_year year recs ≠ [] →
     put_all out d fs !! (year, out) = Some (rows_of_year year recs)
     ∧ lookup_year year (map (λ b, (b.1, length b.2)) d)
       = Some (length (rows_of_year year recs)))
  ∧ (rows_of_year year recs = [] →
     put_all out d fs !! (year, out) = fs !! (year, out)
     ∧ lookup_year year (map (λ b, (b.1, length b.2)) d) = None).
Proof.
  intros d.
  assert (Hnd : NoDup d.*1) by (apply NoDup_route_all, NoDup_nil_2).
  assert (Hl : lookup_year year d
               = match rows_of_year year recs with [] => None | new => Some new end)
    by (unfold d; by rewrite lookup_route_all).
  rewrite lookup_put_all, decide_True by done.
  rewrite (last_write_lookup year d Hnd), lookup_years_of_buckets, Hl.
  split; intros H.
  - by destruct (rows_of_year year recs).
  - by rewrite H.
Qed.

(** Each partition file a task of the blob path wrote holds the rows of
    its year, in the order of the table, and the statistics record their
    number; a year without rows gets no file and no entry. *)
Theorem parquet_partition_contents (json_loads : string → option value)
    (stem : string) (rows : Reprocess.table) (fs fs' : tree)
    (st : Reprocess.stats) :
  Reprocess.process_parquet_file json_loads stem rows fs = (fs', Ok st) →
  ∃ recs,
    decoded_rows json_loads rows = Ok recs
    ∧ length recs = length rows
    ∧ ∀ year,
        (rows_of_year year recs ≠ [] →
           fs' !! (year, stem +:+ ".parquet") = Some (rows_of_year year recs)
           ∧ lookup_year year (Reprocess.years st)
             = Some (length (rows_of_year year recs)))
        ∧ (rows_of_year year recs = [] →
           fs' !! (year, stem +:+ ".parquet") = fs !! (year, stem +:+ ".parquet")
           ∧ lookup_year year (Reprocess.years st) = None).
Proof.
  intros (d & Hd & _ & Htot & -> & ->)%process_parquet_file_ok.
  rewrite extract_all_route in Hd.
  destruct (decoded_rows json_loads rows) as [recs|] eqn:E; [|done].
  injection Hd as <-. exists recs. split; [done|]. split.
  - clear -E. revert recs E. unfold decoded_rows.
    induction rows as [|row rows IH]; intros recs; simpl.
    + by intros [= <-].
    + destruct (Reprocess.extract_fields _ _ _); simpl; [|done].
      destruct (mapM _ rows) as [rs|] eqn:E; simpl; [|done].
      intros [= <-]. simpl. by rewrite (IH rs).
  - intros year. apply task_contents.
Qed.

(** The same for a task of the XML path, over the rows the extractor
    returned for the [PubmedArticle] elements of the stream. *)
Theorem xml_partition_contents (name : string) (elems : list Element)
    (fs fs' : tree) (st : Baseline.stats) :
  Baseline.process_xml_file name
    {| Baseline.events := elems; Baseline.broken := None |} fs = (fs', Ok st) →
  Baseline.records_of st = length (extracted elems)
  ∧ ∀ year,
      (rows_of_year year (extracted elems) ≠ [] →
         fs' !! (year, name +:+ ".parquet")
         = Some (rows_of_year year (extracted elems))
         ∧ lookup_year year (Baseline.years_of st)
           = Some (length (rows_of_year year (extracted elems))))
      ∧ (rows_of_year year (extracted elems) = [] →
         fs' !! (year, name +:+ ".parquet") = fs !! (year, name +:+ ".parquet")
         ∧ lookup_year year (Baseline.years_of st) = None).
Proof.
  rewrite process_xml_file_eq. simpl. rewrite scan_route. simpl.
  destruct (all_accepted _) eqn:Ha; [|done].
  intros [= <- <-]. rewrite accepted_all by done. simpl.
  split; [done|]. intros year. apply task_contents.
Qed.

End TaskContents.

Lemma parquet_partition_contents_witness :
  ∃ part : list (@Row NoFloat),
    (Reprocess.process_parquet_file sample_loads "pubmed25n0001"
       sample_table ∅).1 !! (1998, "pubmed25n0001.parquet") = Some part
    ∧ length part = 1%nat.
Proof.
  destruct (parquet_partition_contents (F:=NoFloat) sample_loads
    "pubmed25n0001" sample_table ∅ _ _ (surjective_pairing _))
    as (recs & Hrecs & _ & H).
  injection Hrecs as <-.
  destruct (H 1998) as [[Hfile _] _]; [discriminate|].
  eexists. split; [exact Hfile|reflexivity].
Defined.

Lemma xml_partition_contents_witness :
  ∃ part : list (@Row NoFloat),
    (Baseline.process_xml_file "pubmed25n0002" sample_stream ∅).1
      !! (2015, "pubmed25n0002.parquet") = Some part
    ∧ length part = 1%nat.
Proof.
  destruct (xml_partition_contents (F:=NoFloat) "pubmed25n0002"
    (Baseline.events sample_stream) ∅ _ _ (surjective_pairing _))
    as (_ & H).
  destruct (H 2015) as [[Hfile _] _]; [discriminate|].
  eexists. split; [exact Hfile|reflexivity].
Defined.

Section TaskFailure.
Context `{F : PyFloat}.

Lemma all_accepted_bucket_append year (r : Row) (d : buckets) :
  all_accepted (bucket_append year r d) = all_accepted d && SCHEMA r.
Proof.
  unfold all_accepted. induction d as [|[y rs] d IH]; simpl.
  - by destruct (SCHEMA r).
  - destruct (Z.eqb_spec y year) as [->|Hne]; simpl.
    + rewrite forallb_app. simpl.
      destruct (forallb SCHEMA rs), (SCHEMA r), (forallb _ d); done.
    + rewrite IH.
      destruct (forallb SCHEMA rs), (SCHEMA r), (forallb _ d); done.
Qed.

Lemma all_accepted_route_all (rs : list Row) : ∀ d : buckets,
  all_accepted (route_all rs d) = all_accepted d && forallb SCHEMA rs.
Proof.
  unfold route_all. induction rs as [|r rs IH]; intros d; simpl.
  - by rewrite andb_true_r.
  - rewrite IH. unfold route. rewrite all_accepted_bucket_append.
    by rewrite andb_assoc.
Qed.

Lemma accepted_split (d : buckets) :
  all_accepted d = false →
  ∃ d1 b d2, d = d1 ++ b :: d2 ∧ all_accepted d1 = true
             ∧ forallb SCHEMA b.2 = false ∧ accepted d = d1
             ∧ refusal d = table_error b.2.
Proof.
  unfold all_accepted. induction d as [|[y rs] d IH]; simpl; [done|].
  destruct (forallb SCHEMA rs) eqn:E; simpl.
  - intros (d1 & b & d2 & -> & H1 & Hb & Ha & He)%IH.
    exists ((y, rs) :: d1), b, d2. simpl. rewrite E, H1, Ha. done.
  - intros _. by exists [], (y, rs), d.
Qed.

Lemma mapM_raise {A B} (f : A → result B) (xs : list A) e :
  mapM f xs = Raise e →
  ∃ pre x post ys, xs = pre ++ x :: post ∧ mapM f pre = Ok ys ∧ f x = Raise e.
Proof.
  induction xs as [|x xs IH]; simpl; [done|].
  destruct (f x) as [y|e'] eqn:Ex; simpl.
  - destruct (mapM f xs) as [ys|e''] eqn:Exs; simpl; [done|].
    intros [= ->]. destruct (IH eq_refl) as (pre & x' & post & ys & -> & Hpre & Hx).
    exists (x :: pre), x', post, (y :: ys). simpl. by rewrite Ex, Hpre.
  - intros [= ->]. by exists [], x, xs, [].
Qed.

Lemma mapM_elem_raise {A B} (f : A → result B) (xs : list A) x e :
  x ∈ xs → f x = Raise e → ∃ e', mapM f xs = Raise e'.
Proof.
  induction xs as [|x' xs IH]; [by intros ?%elem_of_nil|].
  intros [->|Hin]%elem_of_cons Hx; simpl.
  - rewrite Hx. simpl. eauto.
  - destruct (f x'); simpl; [|eauto].
    destruct (IH Hin Hx) as [e' ->]. simpl. eauto.
Qed.

(** A task of the blob path returns its statistics exactly when every
    cell gives a row and every row fits the schema. *)
Theorem parquet_task_succeeds_iff (json_loads : string → option value)
    (stem : string) (rows : Reprocess.table) (fs : tree) :
  (∃ st, (Reprocess.process_parquet_file json_loads stem rows fs).2 = Ok st)
  ↔ ∃ recs, decoded_rows json_loads rows = Ok recs
            ∧ forallb SCHEMA recs = true.
Proof.
  rewrite process_parquet_file_eq, extract_all_route.
  destruct (decoded_rows json_loads rows) as [recs|e]; simpl.
  - rewrite all_accepted_route_all. simpl.
    destruct (forallb SCHEMA recs) eqn:Hfit; simpl; split.
    + intros _. exists recs. by rewrite Hfit.
    + intros _. eauto.
    + by intros [st ?].
    + intros (recs' & [= <-] & Hfit'). congruence.
  - split; [by intros [st ?]|by intros (recs & ? & _)].
Qed.

(** The two ways a task of the blob path fails.  When a cell makes the
    extractor raise, the task raises the same exception and the output
    tree is untouched.  When a row does not fit the schema, the task
    raises the exception of the table that did not build ([OverflowError],
    [ArrowTypeError] or [ArrowInvalid], by the first column that refuses a
    cell), and the files of the buckets before the offending one have been
    written and stay. *)
Theorem parquet_task_failure (json_loads : string → option value)
    (stem : string) (rows : Reprocess.table) (fs fs' : tree) (e : exn) :
  Reprocess.process_parquet_file json_loads stem rows fs = (fs', Raise e) →
  (fs' = fs
   ∧ ∃ pre row post done_rows,
       rows = pre ++ row :: post
       ∧ decoded_rows json_loads pre = Ok done_rows
       ∧ Reprocess.extract_fields json_loads row.1 row.2 = Raise e)
  ∨ (∃ recs d1 b d2,
       decoded_rows json_loads rows = Ok recs
       ∧ route_all recs [] = d1 ++ b :: d2
       ∧ all_accepted d1 = true
       ∧ forallb SCHEMA b.2 = false
       ∧ e = table_error b.2
       ∧ fs' = put_all (stem +:+ ".parquet") d1 fs).
Proof.
  rewrite process_parquet_file_eq, extract_all_route.
  destruct (decoded_rows json_loads rows) as [recs|e'] eqn:E; simpl.
  - destruct (all_accepted (route_all recs [])) eqn:Ha; [done|].
    intros [= <- <-]. right.
    destruct (accepted_split _ Ha) as (d1 & b & d2 & Hd & H1 & Hb & Hacc & He).
    exists recs, d1, b, d2. by rewrite Hacc, He.
  - intros [= <- <-]. left. split; [done|].
    destruct (mapM_raise _ _ _ E) as (pre & row & post & ys & -> & Hpre & Hrow).
    by exists pre, row, post, ys.
Qed.

(** One cell whose blob decodes to something that is not an object makes
    the extractor raise [AttributeError] and fails the task of its file
    with nothing written. *)
Theorem raising_cell_aborts_task (json_loads : string → option value)
    (stem : string) (rows : Reprocess.table) (fs : tree)
    (pmid json_str : string) (data : value) :
  (pmid, json_str) ∈ rows →
  json_loads json_str = Some data →
  (∀ d, data ≠ VDict d) →
  Reprocess.extract_fields json_loads pmid json_str = Raise AttributeError
  ∧ ∃ e, Reprocess.process_parquet_file json_loads stem rows fs = (fs, Raise e).
Proof.
  intros Hin Hloads Hdata.
  assert (Hrow : Reprocess.extract_fields json_loads pmid json_str
                 = Raise AttributeError).
  { unfold Reprocess.extract_fields. rewrite Hloads.
    destruct data; try done. by destruct (Hdata d). }
  split; [done|].
  rewrite process_parquet_file_eq, extract_all_route.
  destruct (mapM_elem_raise
    (λ row, Reprocess.extract_fields json_loads row.1 row.2)
    rows (pmid, json_str) _ Hin Hrow) as [e He].
  unfold decoded_rows. rewrite He. simpl. eauto.
Qed.

End TaskFailure.

Lemma parquet_task_succeeds_iff_witness :
  ∃ st, (Reprocess.process_parquet_file (F:=NoFloat) sample_loads
           "pubmed25n0001" sample_table ∅).2 = Ok st.
Proof.
  apply (parquet_task_succeeds_iff (F:=NoFloat) sample_loads).
  eexists. split; reflexivity.
Defined.

Lemma parquet_task_failure_witness :
  ∃ b : Z * list (@Row NoFloat),
    forallb SCHEMA b.2 = false ∧ table_error b.2 = OverflowError.
Proof.
  destruct (parquet_task_failure (F:=NoFloat) sample_loads "pubmed25n0004"
    [("99999999999999999999", not_json)] ∅ ∅ OverflowError eq_refl)
    as [(_ & pre & row & post & ys & Hrows & _ & Hrow)
       |(recs & d1 & b & d2 & _ & _ & _ & Hb & He & _)].
  - destruct pre as [|p [|q pre]]; try discriminate Hrows.
    injection Hrows as <- _. discriminate Hrow.
  - exists b. split; [exact Hb | symmetry; exact He].
Defined.

Lemma raising_cell_aborts_task_witness :
  ∃ e, Reprocess.process_parquet_file (F:=NoFloat) sample_loads "pubmed25n0005"
         [("8", not_json); ("1", blob doc_array)] ∅ = (∅, Raise e).
Proof.
  apply (raising_cell_aborts_task (F:=NoFloat) sample_loads "pubmed25n0005"
           _ ∅ "1" (blob doc_array) doc_array).
  - apply elem_of_cons. right. apply elem_of_cons. by left.
  - reflexivity.
  - discriminate.
Defined.

Section XmlTask.
Context `{F : PyFloat}.

(** The text columns of a row of the XML path are strings. *)
Lemma xml_row_strings e r :
  Baseline.extract_article_fields e = Some r →
  ∃ title doi journal,
    Title r = VStr title ∧ DOI r = VStr doi ∧ Journal r = VStr journal.
Proof.
  unfold Baseline.extract_article_fields, Baseline.extract_article_body.
  destruct (find e "MedlineCitation") as [medline|]; [|done].
  destruct (Baseline.get_pmid medline); simpl; [|done].
  destruct (Baseline.get_year (find medline "Article")); simpl; [|done].
  intros [= <-]. simpl. by eexists _, _, _.
Qed.

Lemma xml_row_schema e r :
  Baseline.extract_article_fields e = Some r → SCHEMA r = in_range r.
Proof.
  intros (t & d & j & Ht & Hd & Hj)%xml_row_strings.
  unfold SCHEMA, in_range. rewrite Ht, Hd, Hj. simpl.
  by rewrite !andb_true_r.
Qed.

Lemma extracted_schema (elems : list Element) :
  forallb SCHEMA (extracted elems) = forallb in_range (extracted elems).
Proof.
  induction elems as [|e elems IH]; [done|].
  rewrite extracted_cons.
  destruct (String.eqb (tag e) "PubmedArticle"); [|done].
  destruct (Baseline.extract_article_fields e) as [r|] eqn:E; [|done].
  simpl. by rewrite IH, (xml_row_schema e r E).
Qed.

Lemma forallb_filter {A} (p q : A → bool) (l : list A) :
  forallb p l = true → forallb p (List.filter q l) = true.
Proof.
  induction l as [|x l IH]; simpl; [done|].
  intros [Hx Hl]%andb_true_iff. destruct (q x); simpl; [|by apply IH].
  by rewrite Hx, IH.
Qed.

Lemma forallb_elem {A} (p : A → bool) (l : list A) x :
  forallb p l = true → x ∈ l → p x = true.
Proof.
  intros H Hx. apply list_elem_of_In in Hx. revert x Hx.
  by apply forallb_forall.
Qed.

(** The rows of a bucket are the rows of its year. *)
Lemma bucket_rows (recs : list Row) (b : Z * list Row) :
  b ∈ route_all recs [] → b.2 = rows_of_year b.1 recs.
Proof.
  destruct b as [y rs]. intros Hin.
  pose proof (NoDup_route_all recs [] (NoDup_nil_2)) as Hnd.
  pose proof (last_write_NoDup y rs _ Hnd Hin) as Hl.
  rewrite (last_write_lookup _ _ Hnd), lookup_route_all in Hl. simpl in Hl.
  cbn [fst snd]. destruct (rows_of_year y recs); [done|]. by injection Hl as <-.
Qed.

Lemma schema_columns (rs : list Row) :
  forallb SCHEMA rs
  = forallb (λ r, fits_int64 (PMID r)) rs && forallb strings_fit rs
    && forallb year_in_range rs.
Proof.
  induction rs as [|r rs IH]; simpl; [done|]. rewrite IH.
  unfold SCHEMA, strings_fit, year_in_range.
  destruct (fits_int64 (PMID r)), (fits_string (Title r)),
    (fits_string (DOI r)), (fits_string (Journal r)),
    (match Year r with Some y => fits_int32 y | None => true end),
    (forallb (λ r, fits_int64 (PMID r)) rs), (forallb _ rs), (forallb _ rs);
    reflexivity.
Qed.

(** The class of the exception of a table whose string columns hold
    strings: the first integer that does not fit decides. *)
Lemma table_error_integers (rs : list Row) :
  forallb strings_fit rs = true →
  forallb SCHEMA rs = false →
  (table_error rs = OverflowError ∨ table_error rs = ArrowInvalid)
  ∧ (forallb within_64_bits rs = true → table_error rs = ArrowInvalid)
  ∧ (forallb year_in_range rs = true → table_error rs = OverflowError).
Proof.
  intros Hstr Hno. rewrite schema_columns, Hstr, andb_true_r in Hno.
  unfold table_error.
  destruct (forallb (λ r, fits_int64 (PMID r)) rs) eqn:Ep; simpl.
  - simpl in Hno.
    assert (Ht : forallb (λ r, fits_string (Title r)) rs = true).
    { apply forallb_forall. intros r Hr.
      pose proof (proj1 (forallb_forall _ _) Hstr r Hr) as H.
      unfold strings_fit in H. by destruct (fits_string (Title r)). }
    assert (Hd : forallb (λ r, fits_string (DOI r)) rs = true).
    { apply forallb_forall. intros r Hr.
      pose proof (proj1 (forallb_forall _ _) Hstr r Hr) as H.
      unfold strings_fit in H.
      by destruct (fits_string (Title r)), (fits_string (DOI r)). }
    rewrite Ht, Hd. simpl.
    destruct (omap _ rs) as [|y bad] eqn:Eb.
    + exfalso. assert (forallb year_in_range rs = true) as Hy; [|congruence].
      clear -Eb. induction rs as [|r rs IH]; [done|]. simpl in Eb |- *.
      unfold year_in_range at 1.
      destruct (Year r) as [y|]; [|by apply IH].
      destruct (fits_int32 y); [by apply IH|done].
    + assert (Hy : y ∈ y :: bad) by apply list_elem_of_here.
      rewrite <- Eb in Hy. apply list_elem_of_omap in Hy as (r & Hr & Hbad).
      destruct (Year r) as [y'|] eqn:Ey; [|done].
      destruct (fits_int32 y') eqn:E32; [done|]. injection Hbad as ->.
      split_and!.
      * destruct (fits_int64 y); eauto.
      * intros H64. pose proof (forallb_elem _ _ _ H64 Hr) as Hin.
        unfold within_64_bits in Hin. rewrite Ey in Hin.
        apply andb_true_iff in Hin as [_ ->]. done.
      * intros Hall. pose proof (forallb_elem _ _ _ Hall Hr) as Hin.
        unfold year_in_range in Hin. rewrite Ey in Hin. congruence.
  - split_and!; [by left| |done].
    intros H64. exfalso.
    assert (forallb (λ r, fits_int64 (PMID r)) rs = true) as Hp; [|congruence].
    apply forallb_forall. intros r Hr.
    pose proof (proj1 (forallb_forall _ _) H64 r Hr) as H.
    unfold within_64_bits in H. by apply andb_true_iff in H as [-> _].
Qed.

Lemma extracted_strings (elems : list Element) :
  forallb strings_fit (extracted elems) = true.
Proof.
  induction elems as [|e elems IH]; [done|].
  rewrite extracted_cons.
  destruct (String.eqb (tag e) "PubmedArticle"); [|done].
  destruct (Baseline.extract_article_fields e) as [r|] eqn:E; [|done].
  simpl. rewrite IH, andb_true_r.
  destruct (xml_row_strings e r E) as (t & d & j & Ht & Hd & Hj).
  unfold strings_fit. by rewrite Ht, Hd, Hj.
Qed.

(** A task of the XML path never raises over a broken stream, and over a
    sound one it raises exactly when a row the extractor returned has an
    identifier outside the 64-bit range or a year outside the 32-bit
    range: nothing else can keep the table from being built.  The
    exception is then [OverflowError] or [ArrowInvalid]: [ArrowInvalid]
    when every identifier and year is within 64 bits, [OverflowError] when
    every year is within the 32 bits of its column. *)
Theorem xml_task_outcome (name : string) (input : Baseline.xml_stream)
    (fs : tree) :
  (∀ err, Baseline.broken input = Some err →
     Baseline.process_xml_file name input fs
     = (fs, Ok (Baseline.Error err name)))
  ∧ (Baseline.broken input = None →
     forallb in_range (extracted (Baseline.events input)) = true →
     ∃ ys, (Baseline.process_xml_file name input fs).2
           = Ok (Baseline.Stats name
                   (length (extracted (Baseline.events input))) ys))
  ∧ (Baseline.broken input = None →
     forallb in_range (extracted (Baseline.events input)) = false →
     ∃ e, (Baseline.process_xml_file name input fs).2 = Raise e
          ∧ (e = OverflowError ∨ e = ArrowInvalid)
          ∧ (forallb within_64_bits (extracted (Baseline.events input)) = true →
             e = ArrowInvalid)
          ∧ (forallb year_in_range (extracted (Baseline.events input)) = true →
             e = OverflowError)).
Proof.
  rewrite process_xml_file_eq. split_and!.
  - by intros err ->.
  - intros -> Hfit. simpl. rewrite scan_route. simpl.
    rewrite all_accepted_route_all, extracted_schema, Hfit. simpl. eauto.
  - intros -> Hfit. simpl. rewrite scan_route. simpl.
    assert (Ha : all_accepted
                   (route_all (extracted (Baseline.events input)) []) = false).
    { by rewrite all_accepted_route_all, extracted_schema, Hfit. }
    rewrite Ha. set (recs := extracted (Baseline.events input)) in *. eexists. split; [reflexivity|].
    destruct (accepted_split _ Ha) as (d1 & b & d2 & Hd & _ & Hb & _ & ->).
    assert (Hin : b ∈ route_all recs []).
    { rewrite Hd. apply elem_of_app. right. apply list_elem_of_here. }
    rewrite (bucket_rows _ _ Hin) in Hb |- *.
    destruct (table_error_integers (rows_of_year b.1 recs)) as (H1 & H2 & H3).
    + apply forallb_filter, extracted_strings.
    + exact Hb.
    + split_and!; [exact H1| |].
      * intros H. by apply H2, forallb_filter.
      * intros H. by apply H3, forallb_filter.
Qed.

End XmlTask.

(** ** The order of the tasks *)

Section Order.

Lemma chars_app (a b : string) : chars (a +:+ b) = chars a ++ chars b.
Proof. induction a as [|c a IH]; simpl; [done|]. by rewrite IH. Qed.

Lemma chars_inj (a b : string) : chars a = chars b → a = b.
Proof.
  intros H. rewrite <- (string_of_list_ascii_of_string a),
    <- (string_of_list_ascii_of_string b). unfold chars in H. by rewrite H.
Qed.

Lemma append_inj_l (a b suffix : string) :
  a +:+ suffix = b +:+ suffix → a = b.
Proof.
  intros H. apply chars_inj. apply (f_equal chars) in H.
  rewrite !chars_app in H. by apply app_inv_tail in H.
Qed.

(** A fold whose steps commute on elements of different keys gives the
    same result on every arrangement of a list without repeated keys. *)
Lemma foldl_permutation_keyed {A B K} (key : A → K) (f : B → A → B)
    (l l' : list A) :
  (∀ b x y, key x ≠ key y → f (f b x) y = f (f b y) x) →
  l ≡ₚ l' → NoDup (key <$> l) → ∀ b, foldl f b l = foldl f b l'.
Proof.
  intros Hcomm Hperm. induction Hperm as [|x l l' Hp IH|x y l|l l' l'' H1 IH1 H2 IH2];
    intros Hnd b; simpl.
  - done.
  - apply IH. rewrite fmap_cons in Hnd. by apply NoDup_cons in Hnd as [_ ?].
  - f_equal. apply Hcomm. rewrite !fmap_cons in Hnd.
    apply NoDup_cons in Hnd as [Hy _]. rewrite not_elem_of_cons in Hy.
    by destruct Hy.
  - rewrite IH1 by done. apply IH2. by rewrite <- H1.
Qed.

Lemma foldl_permutation_comm {A B} (f : B → A → B) (l l' : list A) :
  (∀ b x y, f (f b x) y = f (f b y) x) →
  l ≡ₚ l' → ∀ b, foldl f b l = foldl f b l'.
Proof.
  intros Hcomm Hperm. induction Hperm as [|x l l' Hp IH|x y l|l l' l'' H1 IH1 H2 IH2];
    intros b; simpl; [done|apply IH|by rewrite Hcomm|].
  by rewrite IH1.
Qed.

Lemma lookup_add_years (ys : list (Z * nat)) : ∀ (m : gmap Z nat) year,
  add_years ys m !! year
  = match hits year ys with
    | [] => m !! year
    | hs => Some (default 0%nat (m !! year) + sum_list hs)%nat
    end.
Proof.
  unfold add_years, hits.
  induction ys as [|[k c] ys IH]; intros m year; simpl; [done|].
  rewrite IH. destruct (Z.eqb_spec k year) as [->|Hne]; simpl.
  - rewrite lookup_insert_eq. simpl.
    destruct (map snd (List.filter _ ys)); simpl; f_equal; lia.
  - by rewrite lookup_insert_ne.
Qed.

Lemma add_years_comm (ys1 ys2 : list (Z * nat)) (m : gmap Z nat) :
  add_years ys2 (add_years ys1 m) = add_years ys1 (add_years ys2 m).
Proof.
  apply map_eq. intros year. rewrite !lookup_add_years.
  destruct (hits year ys1) as [|h1 hs1], (hits year ys2) as [|h2 hs2];
    try done.
  simpl. f_equal. lia.
Qed.

End Order.

Section RunOrder.
Context `{F : PyFloat}.

Lemma put_all_nil (out : string) (fs : tree) : put_all out [] fs = fs.
Proof. reflexivity. Qed.

Lemma put_all_comm (out1 out2 : string) (d1 d2 : buckets) (fs : tree) :
  out1 ≠ out2 →
  put_all out2 d2 (put_all out1 d1 fs) = put_all out1 d1 (put_all out2 d2 fs).
Proof.
  intros Hne. apply map_eq. intros [year name]. rewrite !lookup_put_all.
  destruct (decide (name = out2)) as [->|]; [|done].
  destruct (decide (out2 = out1)) as [->|]; [by destruct Hne|done].
Qed.

Lemma parquet_task_tree (json_loads : string → option value)
    (stem : string) (rows : Reprocess.table) (fs : tree) :
  (Reprocess.process_parquet_file json_loads stem rows fs).1
  = put_all (stem +:+ ".parquet") (written json_loads rows) fs.
Proof.
  rewrite process_parquet_file_eq. unfold written.
  by destruct (Reprocess.extract_all json_loads rows []).
Qed.

Lemma parquet_task_outcome (json_loads : string → option value)
    (stem : string) (rows : Reprocess.table) (fs : tree) :
  (Reprocess.process_parquet_file json_loads stem rows fs).2
  = (Reprocess.process_parquet_file json_loads stem rows ∅).2.
Proof.
  rewrite !process_parquet_file_eq.
  by destruct (Reprocess.extract_all json_loads rows []).
Qed.

Lemma parquet_run_tasks_eq (json_loads : string → option value)
    (files : list (string * Reprocess.table)) : ∀ fs : tree,
  Reprocess.run_tasks json_loads files fs
  = (foldl (λ fs file,
        put_all (file.1 +:+ ".parquet") (written json_loads file.2) fs) fs files,
     map (λ file,
        (Reprocess.process_parquet_file json_loads file.1 file.2 ∅).2) files).
Proof.
  induction files as [|[stem rows] files IH]; intros fs; simpl; [done|].
  pose proof (parquet_task_tree json_loads stem rows fs) as Ht.
  pose proof (parquet_task_outcome json_loads stem rows fs) as Ho.
  destruct (Reprocess.process_parquet_file json_loads stem rows fs) as [fs1 o].
  simpl in Ht, Ho. subst fs1 o. by rewrite IH.
Qed.

Lemma parquet_collect_comm (acc : Reprocess.totals)
    (o1 o2 : result Reprocess.stats) :
  Reprocess.collect (Reprocess.collect acc o1) o2
  = Reprocess.collect (Reprocess.collect acc o2) o1.
Proof.
  destruct o1 as [st1|], o2 as [st2|]; simpl; try done.
  f_equal; [lia|apply add_years_comm].
Qed.

(** A run of the blob path over input files of different names gives the
    same output tree and the same totals whatever the order in which the
    tasks are taken. *)
Theorem parquet_run_order_irrelevant (json_loads : string → option value)
    (files files' : list (string * Reprocess.table)) (fs : tree) :
  files ≡ₚ files' →
  NoDup files.*1 →
  Reprocess.main json_loads files fs = Reprocess.main json_loads files' fs.
Proof.
  intros Hperm Hnd. unfold Reprocess.main.
  rewrite !parquet_run_tasks_eq. f_equal.
  - apply (foldl_permutation_keyed fst); [|done|done].
    intros b [s1 r1] [s2 r2] Hne. simpl in *. apply put_all_comm.
    intros Heq. apply Hne. by apply append_inj_l in Heq.
  - apply foldl_permutation_comm; [apply parquet_collect_comm|].
    by apply Permutation_map.
Qed.

Lemma xml_task_tree (name : string) (input : Baseline.xml_stream) (fs : tree) :
  (Baseline.process_xml_file name input fs).1
  = put_all (name +:+ ".parquet") (written_xml input) fs.
Proof.
  rewrite process_xml_file_eq. unfold written_xml.
  by destruct (Baseline.broken input).
Qed.

Lemma xml_task_outcome_tree (name : string) (input : Baseline.xml_stream)
    (fs : tree) :
  (Baseline.process_xml_file name input fs).2
  = (Baseline.process_xml_file name input ∅).2.
Proof.
  rewrite !process_xml_file_eq. by destruct (Baseline.broken input).
Qed.

Lemma xml_run_tasks_eq (files : list (string * Baseline.xml_stream)) :
  ∀ fs : tree,
  Baseline.run_tasks files fs
  = (foldl (λ fs file,
        put_all (file.1 +:+ ".parquet") (written_xml file.2) fs) fs files,
     map (λ file, (Baseline.process_xml_file file.1 file.2 ∅).2) files).
Proof.
  induction files as [|[name input] files IH]; intros fs; simpl; [done|].
  pose proof (xml_task_tree name input fs) as Ht.
  pose proof (xml_task_outcome_tree name input fs) as Ho.
  destruct (Baseline.process_xml_file name input fs) as [fs1 o].
  simpl in Ht, Ho. subst fs1 o. by rewrite IH.
Qed.

Lemma xml_collect_comm (acc : Baseline.totals) (o1 o2 : result Baseline.stats) :
  Baseline.collect (Baseline.collect acc o1) o2
  = Baseline.collect (Baseline.collect acc o2) o1.
Proof.
  destruct o1 as [[f1 n1 ys1|e1 f1]|], o2 as [[f2 n2 ys2|e2 f2]|];
    simpl; try done.
  f_equal; [lia|apply add_years_comm].
Qed.

(** The same for a run of the XML path. *)
Theorem xml_run_order_irrelevant
    (files files' : list (string * Baseline.xml_stream)) (fs : tree) :
  files ≡ₚ files' →
  NoDup files.*1 →
  Baseline.main files fs = Baseline.main files' fs.
Proof.
  intros Hperm Hnd. unfold Baseline.main.
  rewrite !xml_run_tasks_eq. f_equal.
  - apply (foldl_permutation_keyed fst); [|done|done].
    intros b [s1 r1] [s2 r2] Hne. simpl in *. apply put_all_comm.
    intros Heq. apply Hne. by apply append_inj_l in Heq.
  - apply foldl_permutation_comm; [apply xml_collect_comm|].
    by apply Permutation_map.
Qed.

End RunOrder.

Lemma parquet_run_order_irrelevant_witness :
  Reprocess.main (F:=NoFloat) sample_loads
    [("pubmed25n0001", sample_table); ("pubmed25n0002", [("8", not_json)])] ∅
  = Reprocess.main sample_loads
      [("pubmed25n0002", [("8", not_json)]); ("pubmed25n0001", sample_table)] ∅.
Proof.
  apply (parquet_run_order_irrelevant (F:=NoFloat) sample_loads).
  - apply perm_swap.
  - apply (bool_decide_unpack _). reflexivity.
Defined.

Lemma xml_run_order_irrelevant_witness :
  Baseline.main (F:=NoFloat)
    [("pubmed25n0001", sample_stream);
     ("pubmed25n0002", {| Baseline.events := []; Baseline.broken := Some "eof" |})] ∅
  = Baseline.main
      [("pubmed25n0002", {| Baseline.events := []; Baseline.broken := Some "eof" |});
       ("pubmed25n0001", sample_stream)] ∅.
Proof.
  apply (xml_run_order_irrelevant (F:=NoFloat)).
  - apply perm_swap.
  - apply (bool_decide_unpack _). reflexivity.
Defined.

Lemma xml_task_outcome_witness :
  (∃ ys, (Baseline.process_xml_file (F:=NoFloat) "pubmed25n0002"
            sample_stream ∅).2
         = Ok (Baseline.Stats "pubmed25n0002" 2 ys))
  ∧ ∃ e, (Baseline.process_xml_file (F:=NoFloat) "pubmed25n0003"
            {| Baseline.events := [art_full; art_year_too_large];
               Baseline.broken := None |} ∅).2 = Raise e
         ∧ e = ArrowInvalid.
Proof.
  split.
  - destruct (xml_task_outcome (F:=NoFloat) "pubmed25n0002" sample_stream ∅)
      as (_ & H & _).
    exact (H eq_refl eq_refl).
  - destruct (xml_task_outcome (F:=NoFloat) "pubmed25n0003"
                {| Baseline.events := [art_full; art_year_too_large];
                   Baseline.broken := None |} ∅) as (_ & _ & H).
    destruct (H eq_refl eq_refl) as (e & He & _ & H64 & _).
    exists e. split; [exact He | exact (H64 eq_refl)].
Defined.

(** ** The columns of a row, one by one *)

Section RowShape.
Context `{F : PyFloat} (json_loads : string → option value).

(** The row of the normal branch of [extract_fields], column by column. *)
Lemma extract_fields_row pmid json_str data r :
  json_loads json_str = Some data →
  Reprocess.extract_fields json_loads pmid json_str = Ok r →
  ∃ medline article pubmed_data,
    get data "MedlineCitation" (VDict []) = Ok medline
    ∧ get medline "Article" (VDict []) = Ok article
    ∧ get data "PubmedData" (VDict []) = Ok pubmed_data
    ∧ Reprocess.get_pmid_int medline pmid = Ok (PMID r)
    ∧ Reprocess.get_title article = Ok (Title r)
    ∧ Reprocess.get_abstract article = Ok (Abstract r)
    ∧ DOI r = Reprocess.get_doi pubmed_data
    ∧ Reprocess.get_year article = Ok (Year r)
    ∧ Authors r = Reprocess.get_authors article
    ∧ Reprocess.get_journal article = Ok (Journal r)
    ∧ join_values "; " (Reprocess.mesh_terms medline) = Ok (MeSH_Terms r)
    ∧ join_values "; " (Reprocess.keywords medline) = Ok (Keywords r)
    ∧ join_values "; " (Reprocess.pub_types article) = Ok (Pub_Types r)
    ∧ Reprocess.get_date medline "DateCreated" = Ok (Date_Created r)
    ∧ Reprocess.get_date medline "DateRevised" = Ok (Date_Revised r)
    ∧ JSON r = json_str.
Proof.
  unfold Reprocess.extract_fields. intros ->. intros H. bind_inv H.
  injection H as <-. simpl. eexists _, _, _. split_and!; done.
Qed.

(** The row of the XML path, column by column. *)
Lemma extract_article_fields_row e r :
  Baseline.extract_article_fields e = Some r →
  ∃ medline,
    find e "MedlineCitation" = Some medline
    ∧ let article := find medline "Article" in
      Baseline.get_pmid medline = Ok (PMID r)
      ∧ Title r = VStr (Baseline.get_title article)
      ∧ Abstract r = Baseline.get_abstract article
      ∧ Baseline.get_year article = Ok (Year r)
      ∧ Authors r = Baseline.get_authors article
      ∧ Journal r = VStr (Baseline.get_journal article)
      ∧ Pub_Types r
        = join "; " match article with
                    | Some a => Baseline.texts (findall_desc a "PublicationType")
                    | None => []
                    end
      ∧ Date_Created r = Baseline.get_date medline "DateCreated"
      ∧ Date_Revised r = Baseline.get_date medline "DateRevised".
Proof.
  unfold Baseline.extract_article_fields, Baseline.extract_article_body.
  destruct (find e "MedlineCitation") as [medline|]; [|done].
  destruct (Baseline.get_pmid medline) as [pmid|] eqn:Ep; simpl; [|done].
  destruct (Baseline.get_year (find medline "Article")) as [year|] eqn:Ey;
    simpl; [|done].
  intros [= <-]. exists medline. simpl. split_and!; done.
Qed.

End RowShape.

Section MissingParts.
Context `{F : PyFloat} (json_loads : string → option value).

Lemma safe_get_walk_empty keys :
  Reprocess.safe_get_walk (VDict []) keys = Some (VDict []).
Proof. induction keys as [|k keys IH]; [done|]. simpl. exact IH. Qed.

Lemma safe_get_missing (items : dict) key keys :
  lookup_key items key = None →
  Reprocess.safe_get (VDict items) (key :: keys) = VStr "".
Proof.
  intros H. unfold Reprocess.safe_get. simpl. unfold dict_get. rewrite H.
  by rewrite safe_get_walk_empty.
Qed.

(** A record without an abstract gets the empty string in both paths. *)
Theorem absent_abstract_is_empty
    (pmid json_str : string) (data medline : value) (article : dict) (r1 : Row)
    (e citation : Element) (r2 : Row) :
  json_loads json_str = Some data →
  get data "MedlineCitation" (VDict []) = Ok medline →
  get medline "Article" (VDict []) = Ok (VDict article) →
  lookup_key article "Abstract" = None →
  Reprocess.extract_fields json_loads pmid json_str = Ok r1 →
  find e "MedlineCitation" = Some citation →
  (∀ a, find citation "Article" = Some a → find a "Abstract" = None) →
  Baseline.extract_article_fields e = Some r2 →
  Abstract r1 = "" ∧ Abstract r2 = "".
Proof.
  intros Hloads Hmed Hart Habs H1 Hcit Habs2 H2. split.
  - destruct (extract_fields_row _ _ _ _ _ Hloads H1)
      as (m & a & _ & Hm & Ha & _ & _ & _ & Hab & _).
    rewrite Hmed in Hm. injection Hm as <-.
    rewrite Hart in Ha. injection Ha as <-.
    unfold Reprocess.get_abstract, Reprocess.abstract_parts in Hab.
    rewrite (safe_get_missing article "Abstract" _ Habs) in Hab.
    by injection Hab.
  - destruct (extract_article_fields_row _ _ H2) as (c & Hc & _ & _ & Hab & _).
    rewrite Hcit in Hc. injection Hc as <-. rewrite Hab.
    unfold Baseline.get_abstract.
    destruct (find citation "Article") as [a|] eqn:Ea; simpl; [|done].
    by rewrite (Habs2 a eq_refl).
Qed.

(** A record without an [Article]: in the row it gets, the columns read
    from the article are empty and the year is null, in both paths. *)
Theorem missing_article_columns
    (pmid json_str : string) (data : value) (medline : dict) (r1 : Row)
    (e citation : Element) (r2 : Row) :
  json_loads json_str = Some data →
  get data "MedlineCitation" (VDict []) = Ok (VDict medline) →
  lookup_key medline "Article" = None →
  Reprocess.extract_fields json_loads pmid json_str = Ok r1 →
  find e "MedlineCitation" = Some citation →
  find citation "Article" = None →
  Baseline.extract_article_fields e = Some r2 →
  (Title r1 = VStr "" ∧ Abstract r1 = "" ∧ Year r1 = None ∧ Authors r1 = ""
   ∧ Journal r1 = VStr "" ∧ Pub_Types r1 = "")
  ∧ (Title r2 = VStr "" ∧ Abstract r2 = "" ∧ Year r2 = None ∧ Authors r2 = ""
     ∧ Journal r2 = VStr "" ∧ Pub_Types r2 = "").
Proof.
  intros Hloads Hmed Hart H1 Hcit Hart2 H2. split.
  - destruct (extract_fields_row _ _ _ _ _ Hloads H1)
      as (m & a & _ & Hm & Ha & _ & _ & Ht & Hab & _ & Hy & Hau & Hj & _ & _
          & Hpt & _).
    rewrite Hmed in Hm. injection Hm as <-.
    simpl in Ha. unfold dict_get in Ha. rewrite Hart in Ha. injection Ha as <-.
    split_and!.
    + by injection Ht.
    + by injection Hab.
    + by injection Hy.
    + done.
    + by injection Hj.
    + by injection Hpt.
  - destruct (extract_article_fields_row _ _ H2)
      as (c & Hc & _ & Ht & Hab & Hy & Hau & Hj & Hpt & _).
    rewrite Hcit in Hc. injection Hc as <-.
    rewrite Hart2 in *. split_and!; try done. by injection Hy.
Qed.

End MissingParts.

Lemma absent_abstract_is_empty_witness :
  ∃ r1 r2 : @Row NoFloat,
    Reprocess.extract_fields sample_loads "9" (blob doc_full) = Ok r1
    ∧ Baseline.extract_article_fields art_full = Some r2
    ∧ Abstract r1 = "" ∧ Abstract r2 = "".
Proof.
  eexists _, _. split; [reflexivity|]. split; [reflexivity|].
  apply (absent_abstract_is_empty (F:=NoFloat) sample_loads "9" (blob doc_full)
           doc_full _ _ _ art_full _ _ eq_refl eq_refl eq_refl eq_refl eq_refl
           eq_refl).
  - intros a [= <-]. reflexivity.
  - reflexivity.
Defined.

Lemma missing_article_columns_witness :
  ∃ r1 r2 : @Row NoFloat,
    Reprocess.extract_fields (decoder_of [doc_no_article]) "9"
      (blob doc_no_article) = Ok r1
    ∧ Baseline.extract_article_fields (citation "9" []) = Some r2
    ∧ (Title r1 = VStr "" ∧ Year r1 = None)
    ∧ (Title r2 = VStr "" ∧ Year r2 = None).
Proof.
  eexists _, _. split; [reflexivity|]. split; [reflexivity|].
  destruct (missing_article_columns (F:=NoFloat)
    (decoder_of [doc_no_article]) "9" (blob doc_no_article) doc_no_article
    [("PMID", VDict [("@Version", VStr "1"); ("#text", VStr "9")])] _
    (citation "9" []) _ _
    eq_refl eq_refl eq_refl eq_refl eq_refl eq_refl eq_refl)
    as [(Ht1 & _ & Hy1 & _) (Ht2 & _ & Hy2 & _)].
  split; [split; [exact Ht1 | exact Hy1] | split; [exact Ht2 | exact Hy2]].
Defined.

(** ** [str.isdigit] against [int] *)

Section DigitGuard.

Lemma isdigit_not_underscore c :
  char_isdigit c = true → (ord c =? 95)%N = false.
Proof.
  unfold char_isdigit, is_decimal. intros H.
  repeat (apply orb_true_iff in H as [H|H]);
    [apply andb_true_iff in H as [H1 H2]; apply N.leb_le in H1, H2
    | apply N.eqb_eq in H ..];
  apply N.eqb_neq; lia.
Qed.

Lemma digits_value_superscript l : ∀ acc,
  forallb char_isdigit l = true → forallb is_decimal l = false →
  digits_value acc l = None.
Proof.
  induction l as [|c l IH]; intros acc Hd Hn; [done|].
  simpl in Hd, Hn |- *. apply andb_true_iff in Hd as [Hc Hd].
  destruct (is_decimal c) eqn:Ec; simpl in Hn.
  - by apply IH.
  - by rewrite (isdigit_not_underscore c Hc).
Qed.

(** [int] rejects every text [isdigit] accepts that is not made of the
    decimal digits alone. *)
Lemma int_of_isdigit_not_decimal s :
  isdigit s = true → all_decimal s = false → int_of_str s = Raise ValueError.
Proof.
  unfold isdigit, all_decimal, int_of_str.
  destruct (chars s) as [|c l] eqn:E; [done|]. intros Hd Hn.
  rewrite strip_chars_id.
  2:{ apply forallb_forall. intros x Hx. apply negb_true_iff.
      apply isdigit_not_space. revert x Hx. by apply forallb_forall. }
  simpl in Hd. apply andb_true_iff in Hd as [Hc Hd].
  destruct (isdigit_not_sign c Hc) as [-> ->].
  simpl in Hn |- *. destruct (is_decimal c) eqn:Ec; simpl in Hn; [|done].
  by rewrite (digits_value_superscript l _ Hd Hn).
Qed.

Lemma int_of_isdigit_ok s n :
  isdigit s = true → int_of_str s = Ok n →
  all_decimal s = true ∧ n = decimal_of s.
Proof.
  intros Hd Hn. destruct (all_decimal s) eqn:E.
  - split; [done|]. rewrite (int_of_decimal s E) in Hn. by injection Hn.
  - by rewrite (int_of_isdigit_not_decimal s Hd E) in Hn.
Qed.

Lemma decimal_fold_bound l : ∀ acc,
  forallb is_decimal l = true → 0 ≤ acc →
  foldl (λ acc c, acc * 10 + decimal_value c) acc l
  < (acc + 1) * 10 ^ Z.of_nat (length l).
Proof.
  induction l as [|c l IH]; intros acc Hl Hacc; simpl foldl.
  - simpl. lia.
  - simpl in Hl. apply andb_true_iff in Hl as [Hc Hl].
    pose proof (decimal_value_range c Hc) as Hv.
    eapply Z.lt_le_trans; [apply IH; [done|lia]|].
    rewrite length_cons, Nat2Z.inj_succ, Z.pow_succ_r by lia.
    assert (0 < 10 ^ Z.of_nat (length l)) by (apply Z.pow_pos_nonneg; lia).
    nia.
Qed.

(** A text of at most four decimal digits denotes a number below 10000. *)
Lemma decimal_of_prefix_bound n s :
  (n <= 4)%nat → all_decimal (prefix n s) = true →
  0 ≤ decimal_of (prefix n s) ≤ 9999.
Proof.
  intros Hn Hd. split; [by apply decimal_of_nonneg|].
  unfold all_decimal, decimal_of, prefix in *. rewrite chars_text in *.
  assert (Hall : forallb is_decimal (take n (chars s)) = true)
    by (destruct (take n (chars s)); [done | exact Hd]).
  pose proof (decimal_fold_bound _ 0 Hall (Z.le_refl 0)) as Hb.
  assert (10 ^ Z.of_nat (length (take n (chars s))) ≤ 10 ^ 4).
  { apply Z.pow_le_mono_r; [lia|]. rewrite length_take. lia. }
  lia.
Qed.

End DigitGuard.

Ltac no_year Hy :=
  let y := fresh "y" in
  let H := fresh "H" in
  intros y H; rewrite H in Hy; discriminate Hy.

Section GuardedInt.
Context `{F : PyFloat} (json_loads : string → option value).

(** A text [str.isdigit] accepts but [int] does not (a superscript digit
    among its characters) gets past the guard of the blob path and makes
    [extract_fields] raise: as the cell of an undecodable blob, as the
    record's identifier text, and as the year text of the publication
    date.  The XML path converts the identifier text without a guard and
    catches the error: the record is dropped. *)
Theorem isdigit_guard_admits_superscripts (t : string) :
  isdigit t = true → all_decimal t = false →
  (∀ json_str, json_loads json_str = None →
     Reprocess.extract_fields json_loads t json_str = Raise ValueError)
  ∧ (∀ pmid json_str data medline article pubmed_data,
       json_loads json_str = Some data →
       get data "MedlineCitation" (VDict []) = Ok medline →
       get medline "Article" (VDict []) = Ok article →
       get data "PubmedData" (VDict []) = Ok pubmed_data →
       Reprocess.safe_get medline ["PMID"; "#text"] = VStr t →
       Reprocess.extract_fields json_loads pmid json_str = Raise ValueError)
  ∧ (∀ pmid json_str data medline article (fields : dict),
       json_loads json_str = Some data →
       get data "MedlineCitation" (VDict []) = Ok medline →
       get medline "Article" (VDict []) = Ok article →
       Reprocess.safe_get article ["Journal"; "JournalIssue"; "PubDate"]
       = VDict fields →
       lookup_key fields "Year" = Some (VStr t) →
       ∃ e, Reprocess.extract_fields json_loads pmid json_str = Raise e)
  ∧ (∀ e citation pmid_elem,
       find e "MedlineCitation" = Some citation →
       find citation "PMID" = Some pmid_elem →
       Baseline.nonempty_text pmid_elem = Some t →
       Baseline.extract_article_fields e = None).
Proof.
  intros Hd Hn. pose proof (int_of_isdigit_not_decimal t Hd Hn) as Hint.
  assert (Hne : negb (String.eqb t "") = true).
  { destruct t; [done|reflexivity]. }
  split_and!.
  - intros json_str Hl. unfold Reprocess.extract_fields.
    by rewrite Hl, Hd, Hint.
  - intros pmid json_str data medline article pubmed_data Hl Hm Ha Hp Hid.
    unfold Reprocess.extract_fields. rewrite Hl, Hm. simpl. rewrite Ha. simpl.
    rewrite Hp. simpl.
    unfold Reprocess.get_pmid_int, Reprocess.pmid_val. rewrite Hid.
    unfold or_else. simpl truthy. rewrite Hne. simpl str. rewrite Hd.
    simpl int. by rewrite Hint.
  - intros pmid json_str data medline article fields Hl Hm Ha Hpd Hy.
    assert (Hyear : Reprocess.get_year article = Raise ValueError).
    { unfold Reprocess.get_year, Reprocess.pub_date_of. rewrite Hpd.
      unfold Reprocess.year_explicit, dict_get. rewrite Hy.
      simpl truthy. rewrite Hne. simpl str. rewrite Hd. simpl.
      by rewrite Hint. }
    unfold Reprocess.extract_fields. rewrite Hl, Hm. simpl. rewrite Ha. simpl.
    destruct (get data "PubmedData" (VDict [])); simpl; [|eauto].
    destruct (Reprocess.get_pmid_int medline pmid); simpl; [|eauto].
    destruct (Reprocess.get_title article); simpl; [|eauto].
    destruct (Reprocess.get_abstract article); simpl; [|eauto].
    rewrite Hyear. simpl. eauto.
  - intros e citation pmid_elem Hc Hp Ht.
    unfold Baseline.extract_article_fields, Baseline.extract_article_body.
    rewrite Hc. unfold Baseline.get_pmid. rewrite Hp, Ht, Hint. done.
Qed.

(** A year taken from the free-text date is a number from 0 to 9999, in
    both paths: with no [Year] entry, the year of the row, when it has
    one, was read from at most four decimal digits. *)
Theorem fallback_year_in_range
    (pmid json_str : string) (data medline article : value) (fields : dict)
    (r1 : Row) (e citation art pub_date : Element) (r2 : Row) :
  json_loads json_str = Some data →
  get data "MedlineCitation" (VDict []) = Ok medline →
  get medline "Article" (VDict []) = Ok article →
  Reprocess.safe_get article ["Journal"; "JournalIssue"; "PubDate"]
  = VDict fields →
  lookup_key fields "Year" = None →
  Reprocess.extract_fields json_loads pmid json_str = Ok r1 →
  find e "MedlineCitation" = Some citation →
  find citation "Article" = Some art →
  find_desc art "PubDate" = Some pub_date →
  find pub_date "Year" ≫= Baseline.nonempty_text = None →
  Baseline.extract_article_fields e = Some r2 →
  (∀ y, Year r1 = Some y → 0 ≤ y ≤ 9999)
  ∧ (∀ y, Year r2 = Some y → 0 ≤ y ≤ 9999).
Proof.
  intros Hl Hm Ha Hpd Hno H1 Hc Hart Hpub Hno2 H2. split.
  - destruct (extract_fields_row _ _ _ _ _ Hl H1)
      as (m & a & _ & Hm' & Ha' & _ & _ & _ & _ & _ & Hy & _).
    rewrite Hm in Hm'. injection Hm' as <-.
    rewrite Ha in Ha'. injection Ha' as <-.
    unfold Reprocess.get_year, Reprocess.pub_date_of in Hy. rewrite Hpd in Hy.
    unfold Reprocess.year_explicit, Reprocess.year_fallback, dict_get in Hy.
    rewrite Hno in Hy. simpl in Hy.
    set (md := match lookup_key fields "MedlineDate" with
               | Some v => v | None => VStr "" end) in Hy.
    clearbody md.
    destruct (truthy md); [|no_year Hy].
    destruct (len md) as [n|]; simpl in Hy; [|done].
    match type of Hy with
    | (if ?b then _ else _) = _ => destruct b; [|no_year Hy]
    end.
    destruct (slice_to 4 md) as [year_str|] eqn:Es; simpl in Hy; [|done].
    destruct (call_isdigit year_str) as [[|]|] eqn:Ei; simpl in Hy;
      [|no_year Hy|done].
    destruct year_str as [| | | |s| |]; try done.
    simpl in Ei, Hy. injection Ei as Ei.
    destruct (int_of_str s) as [n'|] eqn:En'; simpl in Hy; [|done].
    intros y Hy'. rewrite Hy' in Hy. injection Hy as <-.
    destruct (int_of_isdigit_ok s n' Ei En') as [Hall ->].
    destruct md as [| | | |t| |]; try done.
    simpl in Es. injection Es as <-.
    by apply decimal_of_prefix_bound.
  - destruct (extract_article_fields_row _ _ H2) as (c & Hc' & _ & _ & _ & Hy & _).
    rewrite Hc in Hc'. injection Hc' as <-.
    unfold Baseline.get_year in Hy. rewrite Hart in Hy. simpl in Hy.
    rewrite Hpub in Hy. unfold Baseline.year_explicit in Hy.
    rewrite Hno2 in Hy. unfold Baseline.year_fallback in Hy.
    destruct (find pub_date "MedlineDate" ≫= Baseline.nonempty_text) as [t|];
      [|no_year Hy].
    destruct (Baseline.match_4_digits t) as [g|] eqn:Eg;
      [|no_year Hy].
    pose proof (match_4_digits_decimal _ _ Eg) as Hall.
    rewrite (int_of_decimal g Hall) in Hy.
    intros y Hy'. rewrite Hy' in Hy. injection Hy as <-. unfold Baseline.match_4_digits in Eg.
    destruct (_ && _) in Eg; [|done]. injection Eg as <-.
    change (Py.text (take 4 (chars t))) with (prefix 4 t) in *.
    by apply decimal_of_prefix_bound.
Qed.

End GuardedInt.

Lemma isdigit_guard_admits_superscripts_witness :
  Reprocess.extract_fields (F:=NoFloat) sample_loads (String "178"%char "")
    not_json
  = Raise ValueError.
Proof.
  destruct (isdigit_guard_admits_superscripts (F:=NoFloat) sample_loads
              (String "178"%char "") eq_refl eq_refl) as [H _].
  exact (H not_json eq_refl).
Defined.

Lemma fallback_year_in_range_witness :
  ∃ r1 r2 : @Row NoFloat,
    Reprocess.extract_fields sample_loads "9" (blob doc_medline_date) = Ok r1
    ∧ Baseline.extract_article_fields art_medline_date = Some r2
    ∧ (∀ y, Year r1 = Some y → 0 ≤ y ≤ 9999)
    ∧ (∀ y, Year r2 = Some y → 0 ≤ y ≤ 9999).
Proof.
  eexists _, _. split; [reflexivity|]. split; [reflexivity|].
  apply (fallback_year_in_range (F:=NoFloat) sample_loads "9"
           (blob doc_medline_date) doc_medline_date _ _
           [("MedlineDate", VStr "1998 Jan-Feb")] _ art_medline_date _ _ _ _
           eq_refl eq_refl eq_refl eq_refl eq_refl eq_refl
           eq_refl eq_refl eq_refl eq_refl eq_refl).
Defined.

(** ** The v1 stage and the blob path *)

Section V1Facts.
Context `{F : PyFloat} (json_loads : string → option value).

Lemma mapM_head_raise {A B} (f : A → result B) x xs e :
  f x = Raise e → mapM f (x :: xs) = Raise e.
Proof. intros H. simpl. by rewrite H. Qed.

(** [unzip_and_process] needs a list of articles: given a single object
    (or a text) it iterates over the keys (the characters) and raises
    [AttributeError] at the first. *)
Theorem v1_needs_a_list (articles : value) :
  (∃ d, articles = VDict d ∧ d ≠ []) ∨ (∃ s, articles = VStr s ∧ s ≠ "") →
  V1.unzip_and_process articles = Raise AttributeError.
Proof.
  intros [(d & -> & Hd)|(s & -> & Hs)]; unfold V1.unzip_and_process; simpl.
  - destruct d as [|[k v] d]; [done|]. reflexivity.
  - destruct s as [|c s]; [done|]. reflexivity.
Qed.

(** What the blob path reads as identifier text from a record the v1
    stage wrote a string cell for: the cell. *)
Lemma v1_pmid_val (article : value) (cell blob : string) medline :
  V1.article_row article = Ok (VStr cell, blob) →
  get article "MedlineCitation" (VDict []) = Ok medline →
  Reprocess.pmid_val medline cell = VStr cell.
Proof.
  unfold V1.article_row. intros H Hm. rewrite Hm in H. simpl in H.
  destruct medline as [| | | | | |m]; try done. simpl in H.
  unfold Reprocess.pmid_val, Reprocess.safe_get. simpl.
  destruct (dict_get m "PMID" (VDict [])) as [| | | | | |p]; try done.
  simpl in H. injection H as H _. unfold dict_get in *.
  destruct (lookup_key p "#text") as [v|]; subst.
  - unfold or_else. by destruct cell.
  - injection H as <-. reflexivity.
Qed.

(** The v1 stage and the blob path composed: for a row the v1 stage wrote
    with a string cell, the identifier of the row [extract_fields] returns
    is the number the cell denotes when the cell is made of decimal
    digits, and 0 otherwise, whether the blob decodes back to the article
    or does not decode. *)
Theorem v1_row_identifier (article : value) (cell blob : string) (r : Row) :
  V1.article_row article = Ok (VStr cell, blob) →
  json_loads blob = Some article ∨ json_loads blob = None →
  Reprocess.extract_fields json_loads cell blob = Ok r →
  PMID r = if all_decimal cell then decimal_of cell else 0.
Proof.
  intros Hrow Hl Hr.
  assert (Hid : (if isdigit cell then int_of_str cell else Ok 0) = Ok (PMID r)).
  { destruct Hl as [Hl|Hl].
    - destruct (extract_fields_row _ _ _ _ _ Hl Hr)
        as (medline & _ & _ & Hm & _ & _ & Hp & _).
      unfold Reprocess.get_pmid_int in Hp.
      by rewrite (v1_pmid_val _ _ _ _ Hrow Hm) in Hp.
    - unfold Reprocess.extract_fields in Hr. rewrite Hl in Hr.
      destruct (if isdigit cell then int_of_str cell else Ok 0); [|done].
      simpl in Hr. by injection Hr as <-. }
  destruct (isdigit cell) eqn:Ed.
  - destruct (int_of_isdigit_ok _ _ Ed Hid) as [-> ->]. done.
  - destruct (all_decimal cell) eqn:Ea.
    + by rewrite (all_decimal_isdigit _ Ea) in Ed.
    + by injection Hid.
Qed.

End V1Facts.

(** ** The year keys of the metadata *)

Section MetadataFacts.

Lemma to_int_nonnil z :
  Z.to_int z ≠ Decimal.Pos Decimal.Nil ∧ Z.to_int z ≠ Decimal.Neg Decimal.Nil.
Proof.
  destruct z as [|p|p]; simpl; split; try done; intros [= H];
    by apply DecimalPos.Unsigned.to_uint_nonnil in H.
Qed.

Lemma str_of_int_inj : Inj (=) (=) str_of_int.
Proof.
  intros a b H. unfold str_of_int in H.
  apply (f_equal NilZero.int_of_string) in H.
  destruct (to_int_nonnil a) as [Ha1 Ha2], (to_int_nonnil b) as [Hb1 Hb2].
  rewrite !NilZero.isi in H by done. injection H as H.
  apply (f_equal Z.of_int) in H. by rewrite !DecimalZ.of_to in H.
Qed.

(** Every year of the totals is in the metadata under its decimal
    rendering and with its count: no two years share a key. *)
Theorem metadata_keeps_every_year (year_totals : gmap Z nat) (year : Z) :
  Metadata.year_distribution year_totals !! str_of_int year
  = year_totals !! year.
Proof.
  pose proof str_of_int_inj as Hinj.
  change (Metadata.year_distribution year_totals)
    with (kmap (M2:=gmap string) str_of_int year_totals).
  apply (lookup_kmap (M2:=gmap string) str_of_int).
Qed.

End MetadataFacts.

(** ** The names of the authors *)

Section AuthorFacts.
Context `{F : PyFloat}.

Lemma lstrip_stop p c l : p c = false → lstrip p (c :: l) = c :: l.
Proof. intros H. simpl. by rewrite H. Qed.

Lemma strip_trimmed s : trimmed s = true → strip_comma_space s = s.
Proof.
  unfold trimmed, strip_comma_space, strip_chars.
  destruct (chars s) as [|c l] eqn:E; [done|].
  destruct (rev (c :: l)) as [|c' l'] eqn:Er; [done|].
  intros H. apply andb_true_iff in H as [Hc Hc'].
  apply negb_true_iff in Hc, Hc'.
  rewrite (lstrip_stop (λ c, (ord c =? 44)%N || (ord c =? 32)%N) c l Hc), Er,
    (lstrip_stop (λ c, (ord c =? 44)%N || (ord c =? 32)%N) c' l' Hc'), <- Er.
  rewrite rev_involutive, <- E. apply string_of_list_ascii_of_string.
Qed.

Lemma strip_trailing_separator s :
  trimmed s = true → strip_comma_space (s +:+ ", ") = s.
Proof.
  unfold trimmed, strip_comma_space, strip_chars. rewrite chars_app.
  destruct (chars s) as [|c l] eqn:E; [done|].
  destruct (rev (c :: l)) as [|c' l'] eqn:Er; [done|].
  intros H. apply andb_true_iff in H as [Hc Hc'].
  apply negb_true_iff in Hc, Hc'.
  change ((c :: l) ++ chars ", ") with (c :: (l ++ chars ", ")).
  rewrite (lstrip_stop (λ c, (ord c =? 44)%N || (ord c =? 32)%N) c _ Hc).
  change (c :: (l ++ chars ", ")) with ((c :: l) ++ chars ", ").
  rewrite rev_app_distr, Er. simpl rev. simpl app.
  unfold comma_or_space in Hc'. rewrite Hc', <- Er.
  rewrite rev_involutive, <- E. apply string_of_list_ascii_of_string.
Qed.

Lemma trimmed_join last first :
  trimmed last = true → trimmed first = true →
  trimmed (last +:+ ", " +:+ first) = true.
Proof.
  unfold trimmed. rewrite !chars_app, !rev_app_distr.
  destruct (chars last) as [|c l]; [done|].
  destruct (rev (c :: l)) as [|c1 l1]; [done|].
  destruct (chars first) as [|d m]; [done|].
  destruct (rev (d :: m)) as [|d1 m1]; [done|].
  simpl. intros H1 H2.
  apply andb_true_iff in H1 as [-> _]. by apply andb_true_iff in H2 as [_ ->].
Qed.

(** The entry of an author in the authors column, the same in both
    paths: for a last name and a forename that neither start nor end with
    a comma or a space it is [Last, First], and the last name alone for an
    author without forename. *)
Theorem author_rendering (last first : string) :
  trimmed last = true → first = "" ∨ trimmed first = true →
  let name := if String.eqb first "" then last else last +:+ ", " +:+ first in
  (∀ author : Element,
     findtext author "LastName" = Some last →
     Baseline.text_or (findtext author "ForeName") "" = first →
     Baseline.author_name author = [name])
  ∧ (∀ author : dict,
       lookup_key author "LastName" = Some (VStr last) →
       dict_get author "ForeName" (VStr "") = VStr first →
       Reprocess.author_name author = [name]).
Proof.
  intros Hl Hf name.
  assert (Hne : String.eqb last "" = false) by by destruct last.
  assert (Hname : strip_comma_space (last +:+ ", " +:+ first) = name).
  { unfold name. destruct Hf as [->|Hf].
    - simpl. by apply strip_trailing_separator.
    - assert (String.eqb first "" = false) as -> by by destruct first.
      apply strip_trimmed. by apply trimmed_join. }
  split.
  - intros author Hlast Hfirst. unfold Baseline.author_name.
    rewrite Hlast, Hfirst. unfold Baseline.text_or. rewrite Hne.
    cbv beta iota. by rewrite Hne, Hname.
  - intros author Hlast Hfirst. unfold Reprocess.author_name.
    rewrite Hfirst. unfold dict_get. rewrite Hlast. simpl truthy.
    rewrite Hne. simpl. by rewrite Hname.
Qed.

End AuthorFacts.

Lemma v1_needs_a_list_witness :
  V1.unzip_and_process (F:=NoFloat) doc_full = Raise AttributeError.
Proof.
  apply (v1_needs_a_list (F:=NoFloat) doc_full).
  left. eexists. split; [reflexivity|discriminate].
Defined.

Lemma v1_row_identifier_witness :
  ∃ r : @Row NoFloat,
    V1.article_row doc_full = Ok (VStr "25383517", blob doc_full)
    ∧ Reprocess.extract_fields sample_loads "25383517" (blob doc_full) = Ok r
    ∧ PMID r = 25383517.
Proof.
  eexists. split; [reflexivity|]. split; [reflexivity|].
  apply (v1_row_identifier (F:=NoFloat) sample_loads doc_full "25383517"
           (blob doc_full) _ eq_refl (or_introl eq_refl) eq_refl).
Defined.

Lemma author_rendering_witness :
  Baseline.author_name
    (node "Author" [leaf "LastName" "Doudna"; leaf "ForeName" "Jennifer A"])
  = ["Doudna, Jennifer A"]
  ∧ Reprocess.author_name (F:=NoFloat) [("LastName", VStr "Doudna")]
    = ["Doudna"].
Proof.
  split.
  - apply (author_rendering (F:=NoFloat) "Doudna" "Jennifer A" eq_refl
             (or_intror eq_refl)); reflexivity.
  - apply (author_rendering (F:=NoFloat) "Doudna" "" eq_refl
             (or_introl eq_refl)); reflexivity.
Defined.
